(** * ws2811-pcm: the PCM/DMA driver for WS281x LED strips

    A shallow embedding of [src/lib/ws2811-pcm.c] and the properties of its
    buffer sizing, pixel encoder, completion waiter and initialisation.

    C integers are modelled as [Z] with the conversions of a 32-bit target
    written out: [to_uint32] for [uint32_t] (and for an [int] converted to
    unsigned), [to_int32] for [int], [to_uint8] for [uint8_t]. *)

From Stdlib Require Import ZArith List Bool Lia.
Import ListNotations.
Local Open Scope Z_scope.

(** ** Machine integers *)

Module CInt.

Definition to_uint32 (z : Z) : Z := z mod 2 ^ 32.
Definition to_int32 (z : Z) : Z := (z + 2 ^ 31) mod 2 ^ 32 - 2 ^ 31.
Definition to_uint8 (z : Z) : Z := z mod 2 ^ 8.
Definition INT_MAX : Z := 2 ^ 31 - 1.

(** A C condition: nonzero is true. *)
Definition truthy (z : Z) : bool := negb (z =? 0).

End CInt.
Import CInt.

(** ** Buffer sizing (lines 59-65) *)

Definition LED_RESET_uS : Z := 55.

(** The reset term [(LED_RESET_uS * (freq * 3)) / 1000000] of
    [LED_BIT_COUNT], computed in [uint32_t] as [freq] is one. *)
Definition reset_bits (freq : Z) : Z :=
  to_uint32 (LED_RESET_uS * to_uint32 (freq * 3)) / 1000000.

(** [LED_BIT_COUNT(leds, freq)] with [leds : int] and [freq : uint32_t]: the
    product [leds * 3 * 8 * 3] is an [int] (taken to wrap around, as the
    32-bit target's multiplication does), and the sum with the unsigned reset
    term is a [uint32_t]. *)
Definition LED_BIT_COUNT (leds freq : Z) : Z :=
  to_uint32 (to_int32 (leds * 3 * 8 * 3) + reset_bits freq).

(** [PCM_BYTE_COUNT(leds, freq)]; [~0x7] is the [int] -8, converted to
    [uint32_t] by the [&]. *)
Definition PCM_BYTE_COUNT (leds freq : Z) : Z :=
  to_uint32 (to_uint32 (Z.land (Z.shiftr (LED_BIT_COUNT leds freq) 3)
                               (to_uint32 (Z.lnot 7)) + 4) + 4).

Definition SYMBOL_HIGH : Z := 6.
Definition SYMBOL_LOW : Z := 4.

(** ** Declarations of the headers that are not part of the sources

    [gamma.h], [dma.h], [pcm.h], [mailbox.h] and [ws2811-pcm.h] are included
    by the file but absent; what the code uses of them is a parameter. *)

Record headers := {
  ws281x_gamma : Z -> Z;                    (* gamma.h: entry of the table *)
  RPI_DMA_CS_RESET : Z;                     (* dma.h *)
  RPI_DMA_CS_WAIT_OUTSTANDING_WRITES : Z;
  RPI_DMA_CS_PANIC_PRIORITY : Z -> Z;
  RPI_DMA_CS_PRIORITY : Z -> Z;
  RPI_DMA_CS_ERROR : Z;
  RPI_DMA_CS_INT : Z;
  RPI_DMA_CS_END : Z;
  RPI_DMA_CS_ACTIVE : Z;
  RPI_PCM_CS_TXON : Z;                      (* pcm.h *)
  PAGE_SIZE : Z;                            (* mailbox.h *)
  sizeof_dma_cb_t : Z                       (* dma.h *)
}.

(** The fields of [ws2811_channel_t] and [ws2811_t] that the file reads.
    [leds] is the array behind [channel->leds]; [freq] is a [uint32_t], as
    [setup_pcm]'s local copy of it is. *)
Record ws2811_channel_t := {
  gpionum : Z;
  invert : Z;
  count : Z;
  brightness : Z;
  strip_type : Z;
  leds : list Z
}.

Record ws2811_t := {
  freq : Z;
  dmanum : Z;
  channel : ws2811_channel_t
}.

Definition max_channel_led_count (ws : ws2811_t) : Z := count (channel ws).

(** ** The device as the CPU sees it

    [pcm_raw] is the memory behind [device->pcm_raw], addressed in 32-bit
    words ([((uint32_t * )pcm_raw)[i]]); an index outside the sized buffer is
    the memory next to it.  The registers are volatile: what a read returns
    is the hardware's choice, given by [hw r n] for the [n]-th volatile read
    since the start.  [log] is the history of the CPU's accesses, oldest
    first. *)

Inductive reg := DMA_CS | DMA_CONBLK_AD | DMA_DEBUG | PCM_CS.

Inductive event :=
| EvStore (wordpos value : Z)     (* a store to the DMA buffer *)
| EvRead (r : reg) (value : Z)    (* a volatile register read *)
| EvWrite (r : reg) (value : Z)   (* a volatile register write *)
| EvUsleep (usec : Z)
| EvStderr (debug : Z).           (* fprintf(stderr, "DMA Error: %08x\n", debug) *)

Record world := {
  pcm_raw : Z -> Z;
  reads : nat;
  log : list event
}.

Definition is_store (e : event) : bool :=
  match e with EvStore _ _ => true | _ => false end.

(** The C loop [for (i = 0; i < n; i++)] visits [upto n]. *)
Definition upto (n : Z) : list Z := map Z.of_nat (seq 0 (Z.to_nat n)).

Section Driver.

Variable H : headers.
Variable hw : reg -> nat -> Z.

Definition tick (e : event) (w : world) : world :=
  {| pcm_raw := pcm_raw w; reads := reads w; log := log w ++ [e] |}.

Definition vread (r : reg) (w : world) : Z * world :=
  let v := hw r (reads w) in
  (v, {| pcm_raw := pcm_raw w; reads := S (reads w);
         log := log w ++ [EvRead r v] |}).

Definition vwrite (r : reg) (v : Z) (w : world) : world := tick (EvWrite r v) w.

Definition usleep (usec : Z) (w : world) : world := tick (EvUsleep usec) w.

Definition store (i v : Z) (w : world) : world :=
  {| pcm_raw := fun j => if j =? i then v else pcm_raw w j;
     reads := reads w;
     log := log w ++ [EvStore i v] |}.

(** *** [pcm_raw_init] (lines 359-369) *)

Definition pcm_raw_init (ws : ws2811_t) (w : world) : world :=
  let maxcount := max_channel_led_count ws in
  let wordcount := to_int32 (PCM_BYTE_COUNT maxcount (freq ws) / 4) in
  fold_left (fun w (_ : Z) => store wordcount 0 w) (upto wordcount) w.

(** *** [ws2811_wait] (lines 550-567)

    One unit of fuel is one evaluation of the loop condition; [None] means
    the loop was still polling when the fuel ran out. *)

Fixpoint wait_loop (fuel : nat) (w : world) : option world :=
  match fuel with
  | O => None
  | S fuel' =>
      let (cs1, w1) := vread DMA_CS w in
      if truthy (Z.land cs1 (RPI_DMA_CS_ACTIVE H)) then
        let (cs2, w2) := vread DMA_CS w1 in
        if negb (truthy (Z.land cs2 (RPI_DMA_CS_ERROR H)))
        then wait_loop fuel' (usleep 10 w2)
        else Some w2
      else Some w1
  end.

Definition ws2811_wait (fuel : nat) (w : world) : option (Z * world) :=
  match wait_loop fuel w with
  | None => None
  | Some w1 =>
      let (cs, w2) := vread DMA_CS w1 in
      if truthy (Z.land cs (RPI_DMA_CS_ERROR H)) then
        let (debug, w3) := vread DMA_DEBUG w2 in
        Some (-1, tick (EvStderr debug) w3)
      else Some (0, w2)
  end.

(** *** [dma_start] (lines 303-324) *)

Definition dma_start (dma_cb_addr : Z) (w : world) : world :=
  let w := vwrite DMA_CS (RPI_DMA_CS_RESET H) w in
  let w := usleep 10 w in
  let w := vwrite DMA_CS (Z.lor (RPI_DMA_CS_INT H) (RPI_DMA_CS_END H)) w in
  let w := usleep 10 w in
  let w := vwrite DMA_CONBLK_AD dma_cb_addr w in
  let w := vwrite DMA_DEBUG 7 w in
  let w := vwrite DMA_CS
             (Z.lor (Z.lor (Z.lor (RPI_DMA_CS_WAIT_OUTSTANDING_WRITES H)
                                  (RPI_DMA_CS_PANIC_PRIORITY H 15))
                           (RPI_DMA_CS_PRIORITY H 15))
                    (RPI_DMA_CS_ACTIVE H)) w in
  let (cs, w) := vread PCM_CS w in
  vwrite PCM_CS (Z.lor cs (RPI_PCM_CS_TXON H)) w.

(** *** [ws2811_render] (lines 577-638)

    The locals [wordpos] and [bitpos] are [int]s: [bitpos] stays in
    [-1 .. 31], and [wordpos] counts up to [72 * count / 32], which is below
    [2^31] for every pixel array that a 32-bit address space holds.
    [1 << 31] is the [int] with only the sign bit set; the [&=] and [|=]
    convert the masks to [uint32_t]. *)

Record cursor := { wordpos : Z; bitpos : Z }.

Definition scale_of (ch : ws2811_channel_t) : Z := Z.land (brightness ch) 255 + 1.
Definition rshift (ch : ws2811_channel_t) : Z := Z.land (Z.shiftr (strip_type ch) 16) 255.
Definition gshift (ch : ws2811_channel_t) : Z := Z.land (Z.shiftr (strip_type ch) 8) 255.
Definition bshift (ch : ws2811_channel_t) : Z := Z.land (Z.shiftr (strip_type ch) 0) 255.

(** [channel->leds[i]], for an index inside the array; an index outside it
    reads memory that is not the array's, which the list does not hold (see
    [render_defined]). *)
Definition led_at (ch : ws2811_channel_t) (i : Z) : Z := nth (Z.to_nat i) (leds ch) 0.

(** [(v * scale) >> 8] for the channel value [v = (led >> shift) & 0xff],
    in [uint32_t]. *)
Definition scale_channel (v scale : Z) : Z := Z.shiftr (to_uint32 (v * scale)) 8.

(** [((led >> shift) & 0xff) * scale >> 8]; [led] is a [uint32_t], so C
    defines the shift for [shift < 32] only (see [render_defined]). *)
Definition scaled (led shift scale : Z) : Z :=
  scale_channel (Z.land (Z.shiftr led shift) 255) scale.

(** One entry of [uint8_t color[]] (lines 594-596). *)
Definition color_byte (led shift scale : Z) : Z :=
  to_uint8 (ws281x_gamma H (scaled led shift scale)).

(** Lines 603-607. *)
Definition symbol_for (inv c k : Z) : Z :=
  let symbol := if truthy inv then SYMBOL_HIGH else SYMBOL_LOW in
  if truthy (Z.land c (Z.shiftl 1 k))
  then (if truthy inv then SYMBOL_LOW else SYMBOL_HIGH)
  else symbol.

(** The body of the innermost loop (lines 611-623). *)
Definition put_symbol_bit (symbol l : Z) (st : world * cursor) : world * cursor :=
  let (w, c) := st in
  let mask := Z.shiftl 1 (bitpos c) in
  let w := store (wordpos c)
             (Z.land (pcm_raw w (wordpos c)) (to_uint32 (Z.lnot mask))) w in
  let w := if truthy (Z.land symbol (Z.shiftl 1 l))
           then store (wordpos c)
                  (Z.lor (pcm_raw w (wordpos c)) (to_uint32 mask)) w
           else w in
  let bitpos' := bitpos c - 1 in
  if bitpos' <? 0
  then (w, {| wordpos := wordpos c + 1; bitpos := 31 |})
  else (w, {| wordpos := wordpos c; bitpos := bitpos' |}).

Definition encode_symbol (symbol : Z) (st : world * cursor) : world * cursor :=
  fold_left (fun st l => put_symbol_bit symbol l st) [2; 1; 0] st.

Definition encode_color (inv c : Z) (st : world * cursor) : world * cursor :=
  fold_left (fun st k => encode_symbol (symbol_for inv c k) st)
            [7; 6; 5; 4; 3; 2; 1; 0] st.

Definition colors_of (ch : ws2811_channel_t) (i : Z) : list Z :=
  [ color_byte (led_at ch i) (rshift ch) (scale_of ch);
    color_byte (led_at ch i) (gshift ch) (scale_of ch);
    color_byte (led_at ch i) (bshift ch) (scale_of ch) ].

Definition encode_led (ch : ws2811_channel_t) (i : Z) (st : world * cursor)
  : world * cursor :=
  let color := colors_of ch i in
  fold_left (fun st j => encode_color (invert ch) (nth (Z.to_nat j) color 0) st)
            [0; 1; 2] st.

(** The encoding loop (lines 591-627). *)
Definition encode (ch : ws2811_channel_t) (st : world * cursor) : world * cursor :=
  fold_left (fun st i => encode_led ch i st) (upto (count ch)) st.

(** The world when the encoding loop is left, before the wait. *)
Definition rendered (ws : ws2811_t) (w : world) : world :=
  fst (encode (channel ws) (w, {| wordpos := 0; bitpos := 31 |})).

Definition ws2811_render (fuel : nat) (dma_cb_addr : Z) (ws : ws2811_t) (w : world)
  : option (Z * world) :=
  let w1 := rendered ws w in
  match ws2811_wait fuel w1 with
  | None => None
  | Some (r, w2) =>
      if truthy r then Some (-1, w2) else Some (0, dma_start dma_cb_addr w2)
  end.

End Driver.

(** ** Where the encoding loop is defined

    The loop reads [leds[0 .. count-1]] and shifts each of them, a
    [uint32_t], by the three shift fields of [strip_type].  C gives that a
    meaning only when the array holds [count] entries and every shift field
    is below 32; on other inputs the behaviour is undefined, and what
    [led_at] and [scaled] return there ([nth]'s default, the unbounded
    [Z.shiftr]) is not a statement about the code.  The theorems on the
    colour bytes assume [render_defined]. *)

Definition render_defined (ch : ws2811_channel_t) : Prop :=
  count ch <= Z.of_nat (length (leds ch)) /\
  Z.land (Z.shiftr (strip_type ch) 16) 255 < 32 /\
  Z.land (Z.shiftr (strip_type ch) 8) 255 < 32 /\
  Z.land (Z.shiftr (strip_type ch) 0) 255 < 32.

(** ** The buffer as a bit stream

    Bit [p] of the stream is bit [31 - p mod 32] of word [p / 32]: word 0
    first, each word from its most significant bit downwards. *)

Definition stream_bit (m : Z -> Z) (p : Z) : bool :=
  Z.testbit (m (p / 32)) (31 - p mod 32).

(** The stream position a cursor points at. *)
Definition pos (c : cursor) : Z := 32 * wordpos c + (31 - bitpos c).

(** What it means that a step from world [w] and cursor [c] to [st'] wrote
    the [n] bits [bits 0 .. bits (n-1)] at the cursor and nothing else. *)
Record written (n : Z) (bits : Z -> bool) (w : world) (c : cursor)
               (st' : world * cursor) : Prop := {
  wr_bitpos : 0 <= bitpos (snd st') <= 31;
  wr_pos : pos (snd st') = pos c + n;
  wr_bits : forall t, 0 <= t < n ->
              stream_bit (pcm_raw (fst st')) (pos c + t) = bits t;
  wr_frame : forall p, ~ (pos c <= p < pos c + n) ->
               stream_bit (pcm_raw (fst st')) p = stream_bit (pcm_raw w) p;
  wr_words : forall i, (forall p, pos c <= p < pos c + n -> p / 32 <> i) ->
               pcm_raw (fst st') i = pcm_raw w i;
  wr_reads : reads (fst st') = reads w;
  wr_log : exists es,
      log (fst st') = log w ++ es /\
      Forall (fun e => exists p v,
                pos c <= p < pos c + n /\ e = EvStore (p / 32) v) es /\
      (forall t, 0 <= t < n -> exists v, In (EvStore ((pos c + t) / 32) v) es)
}.

Definition Writes (f : world * cursor -> world * cursor) (n : Z)
                  (bits : Z -> bool) : Prop :=
  forall w c, 0 <= bitpos c <= 31 -> written n bits w c (f (w, c)).

(** The bit the loops of [ws2811_render] put at offset [t] of the stream:
    LED [t / 72], colour [(t mod 72) / 24], bit [7 - (t mod 24) / 3] of the
    colour byte, and bit [2 - t mod 3] of its symbol. *)
Definition encoded_bit (H : headers) (ch : ws2811_channel_t) (t : Z) : bool :=
  let color := nth (Z.to_nat ((t mod 72) / 24)) (colors_of H ch (t / 72)) 0 in
  Z.testbit (symbol_for (invert ch) color (7 - (t mod 24) / 3)) (2 - t mod 3).

(** ** Initialisation and teardown: the resources

    The collaborators ([rpi_hw_detect], [malloc], the mailbox interface,
    [mapmem], [dmanum_to_offset], [pcm_pin_alt]) are outside the file; each
    call is modelled by its result, chosen by the environment, and by the
    resource it hands out or takes back.  [live] lists what is held. *)

Module Init.

Inductive resource :=
| DeviceStruct                (* malloc(sizeof( *ws2811->device)) *)
| LedArray                    (* malloc(sizeof(ws2811_led_t) * count) *)
| Mailbox (handle : Z)        (* mbox_open *)
| VcMemory (mem_ref : Z)      (* mem_alloc *)
| VcLock (mem_ref : Z)        (* mem_lock *)
| Mapping (virt : Z).         (* mapmem *)

Definition resource_eqb (a b : resource) : bool :=
  match a, b with
  | DeviceStruct, DeviceStruct => true
  | LedArray, LedArray => true
  | Mailbox x, Mailbox y => x =? y
  | VcMemory x, VcMemory y => x =? y
  | VcLock x, VcLock y => x =? y
  | Mapping x, Mapping y => x =? y
  | _, _ => false
  end.

Definition release (r : resource) (live : list resource) : list resource :=
  filter (fun x => negb (resource_eqb r x)) live.

Record videocore_mbox_t := {
  handle : Z;
  mem_ref : Z;
  bus_addr : Z;
  size : Z;
  virt_addr : Z
}.

(** The pointer fields of [ws2811_device_t]; 0 is [NULL]. *)
Record ws2811_device_t := {
  dev_pcm_raw : Z;
  dev_dma : Z;
  dev_pcm : Z;
  dev_dma_cb : Z;
  dev_gpio : Z;
  dev_cm_pcm : Z;
  mbox : videocore_mbox_t
}.

(** What the calls into the collaborators return. *)
Record externals := {
  rpi_hw_detect : option Z;                   (* [Some videocore_base], or NULL *)
  malloc_device : option ws2811_device_t;     (* fresh, contents indeterminate *)
  mbox_open : Z;
  mem_alloc : Z;
  mem_lock : Z;
  mapmem_buffer : Z;
  malloc_leds : bool;
  dmanum_to_offset : Z;
  mapmem_dma : Z;
  mapmem_pcm : Z;
  mapmem_gpio : Z;
  mapmem_cm_pcm : Z;
  pcm_pin_alt : Z
}.

(** [ws2811->device] ([None] is NULL), whether [channel->leds] is non-NULL,
    the resources held, and how often [ws2811_cleanup] ran. *)
Record sys := {
  device : option ws2811_device_t;
  leds_set : bool;
  live : list resource;
  cleanups : nat
}.

Definition acquire_map (virt : Z) (l : list resource) : list resource :=
  if virt =? 0 then l else Mapping virt :: l.

Definition set_mbox (d : ws2811_device_t) (m : videocore_mbox_t) : ws2811_device_t :=
  {| dev_pcm_raw := dev_pcm_raw d; dev_dma := dev_dma d; dev_pcm := dev_pcm d;
     dev_dma_cb := dev_dma_cb d; dev_gpio := dev_gpio d;
     dev_cm_pcm := dev_cm_pcm d; mbox := m |}.

Section WithExternals.

Variable X : externals.

(** [map_registers] (lines 118-157): the device and the resources after it,
    with its return value. *)
Definition map_registers (d : ws2811_device_t) (l : list resource)
  : Z * ws2811_device_t * list resource :=
  if dmanum_to_offset X =? 0 then (-1, d, l) else
  let d := {| dev_pcm_raw := dev_pcm_raw d; dev_dma := mapmem_dma X;
              dev_pcm := dev_pcm d; dev_dma_cb := dev_dma_cb d;
              dev_gpio := dev_gpio d; dev_cm_pcm := dev_cm_pcm d;
              mbox := mbox d |} in
  let l := acquire_map (mapmem_dma X) l in
  if dev_dma d =? 0 then (-1, d, l) else
  let d := {| dev_pcm_raw := dev_pcm_raw d; dev_dma := dev_dma d;
              dev_pcm := mapmem_pcm X; dev_dma_cb := dev_dma_cb d;
              dev_gpio := dev_gpio d; dev_cm_pcm := dev_cm_pcm d;
              mbox := mbox d |} in
  let l := acquire_map (mapmem_pcm X) l in
  if dev_pcm d =? 0 then (-1, d, l) else
  let d := {| dev_pcm_raw := dev_pcm_raw d; dev_dma := dev_dma d;
              dev_pcm := dev_pcm d; dev_dma_cb := dev_dma_cb d;
              dev_gpio := mapmem_gpio X; dev_cm_pcm := dev_cm_pcm d;
              mbox := mbox d |} in
  let l := acquire_map (mapmem_gpio X) l in
  if dev_gpio d =? 0 then (-1, d, l) else
  let d := {| dev_pcm_raw := dev_pcm_raw d; dev_dma := dev_dma d;
              dev_pcm := dev_pcm d; dev_dma_cb := dev_dma_cb d;
              dev_gpio := dev_gpio d; dev_cm_pcm := mapmem_cm_pcm X;
              mbox := mbox d |} in
  let l := acquire_map (mapmem_cm_pcm X) l in
  if dev_cm_pcm d =? 0 then (-1, d, l) else
  (0, d, l).

(** [unmap_registers] (lines 166-189). *)
Definition unmap_registers (d : ws2811_device_t) (l : list resource)
  : list resource :=
  let l := if truthy (dev_dma d) then release (Mapping (dev_dma d)) l else l in
  let l := if truthy (dev_pcm d) then release (Mapping (dev_pcm d)) l else l in
  let l := if truthy (dev_cm_pcm d) then release (Mapping (dev_cm_pcm d)) l else l in
  let l := if truthy (dev_gpio d) then release (Mapping (dev_gpio d)) l else l in
  l.

(** [gpio_init] (lines 333-349): its return value. *)
Definition gpio_init (ws : ws2811_t) : Z :=
  let pinnum := gpionum (channel ws) in
  if truthy pinnum then
    let altnum := pcm_pin_alt X in
    if altnum <? 0 then -1 else 0
  else 0.

(** [ws2811_cleanup] (lines 378-402), on a non-NULL [device]. *)
Definition ws2811_cleanup (d : ws2811_device_t) (s : sys) : sys :=
  let l := live s in
  let l := if leds_set s then release LedArray l else l in
  let l :=
    if negb (handle (mbox d) =? -1) then
      let l := release (Mapping (virt_addr (mbox d))) l in
      let l := release (VcLock (mem_ref (mbox d))) l in
      let l := release (VcMemory (mem_ref (mbox d))) l in
      release (Mailbox (handle (mbox d))) l
    else l in
  let l := release DeviceStruct l in
  {| device := None; leds_set := false; live := l; cleanups := S (cleanups s) |}.

End WithExternals.

End Init.

(** ** Vocabulary for the histories *)

(** An event of the completion wait: a poll of [dma->cs], the delay between
    polls, the read of [dma->debug] and the report on stderr. *)
Definition is_wait_event (e : event) : bool :=
  match e with
  | EvRead DMA_CS _ | EvRead DMA_DEBUG _ | EvUsleep _ | EvStderr _ => true
  | _ => false
  end.

Definition is_cs_read (e : event) : bool :=
  match e with EvRead DMA_CS _ => true | _ => false end.

Definition is_usleep (e : event) : bool :=
  match e with EvUsleep _ => true | _ => false end.

(** How many poll delays a history holds. *)
Definition usleeps (es : list event) : nat := length (filter is_usleep es).

(** The history of [j] rounds of the loop of [ws2811_wait] that find the
    channel busy, from read [n] on: the two reads of [dma->cs] of the loop
    condition and the [usleep(10)] of the body, [j] times. *)
Fixpoint busy_polls (hw : reg -> nat -> Z) (n j : nat) : list event :=
  match j with
  | O => []
  | S j' =>
      [ EvRead DMA_CS (hw DMA_CS n); EvRead DMA_CS (hw DMA_CS (S n));
        EvUsleep 10 ] ++ busy_polls hw (S (S n)) j'
  end.

(** In a history, the first poll of [dma->cs] comes before any store to the
    buffer. *)
Fixpoint wait_precedes_stores (l : list event) : bool :=
  match l with
  | [] => true
  | EvStore _ _ :: _ => false
  | EvRead DMA_CS _ :: _ => true
  | _ :: l' => wait_precedes_stores l'
  end.

(** What [dma_start] adds to the history; [cs] is what it read from
    [pcm->cs]. *)
Definition dma_start_events (H : headers) (dma_cb_addr cs : Z) : list event :=
  [ EvWrite DMA_CS (RPI_DMA_CS_RESET H);
    EvUsleep 10;
    EvWrite DMA_CS (Z.lor (RPI_DMA_CS_INT H) (RPI_DMA_CS_END H));
    EvUsleep 10;
    EvWrite DMA_CONBLK_AD dma_cb_addr;
    EvWrite DMA_DEBUG 7;
    EvWrite DMA_CS
      (Z.lor (Z.lor (Z.lor (RPI_DMA_CS_WAIT_OUTSTANDING_WRITES H)
                           (RPI_DMA_CS_PANIC_PRIORITY H 15))
                    (RPI_DMA_CS_PRIORITY H 15))
             (RPI_DMA_CS_ACTIVE H));
    EvRead PCM_CS cs;
    EvWrite PCM_CS (Z.lor cs (RPI_PCM_CS_TXON H)) ].

(** The stores a step from [w] to [w1] added all fall into the buffer sized
    for [ws], words [0 .. PCM_BYTE_COUNT / 4 - 1]. *)
Definition stores_within (ws : ws2811_t) (w w1 : world) : Prop :=
  exists es,
    log w1 = log w ++ es /\
    Forall (fun e => exists i v,
              e = EvStore i v /\
              0 <= i < PCM_BYTE_COUNT (count (channel ws)) (freq ws) / 4) es /\
    (count (channel ws) = 0 -> es = []).

(** ** Concrete values for the examples *)

Module Examples.

(** The register bits of the BCM2835 manual, 4 KiB pages, a 32-byte control
    block, and the identity as gamma table. *)
Definition bcm2835 : headers := {|
  ws281x_gamma := fun x => x;
  RPI_DMA_CS_RESET := 2 ^ 31;
  RPI_DMA_CS_WAIT_OUTSTANDING_WRITES := 2 ^ 28;
  RPI_DMA_CS_PANIC_PRIORITY := fun v => Z.shiftl (Z.land v 15) 20;
  RPI_DMA_CS_PRIORITY := fun v => Z.shiftl (Z.land v 15) 16;
  RPI_DMA_CS_ERROR := 2 ^ 8;
  RPI_DMA_CS_INT := 2 ^ 2;
  RPI_DMA_CS_END := 2 ^ 1;
  RPI_DMA_CS_ACTIVE := 2 ^ 0;
  RPI_PCM_CS_TXON := 2 ^ 2;
  PAGE_SIZE := 4096;
  sizeof_dma_cb_t := 32
|}.

Definition strip (n : Z) (pixels : list Z) (inv : Z) : ws2811_t := {|
  freq := 800000;
  dmanum := 5;
  channel := {| gpionum := 21; invert := inv; count := n; brightness := 255;
                strip_type := 0x100800; leds := pixels |}
|}.

(** One red LED. *)
Definition one_red : ws2811_t := strip 1 [0xFF0000] 0.

(** A strip long enough for [72 * count] to exceed 32 bits. *)
Definition huge_count : Z := 59652324.
Definition huge_strip : ws2811_t :=
  strip huge_count (repeat 0 (Z.to_nat huge_count)) 0.

(** Memory: all zero, and all ones. *)
Definition blank : world := {| pcm_raw := fun _ => 0; reads := 0; log := [] |}.
Definition dirty : world := {| pcm_raw := fun _ => 0xFFFFFFFF; reads := 0; log := [] |}.

(** Hardware that is idle, that has the error bit set with [dma->debug] at
    5, and that is busy with a transfer for its first four reads. *)
Definition hw_idle : reg -> nat -> Z := fun _ _ => 0.
Definition hw_error : reg -> nat -> Z :=
  fun r _ => match r with DMA_CS => 2 ^ 8 | DMA_DEBUG => 5 | _ => 0 end.
Definition hw_busy : reg -> nat -> Z :=
  fun r n => match r with
             | DMA_CS => if (n <? 4)%nat then 1 else 0
             | _ => 0
             end.

(** Environments of [ws2811_init]: a fresh device structure, and calls that
    succeed but for the results given for [mem_alloc], [mem_lock], the
    [mapmem] of the PCM window and [pcm_pin_alt]. *)
Definition fresh_device : Init.ws2811_device_t := {|
  Init.dev_pcm_raw := 0; Init.dev_dma := 0; Init.dev_pcm := 0;
  Init.dev_dma_cb := 0; Init.dev_gpio := 0; Init.dev_cm_pcm := 0;
  Init.mbox := {| Init.handle := 0; Init.mem_ref := 0; Init.bus_addr := 0;
                  Init.size := 0; Init.virt_addr := 0 |}
|}.

Definition env (alloc lock pcm_window pin_alt : Z) : Init.externals := {|
  Init.rpi_hw_detect := Some 0x40000000;
  Init.malloc_device := Some fresh_device;
  Init.mbox_open := 3;
  Init.mem_alloc := alloc;
  Init.mem_lock := lock;
  Init.mapmem_buffer := 0x76000000;
  Init.malloc_leds := true;
  Init.dmanum_to_offset := 0x7500;
  Init.mapmem_dma := 0x76100000;
  Init.mapmem_pcm := pcm_window;
  Init.mapmem_gpio := 0x76300000;
  Init.mapmem_cm_pcm := 0x76400000;
  Init.pcm_pin_alt := pin_alt
|}.

Definition all_ok : Init.externals := env 7 0xDE000000 0x76200000 0.
(** [mem_alloc] returns 0. *)
Definition alloc_fails : Init.externals := env 0 0xDE000000 0x76200000 0.
(** [mem_lock] returns all ones. *)
Definition lock_fails : Init.externals := env 7 0xFFFFFFFF 0x76200000 0.
(** The DMA window maps, the PCM window does not. *)
Definition pcm_map_fails : Init.externals := env 7 0xDE000000 0 0.
(** The pin has no PCM function. *)
Definition bad_pin : Init.externals := env 7 0xDE000000 0x76200000 (-1).

End Examples.

(** ** Address translation (lines 55, 199-206) *)

(** [BUS_TO_PHYS(x)] on a [uint32_t]; [0xC0000000] does not fit an [int]
    and is an unsigned constant. *)
Definition BUS_TO_PHYS (x : Z) : Z := Z.land x (to_uint32 (Z.lnot 0xC0000000)).

(** [addr_to_bus]; pointers are addresses, the pointer difference is
    converted to [uint32_t]. *)
Definition addr_to_bus (m : Init.videocore_mbox_t) (virt : Z) : Z :=
  let offset := to_uint32 (virt - Init.virt_addr m) in
  to_uint32 (Init.bus_addr m + offset).

(** ** Reading the stream back

    A decoder for the symbols of the buffer: the middle bit of a symbol,
    undone the inversion, is the data bit; eight symbols, most significant
    first, make a byte. *)

Definition decode_bit (m : Z -> Z) (inv : Z) (p : Z) : bool :=
  xorb (stream_bit m (p + 1)) (truthy inv).

Definition decode_byte (m : Z -> Z) (inv : Z) (p : Z) : Z :=
  fold_left (fun acc s => 2 * acc + Z.b2z (decode_bit m inv (p + 3 * s)))
            [0; 1; 2; 3; 4; 5; 6; 7] 0.

(** Two channels differ at most in [invert] and the pin. *)
Definition same_pixels (ch ch' : ws2811_channel_t) : Prop :=
  count ch' = count ch /\ brightness ch' = brightness ch /\
  strip_type ch' = strip_type ch /\ leds ch' = leds ch.

(** ** The clock and the PCM peripheral (lines 215-294)

    [stop_pcm] and [setup_pcm] program the PCM block, its clock and the DMA
    control block.  The register bits of [clk.h], [pcm.h] and [dma.h] are
    parameters; a volatile read returns what the hardware chooses, [hw r n]
    for the [n]-th read; the two busy-waits on the clock run on fuel. *)

Module Setup.

Record setup_headers := {
  CM_PCM_CTL_PASSWD : Z;                    (* clk.h *)
  CM_PCM_CTL_KILL : Z;
  CM_PCM_CTL_BUSY : Z;
  CM_PCM_CTL_SRC_OSC : Z;
  CM_PCM_CTL_ENAB : Z;
  CM_PCM_DIV_PASSWD : Z;
  CM_PCM_DIV_DIVI : Z -> Z;
  RPI_PCM_CS_EN : Z;                        (* pcm.h *)
  RPI_PCM_CS_TXCLR : Z;
  RPI_PCM_CS_DMAEN : Z;
  RPI_PCM_MODE_FLEN : Z -> Z;
  RPI_PCM_MODE_FSLEN : Z -> Z;
  RPI_PCM_TXC_CH1WEX : Z;
  RPI_PCM_TXC_CH1EN : Z;
  RPI_PCM_TXC_CH1POS : Z -> Z;
  RPI_PCM_TXC_CH1WID : Z -> Z;
  RPI_PCM_DREQ_TX : Z -> Z;
  RPI_PCM_DREQ_TX_PANIC : Z -> Z;
  RPI_DMA_TI_NO_WIDE_BURSTS : Z;            (* dma.h *)
  RPI_DMA_TI_WAIT_RESP : Z;
  RPI_DMA_TI_DEST_DREQ : Z;
  RPI_DMA_TI_PERMAP : Z -> Z;
  RPI_DMA_TI_SRC_INC : Z;
  PCM_FIFO_PHYS : Z      (* (uint32_t)&((pcm_t * )PCM_PERIPH_PHYS)->fifo *)
}.

Definition OSC_FREQ : Z := 19200000.

Inductive sreg :=
| R_PCM_CS | R_PCM_MODE | R_PCM_TXC | R_PCM_DREQ
| R_CM_CTL | R_CM_DIV
| R_DMA_CS | R_DMA_TXFR_LEN.

Inductive sevent :=
| SRead (r : sreg) (value : Z)
| SWrite (r : sreg) (value : Z)
| SUsleep (usec : Z).

Record dma_cb_t := {
  ti : Z;
  source_ad : Z;
  dest_ad : Z;
  txfr_len : Z;
  stride : Z;
  nextconbk : Z
}.

(** The control block in the DMA memory, the number of volatile reads so
    far, and the history of the register accesses, oldest first. *)
Record state := {
  cb : dma_cb_t;
  nreads : nat;
  trace : list sevent
}.

(** How a function with busy-waits and a division ends. *)
Inductive result (A : Type) :=
| Returns (a : A)
| Polling            (* a busy-wait had not ended when the fuel ran out *)
| DivideByZero.
Arguments Returns {A} a.
Arguments Polling {A}.
Arguments DivideByZero {A}.

Section WithHardware.

Variable K : setup_headers.
Variable hw : sreg -> nat -> Z.

Definition sread (r : sreg) (s : state) : Z * state :=
  let v := hw r (nreads s) in
  (v, {| cb := cb s; nreads := S (nreads s); trace := trace s ++ [SRead r v] |}).

Definition swrite (r : sreg) (v : Z) (s : state) : state :=
  {| cb := cb s; nreads := nreads s; trace := trace s ++ [SWrite r v] |}.

Definition susleep (usec : Z) (s : state) : state :=
  {| cb := cb s; nreads := nreads s; trace := trace s ++ [SUsleep usec] |}.

(** [while (cm_pcm->ctl & CM_PCM_CTL_BUSY) ;] (line 228) *)
Fixpoint wait_while_busy (fuel : nat) (s : state) : option state :=
  match fuel with
  | O => None
  | S fuel' =>
      let (ctl, s1) := sread R_CM_CTL s in
      if truthy (Z.land ctl (CM_PCM_CTL_BUSY K))
      then wait_while_busy fuel' s1
      else Some s1
  end.

(** [while (!(cm_pcm->ctl & CM_PCM_CTL_BUSY)) ;] (line 257) *)
Fixpoint wait_until_busy (fuel : nat) (s : state) : option state :=
  match fuel with
  | O => None
  | S fuel' =>
      let (ctl, s1) := sread R_CM_CTL s in
      if negb (truthy (Z.land ctl (CM_PCM_CTL_BUSY K)))
      then wait_until_busy fuel' s1
      else Some s1
  end.

(** [stop_pcm] (lines 215-230) *)
Definition stop_pcm (fuel : nat) (s : state) : option state :=
  let s := swrite R_PCM_CS 0 s in
  let s := susleep 10 s in
  let s := swrite R_CM_CTL (Z.lor (CM_PCM_CTL_PASSWD K) (CM_PCM_CTL_KILL K)) s in
  let s := susleep 10 s in
  wait_while_busy fuel s.

(** [pcm->cs |= bits] *)
Definition pcm_cs_or (bits : Z) (s : state) : state :=
  let (cs, s) := sread R_PCM_CS s in
  swrite R_PCM_CS (Z.lor cs bits) s.

(** The control block [setup_pcm] builds (lines 277-288); [byte_count] is
    an [int32_t], [txfr_len] a [uint32_t]. *)
Definition control_block (d : Init.ws2811_device_t) (ws : ws2811_t) : dma_cb_t :=
  let byte_count :=
    to_int32 (PCM_BYTE_COUNT (max_channel_led_count ws) (freq ws)) in
  {| ti := Z.lor (Z.lor (Z.lor (Z.lor (RPI_DMA_TI_NO_WIDE_BURSTS K)
                                      (RPI_DMA_TI_WAIT_RESP K))
                               (RPI_DMA_TI_DEST_DREQ K))
                        (RPI_DMA_TI_PERMAP K 2))
                 (RPI_DMA_TI_SRC_INC K);
     source_ad := addr_to_bus (Init.mbox d) (Init.dev_pcm_raw d);
     dest_ad := PCM_FIFO_PHYS K;
     txfr_len := to_uint32 byte_count;
     stride := 0;
     nextconbk := 0 |}.

(** [setup_pcm] (lines 239-294); [3 * freq] is computed in [uint32_t]. *)
Definition setup_pcm (fuel : nat) (d : Init.ws2811_device_t) (ws : ws2811_t)
                     (s : state) : result (Z * state) :=
  match stop_pcm fuel s with
  | None => Polling
  | Some s =>
      let divisor := to_uint32 (3 * freq ws) in
      if divisor =? 0 then DivideByZero else
      let s := swrite R_CM_DIV
                 (Z.lor (CM_PCM_DIV_PASSWD K)
                        (CM_PCM_DIV_DIVI K (OSC_FREQ / divisor))) s in
      let s := swrite R_CM_CTL
                 (Z.lor (CM_PCM_CTL_PASSWD K) (CM_PCM_CTL_SRC_OSC K)) s in
      let s := swrite R_CM_CTL
                 (Z.lor (Z.lor (CM_PCM_CTL_PASSWD K) (CM_PCM_CTL_SRC_OSC K))
                        (CM_PCM_CTL_ENAB K)) s in
      let s := susleep 10 s in
      match wait_until_busy fuel s with
      | None => Polling
      | Some s =>
          let s := swrite R_PCM_CS (RPI_PCM_CS_EN K) s in
          let s := swrite R_PCM_MODE
                     (Z.lor (RPI_PCM_MODE_FLEN K 31) (RPI_PCM_MODE_FSLEN K 1)) s in
          let s := swrite R_PCM_TXC
                     (Z.lor (Z.lor (Z.lor (RPI_PCM_TXC_CH1WEX K)
                                          (RPI_PCM_TXC_CH1EN K))
                                   (RPI_PCM_TXC_CH1POS K 0))
                            (RPI_PCM_TXC_CH1WID K 8)) s in
          let s := pcm_cs_or (RPI_PCM_CS_TXCLR K) s in
          let s := susleep 10 s in
          let s := pcm_cs_or (RPI_PCM_CS_DMAEN K) s in
          let s := swrite R_PCM_DREQ
                     (Z.lor (RPI_PCM_DREQ_TX K 0x3F)
                            (RPI_PCM_DREQ_TX_PANIC K 0x10)) s in
          let s := {| cb := control_block d ws; nreads := nreads s;
                      trace := trace s |} in
          let s := swrite R_DMA_CS 0 s in
          let s := swrite R_DMA_TXFR_LEN 0 s in
          Returns (0, s)
      end
  end.

End WithHardware.

(** The polls of the clock control register from read [n] on, [k] of
    them. *)
Definition ctl_polls (hw : sreg -> nat -> Z) (n k : nat) : list sevent :=
  map (fun i => SRead R_CM_CTL (hw R_CM_CTL i)) (seq n k).

(** The clock is busy for [a] polls from read [n] on and then idle. *)
Definition busy_then_idle (K : setup_headers) (hw : sreg -> nat -> Z)
                          (n a : nat) : Prop :=
  (forall i, (i < a)%nat ->
     Z.land (hw R_CM_CTL (n + i)%nat) (CM_PCM_CTL_BUSY K) <> 0) /\
  Z.land (hw R_CM_CTL (n + a)%nat) (CM_PCM_CTL_BUSY K) = 0.

(** The clock is idle for [b] polls from read [n] on and then busy. *)
Definition idle_then_busy (K : setup_headers) (hw : sreg -> nat -> Z)
                          (n b : nat) : Prop :=
  (forall i, (i < b)%nat ->
     Z.land (hw R_CM_CTL (n + i)%nat) (CM_PCM_CTL_BUSY K) = 0) /\
  Z.land (hw R_CM_CTL (n + b)%nat) (CM_PCM_CTL_BUSY K) <> 0.

(** What [stop_pcm] adds to the history when it polls [k] times from read
    [n] on. *)
Definition stop_trace (K : setup_headers) (hw : sreg -> nat -> Z)
                      (n k : nat) : list sevent :=
  [ SWrite R_PCM_CS 0; SUsleep 10;
    SWrite R_CM_CTL (Z.lor (CM_PCM_CTL_PASSWD K) (CM_PCM_CTL_KILL K));
    SUsleep 10 ] ++ ctl_polls hw n k.

End Setup.

(** ** [ws2811_init] and the teardown of [ws2811_fini] (lines 419-541) *)

Module Lifecycle.

Import Init.

(** The size [ws2811_init] asks the mailbox for (lines 439-442). *)
Definition mbox_size (H : headers) (ws : ws2811_t) : Z :=
  let sz := to_uint32 (PCM_BYTE_COUNT (max_channel_led_count ws) (freq ws)
                       + sizeof_dma_cb_t H) in
  Z.land (to_uint32 (sz + (PAGE_SIZE H - 1)))
         (to_uint32 (Z.lnot (PAGE_SIZE H - 1))).

(** The calls up to [mem_lock] succeed (lines 424-462). *)
Definition allocated (X : externals) : bool :=
  match rpi_hw_detect X, malloc_device X with
  | Some _, Some _ =>
      negb (mbox_open X =? -1) &&
      negb (mem_alloc X =? 0) &&
      negb (mem_lock X =? to_uint32 (Z.lnot 0))
  | _, _ => false
  end.

(** The DMA channel has an offset and the four windows map. *)
Definition windows_mapped (X : externals) : bool :=
  negb (dmanum_to_offset X =? 0) &&
  negb (mapmem_dma X =? 0) &&
  negb (mapmem_pcm X =? 0) &&
  negb (mapmem_gpio X =? 0) &&
  negb (mapmem_cm_pcm X =? 0).

(** No pin is asked for, or the pin has a PCM function. *)
Definition pin_supported (X : externals) (ws : ws2811_t) : bool :=
  (gpionum (channel ws) =? 0) || (0 <=? pcm_pin_alt X).

(** Every result that [ws2811_init] checks is a success (the result of
    mapping the buffer, line 463, is not checked). *)
Definition calls_succeed (X : externals) (ws : ws2811_t) : bool :=
  allocated X && malloc_leds X && windows_mapped X && pin_supported X ws.

(** The state [ws2811_init] returns with after [ws2811_cleanup]. *)
Definition torn_down : sys :=
  {| device := None; leds_set := false; live := []; cleanups := 1 |}.

(** The device structure a successful [ws2811_init] leaves. *)
Definition initialised_device (H : headers) (X : externals) (ws : ws2811_t)
  : ws2811_device_t := {|
  dev_pcm_raw := mapmem_buffer X + sizeof_dma_cb_t H;
  dev_dma := mapmem_dma X;
  dev_pcm := mapmem_pcm X;
  dev_dma_cb := mapmem_buffer X;
  dev_gpio := mapmem_gpio X;
  dev_cm_pcm := mapmem_cm_pcm X;
  mbox := {| handle := mbox_open X; mem_ref := mem_alloc X;
             bus_addr := mem_lock X; size := mbox_size H ws;
             virt_addr := mapmem_buffer X |}
|}.

(** What a successful [ws2811_init] holds, newest first. *)
Definition initialised_live (X : externals) : list resource :=
  [ Mapping (mapmem_cm_pcm X); Mapping (mapmem_gpio X);
    Mapping (mapmem_pcm X); Mapping (mapmem_dma X); LedArray ]
  ++ acquire_map (mapmem_buffer X)
       [ VcLock (mem_alloc X); VcMemory (mem_alloc X);
         Mailbox (mbox_open X); DeviceStruct ].

(** The teardown calls of [ws2811_fini] (lines 538-540), which follow its
    waits on the hardware: [unmap_registers], then [ws2811_cleanup]. *)
Definition fini_teardown (d : ws2811_device_t) (s : sys) : sys :=
  ws2811_cleanup d
    {| device := device s; leds_set := leds_set s;
       live := unmap_registers d (live s); cleanups := cleanups s |}.

(** Releasing several resources in turn. *)
Definition release_all (rs : list resource) (l : list resource) : list resource :=
  fold_left (fun l r => release r l) rs l.

(** The register windows of a device are all NULL. *)
Definition windows_null (d : ws2811_device_t) : Prop :=
  dev_dma d = 0 /\ dev_pcm d = 0 /\ dev_gpio d = 0 /\ dev_cm_pcm d = 0.

(** No mapping held in [l] is at an address that the windows will get. *)
Definition apart_from_windows (X : externals) (l : list resource) : Prop :=
  forall a, In (Mapping a) l ->
    a <> mapmem_dma X /\ a <> mapmem_pcm X /\
    a <> mapmem_gpio X /\ a <> mapmem_cm_pcm X.

(** *** [ws2811_init] (lines 419-520)

    Besides returning, a call can store outside the memory it has mapped
    (undefined in C: a segmentation fault where nothing else is mapped;
    the embedding follows the call no further), stay in a busy-wait of
    [setup_pcm], or divide by zero there. *)
Inductive outcome :=
| Returns (r : Z) (s : sys)
| Faults           (* a store outside the mapping of the buffer *)
| Polls            (* a busy-wait of [setup_pcm] outlasted the fuel *)
| DividesByZero.   (* [OSC_FREQ / (3 * freq)] with [3 * freq = 0] *)

(** The [n] bytes from address [a] on lie inside the mapping of the mailbox
    memory, the [size] bytes from [virt_addr] on; a NULL [virt_addr] is no
    mapping. *)
Definition in_mapping (m : videocore_mbox_t) (a n : Z) : bool :=
  negb (virt_addr m =? 0) && (virt_addr m <=? a) &&
  (a + n <=? virt_addr m + size m).

(** The stores of [pcm_raw_init]; which words it stores to does not depend
    on what the memory holds. *)
Definition pcm_raw_init_stores (ws : ws2811_t) : list event :=
  log (pcm_raw_init ws {| pcm_raw := fun _ => 0; reads := 0; log := [] |}).

(** Every store of a history, to words of [device->pcm_raw], lies inside
    the mapping. *)
Definition stores_mapped (d : ws2811_device_t) (es : list event) : bool :=
  forallb (fun e => match e with
                    | EvStore i _ => in_mapping (mbox d) (dev_pcm_raw d + 4 * i) 4
                    | _ => true
                    end) es.

(** The control block after [memset(dma_cb, 0, sizeof(dma_cb_t))]. *)
Definition zeroed (st : Setup.state) : Setup.state :=
  {| Setup.cb := {| Setup.ti := 0; Setup.source_ad := 0; Setup.dest_ad := 0;
                    Setup.txfr_len := 0; Setup.stride := 0;
                    Setup.nextconbk := 0 |};
     Setup.nreads := Setup.nreads st;
     Setup.trace := Setup.trace st |}.

Section WithHardware.

Variable H : headers.
Variable K : Setup.setup_headers.
Variable hw : Setup.sreg -> nat -> Z.
Variable X : externals.

(** [ws2811_init]: how the call ends, with the return value, the device
    structure and the resources held when it returns.  [st] is the control
    block memory and the history of the clock and PCM registers before the
    call; what [setup_pcm] makes of them is [Setup.setup_pcm]'s to say.
    Not part of [sys], and left out: the contents of the LED array and of
    the buffer (lines 478, 487), the default for [strip_type] (lines
    480-482) and the cached [dma_cb_addr] (line 492). *)
Definition ws2811_init (fuel : nat) (ws : ws2811_t) (st : Setup.state)
  : outcome :=
  let nothing := {| device := None; leds_set := false; live := []; cleanups := 0 |} in
  match rpi_hw_detect X with
  | None => Returns (-1) nothing
  | Some videocore_base =>
  match malloc_device X with
  | None => Returns (-1) nothing
  | Some d =>
  let l := [DeviceStruct] in
  let sz := to_uint32 (PCM_BYTE_COUNT (max_channel_led_count ws) (freq ws)
                       + sizeof_dma_cb_t H) in
  let sz := Z.land (to_uint32 (sz + (PAGE_SIZE H - 1)))
                   (to_uint32 (Z.lnot (PAGE_SIZE H - 1))) in
  let m := {| handle := mbox_open X; mem_ref := mem_ref (mbox d);
              bus_addr := bus_addr (mbox d); size := sz;
              virt_addr := virt_addr (mbox d) |} in
  if handle m =? -1 then
    Returns (-1) {| device := Some (set_mbox d m); leds_set := false;
                    live := l; cleanups := 0 |}
  else
  let l := Mailbox (handle m) :: l in
  let m := {| handle := handle m; mem_ref := mem_alloc X;
              bus_addr := bus_addr m; size := size m;
              virt_addr := virt_addr m |} in
  if mem_ref m =? 0 then
    Returns (-1) {| device := Some (set_mbox d m); leds_set := false;
                    live := l; cleanups := 0 |}
  else
  let l := VcMemory (mem_ref m) :: l in
  let m := {| handle := handle m; mem_ref := mem_ref m;
              bus_addr := mem_lock X; size := size m;
              virt_addr := virt_addr m |} in
  if bus_addr m =? to_uint32 (Z.lnot 0) then
    (* mem_free(device->mbox.handle, device->mbox.size) *)
    Returns (-1) {| device := Some (set_mbox d m); leds_set := false;
                    live := release (VcMemory (size m)) l; cleanups := 0 |}
  else
  let l := VcLock (mem_ref m) :: l in
  let m := {| handle := handle m; mem_ref := mem_ref m;
              bus_addr := bus_addr m; size := size m;
              virt_addr := mapmem_buffer X |} in
  let l := acquire_map (virt_addr m) l in
  let d := {| dev_pcm_raw := 0; dev_dma := dev_dma d; dev_pcm := dev_pcm d;
              dev_dma_cb := 0; dev_gpio := dev_gpio d;
              dev_cm_pcm := dev_cm_pcm d; mbox := m |} in
  if negb (malloc_leds X) then
    Returns (-1) (ws2811_cleanup d {| device := Some d; leds_set := false;
                                      live := l; cleanups := 0 |})
  else
  let l := LedArray :: l in
  let d := {| dev_pcm_raw := virt_addr m + sizeof_dma_cb_t H;
              dev_dma := dev_dma d; dev_pcm := dev_pcm d;
              dev_dma_cb := virt_addr m; dev_gpio := dev_gpio d;
              dev_cm_pcm := dev_cm_pcm d; mbox := m |} in
  (* pcm_raw_init(ws2811), line 487 *)
  if negb (stores_mapped d (pcm_raw_init_stores ws)) then Faults else
  (* memset((dma_cb_t * )device->dma_cb, 0, sizeof(dma_cb_t)), line 489 *)
  if negb (in_mapping m (dev_dma_cb d) (sizeof_dma_cb_t H)) then Faults else
  let st := zeroed st in
  let '(r, d, l) := map_registers X d l in
  if truthy r then
    Returns (-1) (ws2811_cleanup d {| device := Some d; leds_set := true;
                                      live := l; cleanups := 0 |})
  else
  if truthy (gpio_init X ws) then
    let l := unmap_registers d l in
    Returns (-1) (ws2811_cleanup d {| device := Some d; leds_set := true;
                                      live := l; cleanups := 0 |})
  else
  match Setup.setup_pcm K hw fuel d ws st with
  | Setup.Polling => Polls
  | Setup.DivideByZero => DividesByZero
  | Setup.Returns (r, _) =>
      if truthy r then
        let l := unmap_registers d l in
        Returns (-1) (ws2811_cleanup d {| device := Some d; leds_set := true;
                                          live := l; cleanups := 0 |})
      else
        Returns 0 {| device := Some d; leds_set := true; live := l;
                     cleanups := 0 |}
  end
  end end.

End WithHardware.

End Lifecycle.

Module MoreExamples.

(** The array of LEDs cannot be allocated. *)
Definition no_leds : Init.externals := {|
  Init.rpi_hw_detect := Some 0x40000000;
  Init.malloc_device := Some Examples.fresh_device;
  Init.mbox_open := 3;
  Init.mem_alloc := 7;
  Init.mem_lock := 0xDE000000;
  Init.mapmem_buffer := 0x76000000;
  Init.malloc_leds := false;
  Init.dmanum_to_offset := 0x7500;
  Init.mapmem_dma := 0x76100000;
  Init.mapmem_pcm := 0x76200000;
  Init.mapmem_gpio := 0x76300000;
  Init.mapmem_cm_pcm := 0x76400000;
  Init.pcm_pin_alt := 0
|}.

(** The buffer cannot be mapped: [mapmem] returns NULL. *)
Definition null_buffer : Init.externals := {|
  Init.rpi_hw_detect := Some 0x40000000;
  Init.malloc_device := Some Examples.fresh_device;
  Init.mbox_open := 3;
  Init.mem_alloc := 7;
  Init.mem_lock := 0xDE000000;
  Init.mapmem_buffer := 0;
  Init.malloc_leds := true;
  Init.dmanum_to_offset := 0x7500;
  Init.mapmem_dma := 0x76100000;
  Init.mapmem_pcm := 0x76200000;
  Init.mapmem_gpio := 0x76300000;
  Init.mapmem_cm_pcm := 0x76400000;
  Init.pcm_pin_alt := 0
|}.

(** 449 LEDs at 800000 Hz: buffer and control block, 4064 + 32 bytes, fill
    the page. *)
Definition page_filling : ws2811_t :=
  Examples.strip 449 (repeat 0 449) 0.

(** One red LED at a tick rate of 0. *)
Definition no_tick_rate : ws2811_t :=
  {| freq := 0; dmanum := 5; channel := channel Examples.one_red |}.

(** A clock that shows busy at every read of its control register. *)
Definition clock_stuck : Setup.sreg -> nat -> Z :=
  fun r _ => match r with Setup.R_CM_CTL => 2 ^ 7 | _ => 0 end.

(** Hardware whose error bit shows at the second read of [dma->cs] only,
    while the channel is active. *)
Definition hw_flicker : reg -> nat -> Z :=
  fun r n => match r with
             | DMA_CS => if (n =? 1)%nat then 2 ^ 8 + 1 else 1
             | _ => 0
             end.

End MoreExamples.

Module SetupExamples.

Import Setup.

(** Register bits as on the BCM2835: clock manager, PCM block and DMA
    engine. *)
Definition bcm2835 : setup_headers := {|
  CM_PCM_CTL_PASSWD := 0x5A000000;
  CM_PCM_CTL_KILL := 2 ^ 5;
  CM_PCM_CTL_BUSY := 2 ^ 7;
  CM_PCM_CTL_SRC_OSC := 1;
  CM_PCM_CTL_ENAB := 2 ^ 4;
  CM_PCM_DIV_PASSWD := 0x5A000000;
  CM_PCM_DIV_DIVI := fun v => Z.shiftl (Z.land v 0xFFF) 12;
  RPI_PCM_CS_EN := 1;
  RPI_PCM_CS_TXCLR := 2 ^ 3;
  RPI_PCM_CS_DMAEN := 2 ^ 9;
  RPI_PCM_MODE_FLEN := fun v => Z.shiftl (Z.land v 0x3FF) 10;
  RPI_PCM_MODE_FSLEN := fun v => Z.land v 0x3FF;
  RPI_PCM_TXC_CH1WEX := 2 ^ 31;
  RPI_PCM_TXC_CH1EN := 2 ^ 30;
  RPI_PCM_TXC_CH1POS := fun v => Z.shiftl (Z.land v 0x3FF) 20;
  RPI_PCM_TXC_CH1WID := fun v => Z.shiftl (Z.land v 0xF) 16;
  RPI_PCM_DREQ_TX := fun v => Z.shiftl (Z.land v 0x7F) 8;
  RPI_PCM_DREQ_TX_PANIC := fun v => Z.shiftl (Z.land v 0x7F) 24;
  RPI_DMA_TI_NO_WIDE_BURSTS := 2 ^ 26;
  RPI_DMA_TI_WAIT_RESP := 2 ^ 3;
  RPI_DMA_TI_DEST_DREQ := 2 ^ 6;
  RPI_DMA_TI_PERMAP := fun v => Z.shiftl (Z.land v 0x1F) 16;
  RPI_DMA_TI_SRC_INC := 2 ^ 8;
  PCM_FIFO_PHYS := 0x7E203004
|}.

Definition start : state := {|
  cb := {| ti := 0; source_ad := 0; dest_ad := 0; txfr_len := 0;
           stride := 0; nextconbk := 0 |};
  nreads := 0;
  trace := []
|}.

(** A clock that is busy at the first two reads of its control register,
    idle at the next two, and busy from then on. *)
Definition clock : sreg -> nat -> Z :=
  fun r n => match r with
             | R_CM_CTL => if ((n <? 2) || (4 <=? n))%nat then 2 ^ 7 else 0
             | _ => 0
             end.

Definition device : Init.ws2811_device_t :=
  Lifecycle.initialised_device Examples.bcm2835 Examples.all_ok Examples.one_red.

End SetupExamples.

(** * Proofs *)

(** ** Facts about the machine-integer conversions *)

Lemma to_uint32_range z : 0 <= to_uint32 z < 2 ^ 32.
Proof. unfold to_uint32. apply Z.mod_pos_bound. reflexivity. Qed.

Lemma to_uint32_small z : 0 <= z < 2 ^ 32 -> to_uint32 z = z.
Proof. intros H. unfold to_uint32. now apply Z.mod_small. Qed.

(** [x & ~0x7] on a 32-bit unsigned value rounds down to a multiple of 8. *)
Lemma land_not7 x :
  0 <= x < 2 ^ 32 -> Z.land x (to_uint32 (Z.lnot 7)) = 8 * (x / 8).
Proof.
  intros Hx.
  change (to_uint32 (Z.lnot 7)) with (Z.land (Z.lnot 7) (Z.ones 32)).
  rewrite Z.land_assoc, (Z.land_comm x), <- Z.land_assoc.
  rewrite (Z.land_ones x 32) by lia.
  rewrite (Z.mod_small x) by exact Hx.
  rewrite Z.land_comm, <- Z.ldiff_land.
  pose proof (Z.lor_ldiff_and x 7) as Hsplit.
  assert (Hdisj : Z.land (Z.ldiff x 7) (Z.land x 7) = 0).
  { apply Z.bits_inj'. intros n Hn.
    rewrite !Z.land_spec, Z.ldiff_spec, Z.bits_0.
    destruct (Z.testbit x n), (Z.testbit 7 n); reflexivity. }
  rewrite <- (Z.lxor_lor _ _ Hdisj) in Hsplit.
  rewrite <- (Z.add_nocarry_lxor _ _ Hdisj) in Hsplit.
  change 7 with (Z.ones 3) in Hsplit at 2.
  rewrite Z.land_ones in Hsplit by lia.
  change (2 ^ 3) with 8 in Hsplit.
  pose proof (Z.div_mod x 8). lia.
Qed.

(** The reset-latch term of [LED_BIT_COUNT] is a small non-negative number. *)
Lemma reset_bits_range freq : 0 <= reset_bits freq <= 4294.
Proof.
  unfold reset_bits.
  pose proof (to_uint32_range (LED_RESET_uS * to_uint32 (freq * 3))) as H.
  change (2 ^ 32) with 4294967296 in H.
  split.
  - apply Z.div_pos; lia.
  - apply Z.lt_succ_r. apply Z.div_lt_upper_bound; lia.
Qed.

(** Converting the [int] operand to unsigned forgets its wrap-around. *)
Lemma to_uint32_of_int32 a b : to_uint32 (to_int32 a + b) = to_uint32 (a + b).
Proof.
  unfold to_uint32, to_int32.
  rewrite (Z.mod_eq (a + 2 ^ 31)) by (change (2 ^ 32) with 4294967296; lia).
  replace (a + 2 ^ 31 - 2 ^ 32 * ((a + 2 ^ 31) / 2 ^ 32) - 2 ^ 31 + b)
    with (a + b + (- ((a + 2 ^ 31) / 2 ^ 32)) * 2 ^ 32) by ring.
  apply Z.mod_add. change (2 ^ 32) with 4294967296. lia.
Qed.

(** Where the bit count does not exceed 32 bits, the macros compute the
    mathematical formula. *)
Lemma LED_BIT_COUNT_exact leds freq :
  0 <= leds -> 72 * leds + reset_bits freq < 2 ^ 32 ->
  LED_BIT_COUNT leds freq = 72 * leds + reset_bits freq.
Proof.
  intros H0 H1. unfold LED_BIT_COUNT.
  pose proof (reset_bits_range freq) as Hr.
  rewrite to_uint32_of_int32. rewrite to_uint32_small; lia.
Qed.

Lemma PCM_BYTE_COUNT_exact leds freq :
  0 <= leds -> 72 * leds + reset_bits freq < 2 ^ 32 ->
  PCM_BYTE_COUNT leds freq = 8 * ((72 * leds + reset_bits freq) / 64) + 8.
Proof.
  intros H0 H1.
  pose proof (LED_BIT_COUNT_exact leds freq H0 H1) as Hb.
  pose proof (reset_bits_range freq) as Hr.
  unfold PCM_BYTE_COUNT. rewrite Hb.
  change (2 ^ 32) with 4294967296 in H1.
  set (b := 72 * leds + reset_bits freq) in *.
  rewrite Z.shiftr_div_pow2 by lia. change (2 ^ 3) with 8.
  assert (0 <= b / 8 < 536870912).
  { split; [apply Z.div_pos; lia | apply Z.div_lt_upper_bound; lia]. }
  rewrite land_not7 by (change (2 ^ 32) with 4294967296; lia).
  rewrite Z.div_div by lia. change (8 * 8) with 64.
  assert (0 <= b / 64 < 67108864).
  { split; [apply Z.div_pos; lia | apply Z.div_lt_upper_bound; lia]. }
  rewrite (to_uint32_small (8 * (b / 64) + 4))
    by (change (2 ^ 32) with 4294967296; lia).
  rewrite to_uint32_small by (change (2 ^ 32) with 4294967296; lia).
  lia.
Qed.

(** ** Bit-level facts *)

Lemma truthy_land_bit s l :
  truthy (Z.land s (Z.shiftl 1 l)) = Z.testbit s l.
Proof.
  unfold truthy. rewrite Z.shiftl_1_l.
  destruct (Z.ltb_spec l 0) as [Hneg|Hl].
  { rewrite Z.pow_neg_r, Z.land_0_r, Z.testbit_neg_r by lia. reflexivity. }
  destruct (Z.testbit s l) eqn:Hb.
  - destruct (Z.eqb_spec (Z.land s (2 ^ l)) 0) as [E|E]; [|reflexivity].
    exfalso.
    assert (Ht : Z.testbit (Z.land s (2 ^ l)) l = true).
    { rewrite Z.land_spec, Hb, Z.pow2_bits_true by lia. reflexivity. }
    rewrite E, Z.bits_0 in Ht. discriminate.
  - assert (E : Z.land s (2 ^ l) = 0).
    { apply Z.bits_inj'. intros n Hn.
      rewrite Z.land_spec, Z.bits_0, Z.pow2_bits_eqb by lia.
      destruct (Z.eqb_spec l n) as [->|]; [rewrite Hb|]; auto using andb_false_r. }
    rewrite E. reflexivity.
Qed.

Lemma testbit_clear x b t :
  0 <= b <= 31 -> 0 <= t <= 31 ->
  Z.testbit (Z.land x (to_uint32 (Z.lnot (Z.shiftl 1 b)))) t
  = Z.testbit x t && negb (b =? t).
Proof.
  intros Hb Ht. unfold to_uint32.
  rewrite Z.land_spec, Z.mod_pow2_bits_low, Z.lnot_spec, Z.shiftl_1_l by lia.
  rewrite Z.pow2_bits_eqb by lia. reflexivity.
Qed.

Lemma testbit_set x b t :
  0 <= b <= 31 -> 0 <= t <= 31 ->
  Z.testbit (Z.lor x (to_uint32 (Z.shiftl 1 b))) t = Z.testbit x t || (b =? t).
Proof.
  intros Hb Ht. unfold to_uint32.
  rewrite Z.lor_spec, Z.mod_pow2_bits_low, Z.shiftl_1_l by lia.
  rewrite Z.pow2_bits_eqb by lia. reflexivity.
Qed.

(** ** The encoder writes a bit stream *)

Lemma Writes_ext f n bits bits' :
  (forall t, 0 <= t < n -> bits t = bits' t) ->
  Writes f n bits -> Writes f n bits'.
Proof.
  intros Hext Hf w c Hc. destruct (Hf w c Hc).
  constructor; try assumption.
  intros t Ht. rewrite <- Hext by assumption. auto.
Qed.

Lemma Writes_nothing : Writes (fun st => st) 0 (fun _ => false).
Proof.
  intros w c Hc. constructor; cbn [fst snd]; try lia; try reflexivity.
  exists []. split; [now rewrite app_nil_r|]. split; [constructor|]. lia.
Qed.

Lemma Writes_seq f g n m bf bg :
  0 <= n -> 0 <= m ->
  Writes f n bf -> Writes g m bg ->
  Writes (fun st => g (f st)) (n + m)
         (fun t => if t <? n then bf t else bg (t - n)).
Proof.
  intros Hn Hm Hf Hg w c Hc.
  destruct (Hf w c Hc) as [F1 F2 F3 F4 F5 F6 (es1 & F7 & F8 & F9)].
  destruct (f (w, c)) as [w1 c1] eqn:Ef. cbn [fst snd] in *.
  destruct (Hg w1 c1 F1) as [G1 G2 G3 G4 G5 G6 (es2 & G7 & G8 & G9)].
  destruct (g (w1, c1)) as [w2 c2] eqn:Eg. cbn [fst snd] in *.
  constructor; cbn [fst snd].
  - exact G1.
  - lia.
  - intros t Ht. destruct (Z.ltb_spec t n) as [Hlt|Hge].
    + rewrite G4 by lia. apply F3. lia.
    + replace (pos c + t) with (pos c1 + (t - n)) by lia. apply G3. lia.
  - intros p Hp. rewrite G4 by lia. apply F4. lia.
  - intros i Hi. rewrite G5, F5; [reflexivity| |]; intros p Hp; apply Hi; lia.
  - congruence.
  - exists (es1 ++ es2). split; [|split].
    + rewrite G7, F7. now rewrite app_assoc.
    + apply Forall_app. split.
      * eapply Forall_impl; [|exact F8]. cbv beta.
        intros e (p & v & Hp & ->). exists p, v. split; [lia|reflexivity].
      * eapply Forall_impl; [|exact G8]. cbv beta.
        intros e (p & v & Hp & ->). exists p, v. split; [lia|reflexivity].
    + intros t Ht. destruct (Z.ltb_spec t n) as [Hlt|Hge].
      * destruct (F9 t ltac:(lia)) as [v Hv]. exists v.
        apply in_or_app. now left.
      * destruct (G9 (t - n) ltac:(lia)) as [v Hv]. exists v.
        apply in_or_app. right.
        replace (pos c + t) with (pos c1 + (t - n)) by lia. exact Hv.
Qed.

(** A loop whose body writes [n] bits for each element writes them
    back to back. *)
Lemma Writes_loop (A : Type) (d : A) (body : A -> world * cursor -> world * cursor)
      (n : Z) (bits : A -> Z -> bool) (xs : list A) :
  0 < n ->
  (forall x, Writes (body x) n (bits x)) ->
  Writes (fun st => fold_left (fun st x => body x st) xs st)
         (n * Z.of_nat (length xs))
         (fun t => bits (nth (Z.to_nat (t / n)) xs d) (t mod n)).
Proof.
  intros Hn Hbody. induction xs as [|x xs IH].
  - cbn [fold_left length]. replace (n * Z.of_nat 0) with 0 by lia.
    eapply Writes_ext; [|exact Writes_nothing]. intros; lia.
  - cbn [fold_left].
    replace (n * Z.of_nat (length (x :: xs)))
      with (n + n * Z.of_nat (length xs)) by (cbn [length]; lia).
    assert (Hm : 0 <= n * Z.of_nat (length xs))
      by (apply Z.mul_nonneg_nonneg; lia).
    eapply Writes_ext;
      [|exact (Writes_seq _ _ n _ _ _ (Z.lt_le_incl _ _ Hn) Hm (Hbody x) IH)].
    intros t Ht. cbv beta.
    destruct (Z.ltb_spec t n) as [Hlt|Hge].
    + rewrite Z.div_small, Z.mod_small by lia. reflexivity.
    + replace t with ((t - n) + 1 * n) at 3 4 by lia.
      rewrite Z.div_add, Z.mod_add by lia.
      assert (0 <= (t - n) / n) by (apply Z.div_pos; lia).
      replace (Z.to_nat ((t - n) / n + 1)) with (S (Z.to_nat ((t - n) / n))) by lia.
      reflexivity.
Qed.

Lemma pos_word_bit c :
  0 <= bitpos c <= 31 -> pos c / 32 = wordpos c /\ 31 - pos c mod 32 = bitpos c.
Proof.
  intros Hc. unfold pos.
  pose proof (Z.div_mod (32 * wordpos c + (31 - bitpos c)) 32 ltac:(lia)) as E.
  pose proof (Z.mod_pos_bound (32 * wordpos c + (31 - bitpos c)) 32 ltac:(lia)) as B.
  lia.
Qed.

Lemma put_symbol_bit_Writes symbol l :
  Writes (put_symbol_bit symbol l) 1 (fun _ => Z.testbit symbol l).
Proof.
  intros w c Hc.
  destruct (pos_word_bit c Hc) as [Hword Hbit].
  unfold put_symbol_bit. rewrite truthy_land_bit.
  set (i := wordpos c) in *. set (b := bitpos c) in *.
  set (w1 := store i (Z.land (pcm_raw w i) (to_uint32 (Z.lnot (Z.shiftl 1 b)))) w).
  set (w2 := if Z.testbit symbol l
             then store i (Z.lor (pcm_raw w1 i) (to_uint32 (Z.shiftl 1 b))) w1
             else w1).
  assert (Hmem : forall p, stream_bit (pcm_raw w2) p =
                   if p =? pos c then Z.testbit symbol l
                   else stream_bit (pcm_raw w) p).
  { intros p. unfold stream_bit.
    assert (Hp : 0 <= 31 - p mod 32 <= 31)
      by (pose proof (Z.mod_pos_bound p 32 ltac:(lia)); lia).
    assert (Hsame : (p =? pos c) = (p / 32 =? i) && (b =? 31 - p mod 32)).
    { pose proof (Z.div_mod p 32 ltac:(lia)).
      pose proof (Z.div_mod (pos c) 32 ltac:(lia)).
      destruct (Z.eqb_spec p (pos c)), (Z.eqb_spec (p / 32) i),
        (Z.eqb_spec b (31 - p mod 32)); cbn; try reflexivity; subst; lia. }
    rewrite Hsame. subst w2 w1.
    destruct (Z.testbit symbol l); cbn [store pcm_raw];
      rewrite ?Z.eqb_refl;
      destruct (Z.eqb_spec (p / 32) i) as [->|]; cbn [andb]; try reflexivity.
    - rewrite testbit_set, testbit_clear by lia.
      destruct (b =? 31 - p mod 32), (Z.testbit (pcm_raw w i) (31 - p mod 32));
        reflexivity.
    - rewrite testbit_clear by lia.
      destruct (b =? 31 - p mod 32), (Z.testbit (pcm_raw w i) (31 - p mod 32));
        reflexivity. }
  assert (Hword' : forall j, j <> i -> pcm_raw w2 j = pcm_raw w j).
  { intros j Hj. subst w2 w1.
    destruct (Z.testbit symbol l); cbn [store pcm_raw];
      destruct (Z.eqb_spec j i); congruence. }
  assert (Hreads : reads w2 = reads w).
  { subst w2 w1. destruct (Z.testbit symbol l); reflexivity. }
  assert (Hlog : exists es, log w2 = log w ++ es /\
            Forall (fun e => exists p v, pos c <= p < pos c + 1 /\
                                         e = EvStore (p / 32) v) es /\
            (forall t, 0 <= t < 1 -> exists v,
                In (EvStore ((pos c + t) / 32) v) es)).
  { subst w2 w1. destruct (Z.testbit symbol l); cbn [store log].
    - eexists [_; _]. split; [now rewrite <- app_assoc|]. split.
      + repeat constructor; exists (pos c);
          eexists; (split; [lia|rewrite Hword; reflexivity]).
      + intros t Ht. replace (pos c + t) with (pos c) by lia.
        rewrite Hword. eexists. left. reflexivity.
    - eexists [_]. split; [reflexivity|]. split.
      + repeat constructor; exists (pos c);
          eexists; (split; [lia|rewrite Hword; reflexivity]).
      + intros t Ht. replace (pos c + t) with (pos c) by lia.
        rewrite Hword. eexists. left. reflexivity. }
  assert (Hcur : 0 <= bitpos (snd (if b - 1 <? 0
                    then (w2, {| wordpos := i + 1; bitpos := 31 |})
                    else (w2, {| wordpos := i; bitpos := b - 1 |}))) <= 31 /\
                 pos (snd (if b - 1 <? 0
                    then (w2, {| wordpos := i + 1; bitpos := 31 |})
                    else (w2, {| wordpos := i; bitpos := b - 1 |}))) = pos c + 1).
  { unfold pos. fold i b.
    destruct (Z.ltb_spec (b - 1) 0); cbn [snd wordpos bitpos]; lia. }
  assert (Hfst : fst (if b - 1 <? 0
                    then (w2, {| wordpos := i + 1; bitpos := 31 |})
                    else (w2, {| wordpos := i; bitpos := b - 1 |})) = w2).
  { destruct (b - 1 <? 0); reflexivity. }
  destruct Hcur as [Hc1 Hc2].
  constructor; rewrite ?Hfst; try assumption.
  - intros t Ht. rewrite Hmem.
    replace (pos c + t) with (pos c) by lia. now rewrite Z.eqb_refl.
  - intros p Hp. rewrite Hmem.
    destruct (Z.eqb_spec p (pos c)); [lia|reflexivity].
  - intros j Hj. apply Hword'. intros ->. apply (Hj (pos c)); [lia|exact Hword].
Qed.

Lemma encode_symbol_Writes symbol :
  Writes (encode_symbol symbol) 3 (fun t => Z.testbit symbol (2 - t)).
Proof.
  unfold encode_symbol.
  eapply Writes_ext;
    [|exact (Writes_loop Z 0 (put_symbol_bit symbol) 1
               (fun l _ => Z.testbit symbol l) [2; 1; 0] ltac:(lia)
               (put_symbol_bit_Writes symbol))].
  intros t Ht. cbv beta. rewrite Z.div_1_r.
  assert (t = 0 \/ t = 1 \/ t = 2) as [->|[->| ->]] by lia; reflexivity.
Qed.

Lemma encode_color_Writes inv c :
  Writes (encode_color inv c) 24
         (fun t => Z.testbit (symbol_for inv c (7 - t / 3)) (2 - t mod 3)).
Proof.
  unfold encode_color.
  eapply Writes_ext;
    [|exact (Writes_loop Z 0 (fun k => encode_symbol (symbol_for inv c k)) 3
               (fun k t => Z.testbit (symbol_for inv c k) (2 - t))
               [7; 6; 5; 4; 3; 2; 1; 0] ltac:(lia)
               (fun k => encode_symbol_Writes (symbol_for inv c k)))].
  intros t Ht. cbv beta.
  assert (Hq : 0 <= t / 3 < 8)
    by (split; [apply Z.div_pos | apply Z.div_lt_upper_bound]; lia).
  assert (t / 3 = 0 \/ t / 3 = 1 \/ t / 3 = 2 \/ t / 3 = 3 \/ t / 3 = 4 \/
          t / 3 = 5 \/ t / 3 = 6 \/ t / 3 = 7)
    as [->|[->|[->|[->|[->|[->|[->| ->]]]]]]] by lia; reflexivity.
Qed.

Lemma encode_led_Writes H ch i :
  Writes (encode_led H ch i) 72
         (fun t => Z.testbit
                     (symbol_for (invert ch)
                        (nth (Z.to_nat (t / 24)) (colors_of H ch i) 0)
                        (7 - (t mod 24) / 3))
                     (2 - (t mod 24) mod 3)).
Proof.
  unfold encode_led.
  eapply Writes_ext;
    [|exact (Writes_loop Z 0
               (fun j => encode_color (invert ch)
                           (nth (Z.to_nat j) (colors_of H ch i) 0)) 24
               (fun j t => Z.testbit
                             (symbol_for (invert ch)
                                (nth (Z.to_nat j) (colors_of H ch i) 0)
                                (7 - t / 3)) (2 - t mod 3))
               [0; 1; 2] ltac:(lia)
               (fun j => encode_color_Writes (invert ch) _))].
  intros t Ht. cbv beta.
  assert (Hq : 0 <= t / 24 < 3)
    by (split; [apply Z.div_pos | apply Z.div_lt_upper_bound]; lia).
  assert (t / 24 = 0 \/ t / 24 = 1 \/ t / 24 = 2) as [->|[->| ->]] by lia;
    reflexivity.
Qed.

Lemma nth_upto n d i :
  0 <= i < n -> nth (Z.to_nat i) (upto n) d = i.
Proof.
  intros Hi. unfold upto.
  rewrite (nth_indep _ d (Z.of_nat 0)) by (rewrite length_map, length_seq; lia).
  rewrite map_nth, seq_nth by lia. lia.
Qed.

Lemma length_upto n : Z.of_nat (length (upto n)) = Z.max 0 n.
Proof. unfold upto. rewrite length_map, length_seq. lia. Qed.

(** The encoding loop writes the [72 * count] bits [encoded_bit]. *)
Lemma encode_Writes H ch :
  Writes (encode H ch) (72 * Z.max 0 (count ch)) (encoded_bit H ch).
Proof.
  unfold encode. rewrite <- length_upto.
  eapply Writes_ext;
    [|exact (Writes_loop Z 0 (encode_led H ch) 72 _ (upto (count ch))
               ltac:(lia) (encode_led_Writes H ch))].
  intros t Ht. cbv beta. rewrite length_upto in Ht.
  assert (Hq : 0 <= t / 72 < count ch).
  { split; [apply Z.div_pos; lia | apply Z.div_lt_upper_bound; lia]. }
  rewrite nth_upto by exact Hq. unfold encoded_bit.
  replace ((t mod 72) mod 24) with (t mod 24).
  2:{ pose proof (Z.div_mod t 72 ltac:(lia)).
      pose proof (Z.mod_pos_bound t 72 ltac:(lia)).
      rewrite (Z.mul_comm 72) in H0.
      replace (t mod 24) with ((t mod 72 + (3 * (t / 72)) * 24) mod 24)
        by (f_equal; lia).
      now rewrite Z.mod_add by lia. }
  replace ((t mod 24) mod 3) with (t mod 3); [reflexivity|].
  pose proof (Z.div_mod t 24 ltac:(lia)).
  replace (t mod 3) with ((t mod 24 + (8 * (t / 24)) * 3) mod 3) by (f_equal; lia).
  now rewrite Z.mod_add by lia.
Qed.

(** ** The completion wait *)

Lemma wait_loop_log H hw fuel w w1 :
  wait_loop H hw fuel w = Some w1 ->
  pcm_raw w1 = pcm_raw w /\
  exists es, log w1 = log w ++ es /\ forallb is_wait_event es = true /\
             existsb is_cs_read es = true.
Proof.
  revert w. induction fuel as [|fuel IH]; intros w Hrun; [discriminate|].
  cbn [wait_loop vread reads pcm_raw log usleep tick] in Hrun.
  destruct (truthy (Z.land (hw DMA_CS (reads w)) (RPI_DMA_CS_ACTIVE H))).
  - destruct (negb (truthy (Z.land (hw DMA_CS (S (reads w))) (RPI_DMA_CS_ERROR H)))).
    + apply IH in Hrun. destruct Hrun as (Hm & es & Hl & Hes & Hex).
      unfold usleep, tick in Hm, Hl. cbn [pcm_raw] in Hm. cbn [log] in Hl.
      split; [exact Hm|].
      eexists ([_; _; _] ++ es).
      split; [|split].
      * rewrite Hl, <- !app_assoc. reflexivity.
      * exact Hes.
      * reflexivity.
    + injection Hrun as <-. split; [reflexivity|].
      eexists [_; _]. cbn [log].
      split; [now rewrite <- app_assoc|]. split; reflexivity.
  - injection Hrun as <-. split; [reflexivity|].
    eexists [_]. cbn [log]. split; [reflexivity|]. split; reflexivity.
Qed.

(** Whatever the hardware does, a wait that returns has read and written
    no buffer word, has only polled, slept and reported, and returns -1
    exactly when its last read of [dma->cs] had the error bit set; it then
    reports the value it read from [dma->debug]. *)
Lemma ws2811_wait_log H hw fuel w r w' :
  ws2811_wait H hw fuel w = Some (r, w') ->
  pcm_raw w' = pcm_raw w /\
  exists es cs,
    forallb is_wait_event es = true /\ existsb is_cs_read es = true /\
    ((r = 0 /\ log w' = log w ++ es ++ [EvRead DMA_CS cs] /\
      Z.land cs (RPI_DMA_CS_ERROR H) = 0) \/
     (r = -1 /\ Z.land cs (RPI_DMA_CS_ERROR H) <> 0 /\
      exists debug,
        log w' = log w ++ es ++ [EvRead DMA_CS cs; EvRead DMA_DEBUG debug;
                                 EvStderr debug])).
Proof.
  unfold ws2811_wait. intros Hrun.
  destruct (wait_loop H hw fuel w) as [w1|] eqn:Hloop; [|discriminate].
  destruct (wait_loop_log _ _ _ _ _ Hloop) as (Hm & es & Hl & Hes & Hex).
  cbn [vread] in Hrun. unfold truthy in Hrun.
  destruct (Z.eqb_spec (Z.land (hw DMA_CS (reads w1)) (RPI_DMA_CS_ERROR H)) 0)
    as [E|E]; cbn [negb] in Hrun; injection Hrun as <- <-.
  - split; [exact Hm|]. exists es, (hw DMA_CS (reads w1)).
    split; [exact Hes|]. split; [exact Hex|]. left.
    cbn [log]. rewrite Hl, <- app_assoc. auto.
  - split; [exact Hm|]. exists es, (hw DMA_CS (reads w1)).
    split; [exact Hes|]. split; [exact Hex|]. right.
    split; [reflexivity|]. split; [exact E|].
    eexists. cbn [tick log]. rewrite Hl, <- !app_assoc. reflexivity.
Qed.

Lemma dma_start_log H hw cb w :
  pcm_raw (dma_start H hw cb w) = pcm_raw w /\
  log (dma_start H hw cb w)
  = log w ++ dma_start_events H cb (hw PCM_CS (reads w)).
Proof.
  split; [reflexivity|].
  unfold dma_start, dma_start_events, vwrite, usleep, tick, vread.
  cbn [log reads]. rewrite <- !app_assoc. reflexivity.
Qed.

(** ** The encoding loop, from the start of the buffer *)

Lemma rendered_written H ws w :
  written (72 * Z.max 0 (count (channel ws))) (encoded_bit H (channel ws)) w
          {| wordpos := 0; bitpos := 31 |}
          (encode H (channel ws) (w, {| wordpos := 0; bitpos := 31 |})).
Proof. apply encode_Writes. cbn [bitpos]. lia. Qed.

Lemma rendered_store_exists H ws w t :
  0 <= t < 72 * count (channel ws) ->
  exists v, In (EvStore (t / 32) v) (log (rendered H ws w)).
Proof.
  intros Ht.
  destruct (rendered_written H ws w) as [_ _ _ _ _ _ (es & Hl & _ & Hex)].
  destruct (Hex t ltac:(lia)) as [v Hv]. exists v.
  unfold rendered. rewrite Hl. apply in_or_app. right. exact Hv.
Qed.

(** [ws2811_render] returns with the buffer the encoding loop left. *)
Lemma ws2811_render_buffer H hw fuel cb ws w r w' :
  ws2811_render H hw fuel cb ws w = Some (r, w') ->
  pcm_raw w' = pcm_raw (rendered H ws w).
Proof.
  unfold ws2811_render. intros Hrun.
  destruct (ws2811_wait H hw fuel (rendered H ws w)) as [[r1 w2]|] eqn:Hw;
    [|discriminate].
  apply ws2811_wait_log in Hw. destruct Hw as [Hm _].
  destruct (truthy r1); injection Hrun as <- <-; [exact Hm|].
  now rewrite (proj1 (dma_start_log H hw cb w2)).
Qed.

(** ** Termination of the wait *)

Lemma truthy_true z : z <> 0 -> truthy z = true.
Proof. intros Hz. unfold truthy. now destruct (Z.eqb_spec z 0). Qed.

Lemma truthy_false z : z = 0 -> truthy z = false.
Proof. intros ->. reflexivity. Qed.

(** The loop is left at its [j]-th test, at the latest, when the hardware
    then shows the channel inactive or in error. *)
Lemma wait_loop_returns H hw j : forall fuel w,
  (j < fuel)%nat ->
  Z.land (hw DMA_CS (reads w + 2 * j)%nat) (RPI_DMA_CS_ACTIVE H) = 0 \/
  Z.land (hw DMA_CS (reads w + 2 * j + 1)%nat) (RPI_DMA_CS_ERROR H) <> 0 ->
  exists w1, wait_loop H hw fuel w = Some w1.
Proof.
  induction j as [|j IH]; intros fuel w Hfuel Hdone;
    (destruct fuel as [|fuel]; [lia|]);
    cbn [wait_loop vread reads pcm_raw log].
  - replace (reads w + 2 * 0)%nat with (reads w) in Hdone by lia.
    replace (reads w + 1)%nat with (S (reads w)) in Hdone by lia.
    destruct Hdone as [Hidle|Herr].
    + rewrite (truthy_false _ Hidle). eauto.
    + rewrite (truthy_true _ Herr). cbn [negb].
      destruct (truthy _); eauto.
  - destruct (truthy (Z.land (hw DMA_CS (reads w)) _)); [|eauto].
    destruct (negb (truthy (Z.land (hw DMA_CS (S (reads w))) _))); [|eauto].
    apply IH; [lia|]. unfold usleep, tick. cbn [reads].
    replace (S (S (reads w)) + 2 * j)%nat with (reads w + 2 * S j)%nat by lia.
    exact Hdone.
Qed.

Lemma ws2811_wait_returns H hw j fuel w :
  (j < fuel)%nat ->
  Z.land (hw DMA_CS (reads w + 2 * j)%nat) (RPI_DMA_CS_ACTIVE H) = 0 \/
  Z.land (hw DMA_CS (reads w + 2 * j + 1)%nat) (RPI_DMA_CS_ERROR H) <> 0 ->
  exists r w', ws2811_wait H hw fuel w = Some (r, w').
Proof.
  intros Hfuel Hdone.
  destruct (wait_loop_returns H hw j fuel w Hfuel Hdone) as [w1 Hw1].
  unfold ws2811_wait. rewrite Hw1. cbn [vread].
  destruct (truthy _); eauto.
Qed.

Lemma rendered_reads H ws w : reads (rendered H ws w) = reads w.
Proof. now destruct (rendered_written H ws w). Qed.

Lemma ws2811_render_returns H hw j fuel cb ws w :
  (j < fuel)%nat ->
  Z.land (hw DMA_CS (reads w + 2 * j)%nat) (RPI_DMA_CS_ACTIVE H) = 0 \/
  Z.land (hw DMA_CS (reads w + 2 * j + 1)%nat) (RPI_DMA_CS_ERROR H) <> 0 ->
  exists r w', ws2811_render H hw fuel cb ws w = Some (r, w').
Proof.
  intros Hfuel Hdone. unfold ws2811_render.
  rewrite <- (rendered_reads H ws w) in Hdone.
  destruct (ws2811_wait_returns H hw j fuel _ Hfuel Hdone) as (r1 & w2 & Hw).
  rewrite Hw. destruct (truthy r1); eauto.
Qed.

(** ** Buffer sizing *)

(** C2 (as stated, refuted): for [ledCount = 59652324], an [int], and a
    tick rate of 800000 the product [ledCount * 72] exceeds 32 bits; the
    bit count, a [uint32_t], is the sum modulo [2^32], [PCM_BYTE_COUNT]
    comes out as 24, and 24 is not greater than [9 * ledCount]. *)
Lemma C2_counterexample :
  0 <= Examples.huge_count <= INT_MAX /\
  PCM_BYTE_COUNT Examples.huge_count 800000 = 24 /\
  ~ 9 * Examples.huge_count < PCM_BYTE_COUNT Examples.huge_count 800000.
Proof.
  split; [|split].
  - vm_compute. split; discriminate.
  - vm_compute. reflexivity.
  - vm_compute. discriminate.
Qed.

(** C2 (amended): for every [ledCount >= 0] and tick rate whose bit count
    [72 * ledCount + reset_bits tickRate] stays below [2^32],
    [PCM_BYTE_COUNT] is a multiple of 4, is strictly greater than
    [9 * ledCount], and for [ledCount = 0] is the nonzero reset-latch size
    [8 * (reset_bits / 64) + 8], which no other count undercuts. *)
Theorem C2_required_bytes :
  forall leds freq : Z,
    0 <= leds ->
    72 * leds + reset_bits freq < 2 ^ 32 ->
    PCM_BYTE_COUNT leds freq mod 4 = 0 /\
    9 * leds < PCM_BYTE_COUNT leds freq /\
    PCM_BYTE_COUNT 0 freq = 8 * (reset_bits freq / 64) + 8 /\
    0 < PCM_BYTE_COUNT 0 freq <= PCM_BYTE_COUNT leds freq.
Proof.
  intros leds freq H0 H1.
  pose proof (reset_bits_range freq) as Hr.
  rewrite (PCM_BYTE_COUNT_exact leds freq H0 H1).
  rewrite (PCM_BYTE_COUNT_exact 0 freq) by (change (2 ^ 32) with 4294967296; lia).
  replace (72 * 0 + reset_bits freq) with (reset_bits freq) by lia.
  set (r := reset_bits freq) in *.
  assert (Hq0 : 0 <= r / 64) by (apply Z.div_pos; lia).
  assert (Hmono : r / 64 <= (72 * leds + r) / 64) by (apply Z.div_le_mono; lia).
  pose proof (Z.div_mod (72 * leds + r) 64 ltac:(lia)) as Hdm.
  pose proof (Z.mod_pos_bound (72 * leds + r) 64 ltac:(lia)) as Hm.
  split; [|split; [|split]].
  - replace (8 * ((72 * leds + r) / 64) + 8)
      with ((2 * ((72 * leds + r) / 64) + 2) * 4) by ring.
    apply Z.mod_mul. lia.
  - lia.
  - reflexivity.
  - lia.
Qed.

Lemma C2_required_bytes_witness :
  PCM_BYTE_COUNT 3 800000 mod 4 = 0 /\
  9 * 3 < PCM_BYTE_COUNT 3 800000 /\
  PCM_BYTE_COUNT 0 800000 = 8 * (reset_bits 800000 / 64) + 8 /\
  0 < PCM_BYTE_COUNT 0 800000 <= PCM_BYTE_COUNT 3 800000.
Proof.
  apply (C2_required_bytes 3 800000).
  - lia.
  - vm_compute. reflexivity.
Defined.

(** ** Brightness scaling: the arithmetic *)

Lemma land_255_range x : 0 <= Z.land x 255 <= 255.
Proof.
  assert (E : Z.land x 255 = x mod 2 ^ 8)
    by (change 255 with (Z.ones 8); apply Z.land_ones; lia).
  rewrite E.
  pose proof (Z.mod_pos_bound x (2 ^ 8) ltac:(reflexivity)).
  change (2 ^ 8) with 256 in *. lia.
Qed.

Lemma scale_of_range ch : 1 <= scale_of ch <= 256.
Proof. unfold scale_of. pose proof (land_255_range (brightness ch)). lia. Qed.

Lemma scale_channel_exact v scale :
  0 <= v <= 255 -> 1 <= scale <= 256 ->
  scale_channel v scale = Z.shiftr (v * scale) 8 /\
  0 <= scale_channel v scale <= 255.
Proof.
  intros Hv Hs. unfold scale_channel.
  assert (0 <= v * scale <= 65280) by nia.
  rewrite to_uint32_small by (change (2 ^ 32) with 4294967296; lia).
  split; [reflexivity|].
  rewrite Z.shiftr_div_pow2 by lia. change (2 ^ 8) with 256.
  split; [apply Z.div_pos; lia|].
  apply Z.lt_succ_r. apply Z.div_lt_upper_bound; lia.
Qed.

(** ** The pixel encoder *)

(** Where symbol bit [e] of bit [k] of colour [j] of LED [i] lies in the
    stream. *)
Lemma stream_index i j k e :
  0 <= j <= 2 -> 0 <= k <= 7 -> 0 <= e <= 2 ->
  let t := 72 * i + 24 * j + 3 * (7 - k) + e in
  t / 72 = i /\ (t mod 72) / 24 = j /\ (t mod 24) / 3 = 7 - k /\ t mod 3 = e.
Proof.
  intros Hj Hk He t. subst t.
  assert (E72 : (72 * i + 24 * j + 3 * (7 - k) + e) mod 72
                = 24 * j + 3 * (7 - k) + e).
  { replace (72 * i + 24 * j + 3 * (7 - k) + e)
      with (24 * j + 3 * (7 - k) + e + i * 72) by ring.
    rewrite Z.mod_add by lia. apply Z.mod_small. lia. }
  assert (E24 : (72 * i + 24 * j + 3 * (7 - k) + e) mod 24 = 3 * (7 - k) + e).
  { replace (72 * i + 24 * j + 3 * (7 - k) + e)
      with (3 * (7 - k) + e + (3 * i + j) * 24) by ring.
    rewrite Z.mod_add by lia. apply Z.mod_small. lia. }
  rewrite E72, E24. repeat split.
  - replace (72 * i + 24 * j + 3 * (7 - k) + e)
      with (24 * j + 3 * (7 - k) + e + i * 72) by ring.
    rewrite Z.div_add by lia. rewrite Z.div_small; lia.
  - replace (24 * j + 3 * (7 - k) + e) with (3 * (7 - k) + e + j * 24) by ring.
    rewrite Z.div_add by lia. rewrite Z.div_small; lia.
  - replace (3 * (7 - k) + e) with (e + (7 - k) * 3) by ring.
    rewrite Z.div_add by lia. rewrite Z.div_small; lia.
  - replace (72 * i + 24 * j + 3 * (7 - k) + e)
      with (e + (24 * i + 8 * j + (7 - k)) * 3) by ring.
    rewrite Z.mod_add by lia. apply Z.mod_small. lia.
Qed.

(** The symbols: 110 for a one and 100 for a zero, swapped by [invert]. *)
Lemma symbol_for_bits inv c k :
  let one := xorb (Z.testbit c k) (truthy inv) in
  Z.testbit (symbol_for inv c k) 2 = true /\
  Z.testbit (symbol_for inv c k) 1 = one /\
  Z.testbit (symbol_for inv c k) 0 = false.
Proof.
  unfold symbol_for. rewrite truthy_land_bit.
  destruct (Z.testbit c k), (truthy inv); cbn; auto.
Qed.

Lemma nth_colors_of H ch i j :
  0 <= j <= 2 ->
  nth (Z.to_nat j) (colors_of H ch i) 0
  = to_uint8 (ws281x_gamma H
      (scale_channel
         (Z.land (Z.shiftr (led_at ch i)
                    (nth (Z.to_nat j) [rshift ch; gshift ch; bshift ch] 0)) 255)
         (scale_of ch))).
Proof.
  intros Hj.
  assert (j = 0 \/ j = 1 \/ j = 2) as [->|[->| ->]] by lia; reflexivity.
Qed.

(** The stream bit of symbol bit [e] of bit [k] of colour [j] of LED [i]. *)
Lemma rendered_symbol_bit H ws w i j k e :
  0 <= i < count (channel ws) -> 0 <= j <= 2 -> 0 <= k <= 7 -> 0 <= e <= 2 ->
  stream_bit (pcm_raw (rendered H ws w)) (72 * i + 24 * j + 3 * (7 - k) + e)
  = Z.testbit (symbol_for (invert (channel ws))
                 (nth (Z.to_nat j) (colors_of H (channel ws) i) 0) k) (2 - e).
Proof.
  intros Hi Hj Hk He.
  destruct (rendered_written H ws w) as [_ _ Hbits _ _ _ _].
  fold (rendered H ws w) in Hbits.
  change (pos {| wordpos := 0; bitpos := 31 |}) with 0 in Hbits.
  rewrite <- (Z.add_0_l (72 * i + _ + _ + e)), Hbits by lia.
  destruct (stream_index i j k e Hj Hk He) as (E1 & E2 & E3 & E4).
  unfold encoded_bit. rewrite E1, E2, E3, E4.
  replace (7 - (7 - k)) with k by lia. reflexivity.
Qed.

Lemma rendered_encoded_bit H ws w p :
  0 <= p < 72 * count (channel ws) ->
  stream_bit (pcm_raw (rendered H ws w)) p = encoded_bit H (channel ws) p.
Proof.
  intros Hp.
  destruct (rendered_written H ws w) as [_ _ Hbits _ _ _ _].
  fold (rendered H ws w) in Hbits.
  change (pos {| wordpos := 0; bitpos := 31 |}) with 0 in Hbits.
  rewrite <- (Z.add_0_l p). apply Hbits. lia.
Qed.

Lemma in_upto c n : 0 <= c < n -> In c (upto n).
Proof.
  intros Hc. unfold upto. apply in_map_iff. exists (Z.to_nat c).
  split; [lia|]. apply in_seq. lia.
Qed.

(** A byte is the sum of its bits. *)
Lemma byte_of_bits c :
  0 <= c < 256 ->
  fold_left (fun acc s => 2 * acc + Z.b2z (Z.testbit c (7 - s)))
            [0; 1; 2; 3; 4; 5; 6; 7] 0 = c.
Proof.
  intros Hc.
  assert (Hall : forallb
            (fun c => fold_left (fun acc s => 2 * acc + Z.b2z (Z.testbit c (7 - s)))
                                [0; 1; 2; 3; 4; 5; 6; 7] 0 =? c)
            (upto 256) = true) by (vm_compute; reflexivity).
  rewrite forallb_forall in Hall.
  apply Z.eqb_eq. apply Hall. now apply in_upto.
Qed.

Lemma color_range H ch i j :
  0 <= nth (Z.to_nat j) (colors_of H ch i) 0 < 256.
Proof.
  unfold colors_of, color_byte, to_uint8. change (2 ^ 8) with 256.
  destruct (Z.to_nat j) as [|[|[|n]]]; cbn [nth];
    try (apply Z.mod_pos_bound; lia).
  destruct n; lia.
Qed.

(** An entry of [color[]], written out from the fields of the channel: the
    pixel [leds[i]], the shift field of [strip_type] for colour [j], and
    the scale [(brightness & 0xff) + 1]. *)
Lemma colors_of_explicit H ch i j :
  0 <= j <= 2 ->
  nth (Z.to_nat j) (colors_of H ch i) 0
  = to_uint8 (ws281x_gamma H
      (Z.shiftr
         (Z.land
            (Z.shiftr (nth (Z.to_nat i) (leds ch) 0)
               (Z.land (Z.shiftr (strip_type ch)
                          (nth (Z.to_nat j) [16; 8; 0] 0)) 255)) 255
          * (Z.land (brightness ch) 255 + 1)) 8)).
Proof.
  intros Hj. rewrite nth_colors_of by exact Hj.
  pose proof (scale_of_range ch) as Hs. unfold scale_of in *.
  assert (j = 0 \/ j = 1 \/ j = 2) as [->|[->| ->]] by lia;
    cbn [Z.to_nat Pos.to_nat Pos.iter_op Nat.add nth];
    unfold rshift, gshift, bshift, led_at;
    now rewrite (proj1 (scale_channel_exact _ _ (land_255_range _) Hs)).
Qed.

(** Decoding the eight symbols of colour [j] of LED [i] gives the entry of
    [color[]]. *)
Lemma decode_rendered_byte H ws w i j :
  0 <= i < count (channel ws) -> 0 <= j <= 2 ->
  decode_byte (pcm_raw (rendered H ws w)) (invert (channel ws))
              (72 * i + 24 * j)
  = nth (Z.to_nat j) (colors_of H (channel ws) i) 0.
Proof.
  intros Hi Hj.
  set (c := nth (Z.to_nat j) (colors_of H (channel ws) i) 0).
  rewrite <- (byte_of_bits c) by apply color_range.
  unfold decode_byte, decode_bit.
  assert (Hbit : forall s, 0 <= s <= 7 ->
            xorb (stream_bit (pcm_raw (rendered H ws w))
                    (72 * i + 24 * j + 3 * s + 1))
                 (truthy (invert (channel ws)))
            = Z.testbit c (7 - s)).
  { intros s Hs.
    replace (72 * i + 24 * j + 3 * s + 1)
      with (72 * i + 24 * j + 3 * (7 - (7 - s)) + 1) by lia.
    rewrite rendered_symbol_bit by lia. fold c.
    destruct (symbol_for_bits (invert (channel ws)) c (7 - s)) as (_ & S1 & _).
    change (2 - 1) with 1. rewrite S1.
    now destruct (Z.testbit c (7 - s)), (truthy (invert (channel ws))). }
  cbn [fold_left]. rewrite !Hbit by lia. reflexivity.
Qed.

(** C1: on a channel on which the loop is defined, in the buffer the
    encoding loop of [ws2811_render] leaves, for every LED [i < count],
    colour [j] (0 red, 1 green, 2 blue, cut out of the pixel [leds[i]] by
    the shift field at bit 16, 8 and 0 of [strip_type]) and bit [k] of the
    gamma-corrected, brightness-scaled byte, most significant first, the
    three stream bits from [72*i + 24*j + 3*(7-k)] on are 1, [one], 0,
    where [one] is the bit itself, or its complement when [invert] is set:
    110 for a one, 100 for a zero, swapped under inversion.  Stream bit [p]
    is bit [31 - p mod 32] of word [p / 32], so word 0 is filled from bit
    31 down and the symbols continue across words without gaps.
    [ws2811_render] returns with exactly that buffer. *)
Theorem C1_render_encodes_symbols :
  forall (H : headers) (hw : reg -> nat -> Z) (fuel : nat) (cb : Z)
         (ws : ws2811_t) (w : world) (i j k : Z),
    let ch := channel ws in
    render_defined ch ->
    0 <= i < count ch -> 0 <= j <= 2 -> 0 <= k <= 7 ->
    let shift := Z.land (Z.shiftr (strip_type ch)
                           (nth (Z.to_nat j) [16; 8; 0] 0)) 255 in
    let value := Z.land (Z.shiftr (nth (Z.to_nat i) (leds ch) 0) shift) 255 in
    let scale := Z.land (brightness ch) 255 + 1 in
    let byte := to_uint8 (ws281x_gamma H (Z.shiftr (value * scale) 8)) in
    let one := xorb (Z.testbit byte k) (truthy (invert ch)) in
    let first := 72 * i + 24 * j + 3 * (7 - k) in
    let buffer := pcm_raw (rendered H ws w) in
    (stream_bit buffer first = true /\
     stream_bit buffer (first + 1) = one /\
     stream_bit buffer (first + 2) = false) /\
    (Z.testbit (buffer (first / 32)) (31 - first mod 32) = true /\
     Z.testbit (buffer ((first + 1) / 32)) (31 - (first + 1) mod 32) = one /\
     Z.testbit (buffer ((first + 2) / 32)) (31 - (first + 2) mod 32) = false) /\
    (forall r w', ws2811_render H hw fuel cb ws w = Some (r, w') ->
                  pcm_raw w' = buffer).
Proof.
  intros H hw fuel cb ws w i j k ch Hdef Hi Hj Hk
         shift value scale byte one first buffer.
  assert (Hbyte : nth (Z.to_nat j) (colors_of H ch i) 0 = byte)
    by (apply colors_of_explicit; exact Hj).
  assert (Hbit : forall e, 0 <= e <= 2 ->
            stream_bit buffer (first + e)
            = Z.testbit (symbol_for (invert ch) byte k) (2 - e)).
  { intros e He. subst buffer first ch.
    rewrite rendered_symbol_bit by assumption. now rewrite Hbyte. }
  destruct (symbol_for_bits (invert ch) byte k) as (S2 & S1 & S0).
  assert (Hsym : stream_bit buffer first = true /\
                 stream_bit buffer (first + 1) = one /\
                 stream_bit buffer (first + 2) = false).
  { split; [|split].
    - rewrite <- (Z.add_0_r first), Hbit by lia. exact S2.
    - rewrite Hbit by lia. exact S1.
    - rewrite Hbit by lia. exact S0. }
  split; [exact Hsym|]. split; [exact Hsym|].
  intros r w' Hrun. exact (ws2811_render_buffer _ _ _ _ _ _ _ _ Hrun).
Qed.

Lemma C1_render_encodes_symbols_witness :
  let buffer := pcm_raw (rendered Examples.bcm2835 Examples.one_red Examples.dirty) in
  (stream_bit buffer 0 = true /\
   stream_bit buffer 1 = true /\
   stream_bit buffer 2 = false) /\
  exists r w',
    ws2811_render Examples.bcm2835 Examples.hw_idle 1 0
                  Examples.one_red Examples.dirty = Some (r, w') /\
    pcm_raw w' = buffer.
Proof.
  destruct (C1_render_encodes_symbols Examples.bcm2835 Examples.hw_idle 1 0
              Examples.one_red Examples.dirty 0 0 7)
    as (Hbits & _ & Hbuffer).
  - unfold render_defined. cbn. lia.
  - cbn. lia.
  - lia.
  - lia.
  - split; [exact Hbits|].
    destruct (ws2811_render_returns Examples.bcm2835 Examples.hw_idle 0 1 0
                Examples.one_red Examples.dirty)
      as (r & w' & Hrun); [lia|left; reflexivity|].
    exists r, w'. split; [exact Hrun|exact (Hbuffer r w' Hrun)].
Defined.

(** C6: for LED [i] and colour [j] of a channel on which the loop is
    defined, the channel value [v = (leds[i] >> shift) & 0xff] lies in
    0..255 and the scale [(brightness & 0xff) + 1] in 1..256 (it is
    [brightness + 1] for a caller brightness in 0..255); the product does
    not wrap around in 32 bits; [(v * scale) >> 8] lies in 0..255, a valid
    index of the gamma table, and is 255 for [v = 255] at brightness 255;
    the entry of [color[]] that [ws2811_render] computes is the gamma
    table at that index, and that byte is what the eight symbols of the
    colour in the buffer spell.  For every channel value in 0..255 and
    every stored scale in 1..256 the entry is the gamma table at
    [(value * scale) >> 8], which lies in 0..255. *)
Theorem C6_brightness_scaling :
  forall (H : headers) (ws : ws2811_t) (w : world) (i j : Z),
    let ch := channel ws in
    render_defined ch ->
    0 <= i < count ch -> 0 <= j <= 2 ->
    let shift := Z.land (Z.shiftr (strip_type ch)
                           (nth (Z.to_nat j) [16; 8; 0] 0)) 255 in
    let v := Z.land (Z.shiftr (nth (Z.to_nat i) (leds ch) 0) shift) 255 in
    let scale := Z.land (brightness ch) 255 + 1 in
    let index := Z.shiftr (v * scale) 8 in
    0 <= v <= 255 /\
    1 <= scale <= 256 /\
    (0 <= brightness ch <= 255 -> scale = brightness ch + 1) /\
    v * scale < 2 ^ 32 /\
    0 <= index <= 255 /\
    (brightness ch = 255 -> v = 255 -> index = 255) /\
    nth (Z.to_nat j) (colors_of H ch i) 0 = to_uint8 (ws281x_gamma H index) /\
    decode_byte (pcm_raw (rendered H ws w)) (invert ch) (72 * i + 24 * j)
    = to_uint8 (ws281x_gamma H index) /\
    (forall value stored,
        0 <= value <= 255 -> 1 <= stored <= 256 ->
        color_byte H value 0 stored
        = to_uint8 (ws281x_gamma H (Z.shiftr (value * stored) 8)) /\
        0 <= Z.shiftr (value * stored) 8 <= 255 /\
        (value = 255 -> stored = 256 -> Z.shiftr (value * stored) 8 = 255)).
Proof.
  intros H ws w i j ch Hdef Hi Hj shift v scale index.
  assert (Hv : 0 <= v <= 255) by apply land_255_range.
  assert (Hs : 1 <= scale <= 256) by apply (scale_of_range ch).
  destruct (scale_channel_exact v scale Hv Hs) as [E R].
  rewrite E in R. fold index in R.
  split; [exact Hv|]. split; [exact Hs|]. split; [|split; [|split; [|split]]].
  - intros Hb. subst scale. change 255 with (Z.ones 8).
    rewrite Z.land_ones by lia. rewrite Z.mod_small; [reflexivity|].
    change (2 ^ 8) with 256. lia.
  - change (2 ^ 32) with 4294967296. nia.
  - exact R.
  - intros Hb H255. subst index scale. rewrite H255, Hb. reflexivity.
  - split; [|split].
    + apply colors_of_explicit. exact Hj.
    + subst ch. rewrite decode_rendered_byte by assumption.
      apply colors_of_explicit. exact Hj.
    + intros value stored Hvalue Hstored.
      destruct (scale_channel_exact value stored Hvalue Hstored) as [E' R'].
      rewrite E' in R'. split; [|split; [exact R'|]].
      * unfold color_byte, scaled. rewrite Z.shiftr_0_r.
        assert (Hl : Z.land value 255 = value).
        { change 255 with (Z.ones 8). rewrite Z.land_ones by lia.
          apply Z.mod_small. change (2 ^ 8) with 256. lia. }
        now rewrite Hl, E'.
      * intros -> ->. reflexivity.
Qed.

Lemma C6_brightness_scaling_witness :
  nth 0 (colors_of Examples.bcm2835 (channel Examples.one_red) 0) 0 = 255 /\
  decode_byte (pcm_raw (rendered Examples.bcm2835 Examples.one_red Examples.dirty))
              0 0 = 255 /\
  color_byte Examples.bcm2835 255 0 256 = 255.
Proof.
  destruct (C6_brightness_scaling Examples.bcm2835 Examples.one_red
              Examples.dirty 0 0)
    as (_ & _ & _ & _ & _ & _ & Hcolor & Hdecode & Hall).
  - unfold render_defined. cbn. lia.
  - cbn. lia.
  - lia.
  - split; [exact Hcolor|]. split; [exact Hdecode|].
    apply (Hall 255 256); lia.
Defined.

(** C10: the encoding loop of [ws2811_render] changes no stream bit outside
    the first [72 * count]: every bit at a position [p >= 72 * count] (and
    every bit before the buffer) keeps its previous value, every word that
    lies wholly behind the encoded bits is untouched, and [ws2811_render]
    returns with the buffer the loop left. *)
Theorem C10_render_frame :
  forall (H : headers) (hw : reg -> nat -> Z) (fuel : nat) (cb : Z)
         (ws : ws2811_t) (w : world),
    (forall p, p < 0 \/ 72 * count (channel ws) <= p ->
       stream_bit (pcm_raw (rendered H ws w)) p = stream_bit (pcm_raw w) p) /\
    (forall i, i < 0 \/ 72 * count (channel ws) <= 32 * i ->
       pcm_raw (rendered H ws w) i = pcm_raw w i) /\
    (forall r w', ws2811_render H hw fuel cb ws w = Some (r, w') ->
       pcm_raw w' = pcm_raw (rendered H ws w)).
Proof.
  intros H hw fuel cb ws w.
  destruct (rendered_written H ws w) as [_ _ _ Hframe Hwords _ _].
  fold (rendered H ws w) in Hframe, Hwords.
  change (pos {| wordpos := 0; bitpos := 31 |}) with 0 in Hframe, Hwords.
  split; [|split].
  - intros p Hp. apply Hframe. lia.
  - intros i Hi. apply Hwords. intros p Hp Hword.
    pose proof (Z.div_mod p 32 ltac:(lia)).
    pose proof (Z.mod_pos_bound p 32 ltac:(lia)). lia.
  - intros r w' Hrun. exact (ws2811_render_buffer _ _ _ _ _ _ _ _ Hrun).
Qed.

Lemma C10_render_frame_witness :
  stream_bit (pcm_raw (rendered Examples.bcm2835 Examples.one_red Examples.dirty)) 72
  = stream_bit (pcm_raw Examples.dirty) 72 /\
  pcm_raw (rendered Examples.bcm2835 Examples.one_red Examples.dirty) 3
  = pcm_raw Examples.dirty 3 /\
  exists r w',
    ws2811_render Examples.bcm2835 Examples.hw_idle 1 0
                  Examples.one_red Examples.dirty = Some (r, w') /\
    pcm_raw w' = pcm_raw (rendered Examples.bcm2835 Examples.one_red Examples.dirty).
Proof.
  destruct (C10_render_frame Examples.bcm2835 Examples.hw_idle 1 0
              Examples.one_red Examples.dirty)
    as (Hbits & Hwords & Hbuffer).
  split; [|split].
  - apply Hbits. right. cbn. lia.
  - apply Hwords. right. cbn. lia.
  - destruct (ws2811_render_returns Examples.bcm2835 Examples.hw_idle 0 1 0
                Examples.one_red Examples.dirty)
      as (r & w' & Hrun); [lia|left; reflexivity|].
    exists r, w'. split; [exact Hrun|exact (Hbuffer r w' Hrun)].
Defined.

(** ** The encoder stays inside the sized buffer *)

(** After the loop the history holds only stores on top of what it held,
    and [ws2811_render] appends no store to them. *)
Lemma ws2811_render_no_late_store H hw fuel cb ws w r w' :
  ws2811_render H hw fuel cb ws w = Some (r, w') ->
  exists es, log w' = log (rendered H ws w) ++ es /\
             forallb (fun e => negb (is_store e)) es = true.
Proof.
  unfold ws2811_render. intros Hrun.
  destruct (ws2811_wait H hw fuel (rendered H ws w)) as [[r1 w2]|] eqn:Hw;
    [|discriminate].
  apply ws2811_wait_log in Hw.
  destruct Hw as (_ & es & cs & Hes & _ & Hcases).
  assert (Hns : forallb (fun e => negb (is_store e)) es = true).
  { rewrite forallb_forall in *. intros e He. specialize (Hes e He).
    destruct e as [| [] | | |]; cbn in *; congruence. }
  destruct Hcases as [(-> & Hl & _)|(-> & _ & debug & Hl)];
    cbn [truthy Z.eqb negb] in Hrun; injection Hrun as <- <-.
  - destruct (dma_start_log H hw cb w2) as [_ Hd]. rewrite Hd, Hl.
    eexists. rewrite <- !app_assoc. split; [reflexivity|].
    rewrite !forallb_app, Hns. reflexivity.
  - rewrite Hl. eexists. split; [reflexivity|].
    rewrite forallb_app, Hns. reflexivity.
Qed.

(** C8 (as stated, refuted): for [ledCount = 59652324] and a tick rate of
    800000 the buffer is sized at 24 bytes, 6 words, and the encoding loop
    stores into word 6. *)
Lemma C8_counterexample :
  0 <= count (channel Examples.huge_strip) /\
  PCM_BYTE_COUNT (count (channel Examples.huge_strip))
                 (freq Examples.huge_strip) / 4 = 6 /\
  exists v, In (EvStore 6 v)
               (log (rendered Examples.bcm2835 Examples.huge_strip Examples.blank)).
Proof.
  change (count (channel Examples.huge_strip)) with 59652324.
  change (freq Examples.huge_strip) with 800000.
  split; [|split].
  - lia.
  - vm_compute. reflexivity.
  - change 6 with (192 / 32) at 1. apply rendered_store_exists.
    change (count (channel Examples.huge_strip)) with 59652324. lia.
Qed.

(** C8 (amended): for every [ledCount >= 0] and tick rate whose bit count
    [72 * ledCount + reset_bits tickRate] stays below [2^32], every store of
    the encoding loop of [ws2811_render] goes to a word index in
    [0 .. PCM_BYTE_COUNT / 4 - 1]; for [ledCount = 0] the loop stores
    nothing; and after the loop [ws2811_render] stores nothing more. *)
Theorem C8_render_stays_in_buffer :
  forall (H : headers) (ws : ws2811_t) (w : world),
    0 <= count (channel ws) ->
    72 * count (channel ws) + reset_bits (freq ws) < 2 ^ 32 ->
    stores_within ws w (rendered H ws w) /\
    (forall hw fuel cb r w',
        ws2811_render H hw fuel cb ws w = Some (r, w') ->
        exists es, log w' = log (rendered H ws w) ++ es /\
                   forallb (fun e => negb (is_store e)) es = true).
Proof.
  intros H ws w H0 H1.
  split; [|intros hw fuel cb r w'; apply ws2811_render_no_late_store].
  destruct (rendered_written H ws w) as [_ _ _ _ _ _ (es & Hl & Hes & _)].
  fold (rendered H ws w) in Hl.
  change (pos {| wordpos := 0; bitpos := 31 |}) with 0 in Hes.
  exists es. split; [exact Hl|]. split.
  - eapply Forall_impl; [|exact Hes]. cbv beta.
    intros e (p & v & Hp & ->). exists (p / 32), v. split; [reflexivity|].
    rewrite (PCM_BYTE_COUNT_exact _ _ H0 H1).
    pose proof (reset_bits_range (freq ws)) as Hr.
    set (n := count (channel ws)) in *. set (rb := reset_bits (freq ws)) in *.
    replace (8 * ((72 * n + rb) / 64) + 8)
      with ((2 * ((72 * n + rb) / 64) + 2) * 4) by ring.
    rewrite Z.div_mul by lia.
    assert (Hmono : (72 * n) / 64 <= (72 * n + rb) / 64)
      by (apply Z.div_le_mono; lia).
    pose proof (Z.div_mod p 32 ltac:(lia)).
    pose proof (Z.mod_pos_bound p 32 ltac:(lia)).
    pose proof (Z.div_mod (72 * n) 64 ltac:(lia)).
    pose proof (Z.mod_pos_bound (72 * n) 64 ltac:(lia)).
    lia.
  - intros Hzero. destruct es as [|e es]; [reflexivity|].
    apply Forall_inv in Hes. destruct Hes as (p & _ & Hp & _). lia.
Qed.

Lemma C8_render_stays_in_buffer_witness :
  stores_within Examples.one_red Examples.blank
    (rendered Examples.bcm2835 Examples.one_red Examples.blank) /\
  exists r w' es,
    ws2811_render Examples.bcm2835 Examples.hw_idle 1 0
                  Examples.one_red Examples.blank = Some (r, w') /\
    log w' = log (rendered Examples.bcm2835 Examples.one_red Examples.blank) ++ es /\
    forallb (fun e => negb (is_store e)) es = true.
Proof.
  destruct (C8_render_stays_in_buffer Examples.bcm2835 Examples.one_red
              Examples.blank)
    as [Hwithin Hlate].
  - cbn. lia.
  - vm_compute. reflexivity.
  - split; [exact Hwithin|].
    destruct (ws2811_render_returns Examples.bcm2835 Examples.hw_idle 0 1 0
                Examples.one_red Examples.blank)
      as (r & w' & Hrun); [lia|left; reflexivity|].
    destruct (Hlate _ _ _ _ _ Hrun) as (es & Hlog & Hes).
    exists r, w', es. auto.
Defined.

(** ** The order of render's accesses *)

Lemma truthy_inv z : (truthy z = true -> z <> 0) /\ (truthy z = false -> z = 0).
Proof.
  unfold truthy. destruct (Z.eqb_spec z 0); cbn; split; congruence.
Qed.

(** The loop of [ws2811_wait] is left at a read of [dma->cs] that shows the
    channel inactive or in error; all it does before are reads of
    [dma->cs] and delays. *)
Lemma wait_loop_exit H hw fuel : forall w w1,
  wait_loop H hw fuel w = Some w1 ->
  exists es n,
    log w1 = log w ++ es ++ [EvRead DMA_CS (hw DMA_CS n)] /\
    forallb (fun e => is_cs_read e || is_usleep e) es = true /\
    reads w1 = S n /\ (reads w <= n)%nat /\
    (Z.land (hw DMA_CS n) (RPI_DMA_CS_ACTIVE H) = 0 \/
     Z.land (hw DMA_CS n) (RPI_DMA_CS_ERROR H) <> 0).
Proof.
  induction fuel as [|fuel IH]; intros w w1 Hrun; [discriminate|].
  cbn [wait_loop vread reads pcm_raw log] in Hrun.
  destruct (truthy (Z.land (hw DMA_CS (reads w)) (RPI_DMA_CS_ACTIVE H)))
    eqn:Hact.
  - destruct (truthy (Z.land (hw DMA_CS (S (reads w))) (RPI_DMA_CS_ERROR H)))
      eqn:Herr; cbn [negb] in Hrun.
    + injection Hrun as <-. cbn [log reads].
      exists [EvRead DMA_CS (hw DMA_CS (reads w))], (S (reads w)).
      rewrite <- app_assoc.
      split; [reflexivity|]. split; [reflexivity|]. split; [reflexivity|].
      split; [lia|]. right. now apply truthy_inv.
    + apply IH in Hrun.
      destruct Hrun as (es & n & Hl & Hes & Hreads & Hn & Hlast).
      unfold usleep, tick in Hl, Hn. cbn [log reads] in Hl, Hn.
      exists ([EvRead DMA_CS (hw DMA_CS (reads w));
               EvRead DMA_CS (hw DMA_CS (S (reads w))); EvUsleep 10] ++ es), n.
      split; [rewrite Hl, <- !app_assoc; reflexivity|].
      split; [exact Hes|]. split; [exact Hreads|]. split; [lia|exact Hlast].
  - injection Hrun as <-. cbn [log reads].
    exists [], (reads w).
    split; [reflexivity|]. split; [reflexivity|]. split; [reflexivity|].
    split; [lia|]. left. now apply truthy_inv.
Qed.

(** When the [j]-th round of the loop finds the channel inactive or in
    error, the loop is left after at most [2 * j + 2] reads. *)
Lemma wait_loop_prompt H hw j : forall fuel w,
  (j < fuel)%nat ->
  Z.land (hw DMA_CS (reads w + 2 * j)%nat) (RPI_DMA_CS_ACTIVE H) = 0 \/
  Z.land (hw DMA_CS (reads w + 2 * j + 1)%nat) (RPI_DMA_CS_ERROR H) <> 0 ->
  exists w1, wait_loop H hw fuel w = Some w1 /\
             (reads w1 <= reads w + 2 * j + 2)%nat.
Proof.
  induction j as [|j IH]; intros fuel w Hfuel Hdone;
    (destruct fuel as [|fuel]; [lia|]);
    cbn [wait_loop vread reads pcm_raw log].
  - replace (reads w + 2 * 0)%nat with (reads w) in Hdone by lia.
    replace (reads w + 1)%nat with (S (reads w)) in Hdone by lia.
    destruct Hdone as [Hidle|Herr].
    + rewrite (truthy_false _ Hidle). eexists. split; [reflexivity|].
      cbn [reads]. lia.
    + rewrite (truthy_true _ Herr). cbn [negb].
      destruct (truthy _); eexists; (split; [reflexivity|]); cbn [reads]; lia.
  - destruct (truthy (Z.land (hw DMA_CS (reads w)) _));
      [|eexists; split; [reflexivity|cbn [reads]; lia]].
    destruct (negb (truthy (Z.land (hw DMA_CS (S (reads w))) _)));
      [|eexists; split; [reflexivity|cbn [reads]; lia]].
    destruct (IH fuel
                (usleep 10
                   {| pcm_raw := pcm_raw w; reads := S (S (reads w));
                      log := (log w ++ [EvRead DMA_CS (hw DMA_CS (reads w))])
                             ++ [EvRead DMA_CS (hw DMA_CS (S (reads w)))] |}))
      as (w1 & Hrun & Hreads).
    + lia.
    + unfold usleep, tick. cbn [reads].
      replace (S (S (reads w)) + 2 * j)%nat with (reads w + 2 * S j)%nat by lia.
      exact Hdone.
    + unfold usleep, tick in Hreads. cbn [reads] in Hreads.
      exists w1. split; [exact Hrun|lia].
Qed.

Lemma ws2811_render_prompt H hw j fuel cb ws w :
  (j < fuel)%nat ->
  Z.land (hw DMA_CS (reads w + 2 * j)%nat) (RPI_DMA_CS_ACTIVE H) = 0 \/
  Z.land (hw DMA_CS (reads w + 2 * j + 1)%nat) (RPI_DMA_CS_ERROR H) <> 0 ->
  exists r w', ws2811_render H hw fuel cb ws w = Some (r, w') /\
               (reads w' <= reads w + 2 * j + 4)%nat.
Proof.
  intros Hfuel Hdone. unfold ws2811_render, ws2811_wait.
  rewrite <- (rendered_reads H ws w) in Hdone.
  destruct (wait_loop_prompt H hw j fuel _ Hfuel Hdone) as (w1 & Hw1 & Hreads).
  rewrite (rendered_reads H ws w) in Hreads.
  rewrite Hw1. cbn [vread reads pcm_raw log].
  destruct (truthy (Z.land (hw DMA_CS (reads w1)) (RPI_DMA_CS_ERROR H)));
    cbn [truthy Z.eqb negb]; eexists; eexists; (split; [reflexivity|]).
  - unfold tick. cbn [reads]. lia.
  - unfold dma_start, vwrite, usleep, tick, vread. cbn [reads]. lia.
Qed.

(** The history of a call of [ws2811_render] that returns: the stores of
    the encoding loop, the polls, the read that ends the loop, the read
    that checks the error bit, and what that check decides. *)
Lemma ws2811_render_log H hw fuel cb ws w r w' :
  ws2811_render H hw fuel cb ws w = Some (r, w') ->
  exists stores polls n,
    forallb is_store stores = true /\
    forallb (fun e => is_cs_read e || is_usleep e) polls = true /\
    (Z.land (hw DMA_CS n) (RPI_DMA_CS_ACTIVE H) = 0 \/
     Z.land (hw DMA_CS n) (RPI_DMA_CS_ERROR H) <> 0) /\
    ((Z.land (hw DMA_CS (S n)) (RPI_DMA_CS_ERROR H) = 0 /\ r = 0 /\
      log w' = log w ++ stores ++ polls
               ++ [EvRead DMA_CS (hw DMA_CS n); EvRead DMA_CS (hw DMA_CS (S n))]
               ++ dma_start_events H cb (hw PCM_CS (S (S n)))) \/
     (Z.land (hw DMA_CS (S n)) (RPI_DMA_CS_ERROR H) <> 0 /\ r = -1 /\
      log w' = log w ++ stores ++ polls
               ++ [EvRead DMA_CS (hw DMA_CS n); EvRead DMA_CS (hw DMA_CS (S n));
                   EvRead DMA_DEBUG (hw DMA_DEBUG (S (S n)));
                   EvStderr (hw DMA_DEBUG (S (S n)))])).
Proof.
  unfold ws2811_render, ws2811_wait. intros Hrun.
  destruct (wait_loop H hw fuel (rendered H ws w)) as [w1|] eqn:Hloop;
    [|discriminate].
  destruct (wait_loop_exit _ _ _ _ _ Hloop)
    as (polls & n & Hl & Hpolls & Hreads & _ & Hlast).
  destruct (rendered_written H ws w) as [_ _ _ _ _ _ (stores & Hs & Hst & _)].
  fold (rendered H ws w) in Hs.
  assert (Hstores : forallb is_store stores = true).
  { rewrite forallb_forall. rewrite Forall_forall in Hst.
    intros e He. destruct (Hst e He) as (p & v & _ & ->). reflexivity. }
  exists stores, polls, n.
  split; [exact Hstores|]. split; [exact Hpolls|]. split; [exact Hlast|].
  cbn [vread reads pcm_raw log] in Hrun. rewrite Hreads in Hrun.
  destruct (truthy (Z.land (hw DMA_CS (S n)) (RPI_DMA_CS_ERROR H))) eqn:Hcheck.
  - cbn [truthy Z.eqb negb] in Hrun. injection Hrun as <- <-.
    right. split; [now apply truthy_inv|]. split; [reflexivity|].
    unfold tick. cbn [log]. rewrite Hl, Hs, <- !app_assoc. reflexivity.
  - cbn [truthy Z.eqb negb] in Hrun. injection Hrun as <- <-.
    left. split; [now apply truthy_inv|]. split; [reflexivity|].
    rewrite (proj2 (dma_start_log H hw cb _)). cbn [log reads].
    rewrite Hl, Hs, <- !app_assoc. reflexivity.
Qed.

(** C3 (as stated, refuted): with one LED and a transfer in flight (the
    first polls of [dma->cs] show the active bit), [ws2811_render] returns 0
    and its history begins with a store to the buffer, before the first
    poll. *)
Lemma C3_counterexample :
  truthy (Z.land (Examples.hw_busy DMA_CS 0%nat)
                 (RPI_DMA_CS_ACTIVE Examples.bcm2835)) = true /\
  option_map (fun rw => (fst rw, wait_precedes_stores (log (snd rw))))
             (ws2811_render Examples.bcm2835 Examples.hw_busy 10 0
                            Examples.one_red Examples.blank)
  = Some (0, false).
Proof. split; vm_compute; reflexivity. Qed.

(** With an error bit that shows at one read of [dma->cs] and is gone at
    the next, [ws2811_render] returns 0 and starts a transfer although
    every one of its reads of [dma->cs] showed the channel active. *)
Lemma render_starts_on_flickering_error :
  option_map (fun rw => (fst rw, filter is_cs_read (log (snd rw))))
             (ws2811_render Examples.bcm2835 MoreExamples.hw_flicker 10 0
                            Examples.one_red Examples.blank)
  = Some (0, [EvRead DMA_CS 1; EvRead DMA_CS 257; EvRead DMA_CS 1]).
Proof. vm_compute. reflexivity. Qed.

(** C3 (amended): a call of [ws2811_render] that returns has first
    performed all stores of the encoding loop, then the completion wait:
    reads of [dma->cs] and delays, a read of [dma->cs] that shows the
    channel inactive or in error and ends the loop, and the read of
    [dma->cs] that checks the error bit.  That check decides: with the error bit clear the call
    returns 0 after exactly the register accesses of [dma_start]; with the
    error bit set it returns -1 after reading and reporting [dma->debug],
    and starts nothing.  When the error bit, once read as set, is still
    set at the next read, a call that returns 0 has started the transfer
    right after a read of [dma->cs] that showed the channel inactive and
    one that showed no error.  The stores to the buffer come before the
    wait.  The call returns as soon as a poll finds the channel inactive or
    in error: when round [j] of the loop does, after at most [2 * j + 4]
    register reads. *)
Theorem C3_render_order :
  forall (H : headers) (hw : reg -> nat -> Z) (fuel : nat) (cb : Z)
         (ws : ws2811_t) (w : world),
    (forall r w',
        ws2811_render H hw fuel cb ws w = Some (r, w') ->
        exists stores polls n,
          let last := hw DMA_CS n in
          let check := hw DMA_CS (S n) in
          forallb is_store stores = true /\
          forallb (fun e => is_cs_read e || is_usleep e) polls = true /\
          (Z.land last (RPI_DMA_CS_ACTIVE H) = 0 \/
           Z.land last (RPI_DMA_CS_ERROR H) <> 0) /\
          ((Z.land check (RPI_DMA_CS_ERROR H) = 0 /\ r = 0 /\
            exists cs,
              log w' = log w ++ stores ++ polls
                       ++ [EvRead DMA_CS last; EvRead DMA_CS check]
                       ++ dma_start_events H cb cs) \/
           (Z.land check (RPI_DMA_CS_ERROR H) <> 0 /\ r = -1 /\
            exists debug,
              log w' = log w ++ stores ++ polls
                       ++ [EvRead DMA_CS last; EvRead DMA_CS check;
                           EvRead DMA_DEBUG debug; EvStderr debug]))) /\
    (forall w',
        ws2811_render H hw fuel cb ws w = Some (0, w') ->
        (forall n, Z.land (hw DMA_CS n) (RPI_DMA_CS_ERROR H) <> 0 ->
                   Z.land (hw DMA_CS (S n)) (RPI_DMA_CS_ERROR H) <> 0) ->
        exists before n cs,
          log w' = log w ++ before
                   ++ [EvRead DMA_CS (hw DMA_CS n);
                       EvRead DMA_CS (hw DMA_CS (S n))]
                   ++ dma_start_events H cb cs /\
          Z.land (hw DMA_CS n) (RPI_DMA_CS_ACTIVE H) = 0 /\
          Z.land (hw DMA_CS (S n)) (RPI_DMA_CS_ERROR H) = 0) /\
    (forall j,
        (j < fuel)%nat ->
        Z.land (hw DMA_CS (reads w + 2 * j)%nat) (RPI_DMA_CS_ACTIVE H) = 0 \/
        Z.land (hw DMA_CS (reads w + 2 * j + 1)%nat) (RPI_DMA_CS_ERROR H) <> 0 ->
        exists r w', ws2811_render H hw fuel cb ws w = Some (r, w') /\
                     (reads w' <= reads w + 2 * j + 4)%nat).
Proof.
  intros H hw fuel cb ws w. split; [|split].
  - intros r w' Hrun.
    destruct (ws2811_render_log H hw fuel cb ws w r w' Hrun)
      as (stores & polls & n & Hstores & Hpolls & Hlast & Hcases).
    exists stores, polls, n. cbv zeta.
    split; [exact Hstores|]. split; [exact Hpolls|]. split; [exact Hlast|].
    destruct Hcases as [(Hc & Hr & Hl)|(Hc & Hr & Hl)]; [left|right];
      (split; [exact Hc|]); (split; [exact Hr|]); eexists; exact Hl.
  - intros w' Hrun Hsticky.
    destruct (ws2811_render_log H hw fuel cb ws w 0 w' Hrun)
      as (stores & polls & n & _ & _ & Hlast & Hcases).
    destruct Hcases as [(Hc & _ & Hl)|(_ & Hr & _)]; [|discriminate Hr].
    exists (stores ++ polls), n, (hw PCM_CS (S (S n))).
    split; [rewrite Hl, <- !app_assoc; reflexivity|].
    split; [|exact Hc].
    destruct Hlast as [Hidle|Herr]; [exact Hidle|].
    destruct (Hsticky n Herr Hc).
  - intros j. apply ws2811_render_prompt.
Qed.

Lemma C3_render_order_witness :
  exists w' before n cs,
    ws2811_render Examples.bcm2835 Examples.hw_busy 10 0
                  Examples.one_red Examples.blank = Some (0, w') /\
    log w' = log Examples.blank ++ before
             ++ [EvRead DMA_CS (Examples.hw_busy DMA_CS n);
                 EvRead DMA_CS (Examples.hw_busy DMA_CS (S n))]
             ++ dma_start_events Examples.bcm2835 0 cs /\
    Z.land (Examples.hw_busy DMA_CS n) (RPI_DMA_CS_ACTIVE Examples.bcm2835) = 0 /\
    Z.land (Examples.hw_busy DMA_CS (S n)) (RPI_DMA_CS_ERROR Examples.bcm2835) = 0.
Proof.
  assert (Hclear : forall n,
            Z.land (Examples.hw_busy DMA_CS n)
                   (RPI_DMA_CS_ERROR Examples.bcm2835) = 0).
  { intros n. unfold Examples.hw_busy. destruct (n <? 4)%nat; reflexivity. }
  destruct (C3_render_order Examples.bcm2835 Examples.hw_busy 10 0
              Examples.one_red Examples.blank)
    as (Horder & Hidle & Hreturns).
  destruct (Hreturns 2%nat) as (r & w' & Hrun & _).
  - lia.
  - left. reflexivity.
  - destruct (Horder r w' Hrun)
      as (stores & polls & n & _ & _ & _ & [(_ & Hr & _)|(Hc & _)]).
    + subst r.
      destruct (Hidle w' Hrun) as (before & m & cs & Hl & Ha & He).
      * intros k Hk. destruct (Hk (Hclear k)).
      * exists w', before, m, cs. auto.
    + destruct (Hc (Hclear (S n))).
Defined.

(** ** The completion waiter *)

(** While the channel is busy without error for [j] polls and the error
    bit is set from then on, the loop sleeps [j] times and is left. *)
Lemma wait_loop_error H hw j : forall fuel w,
  (j < fuel)%nat ->
  (forall i, (i < j)%nat ->
     Z.land (hw DMA_CS (reads w + 2 * i)%nat) (RPI_DMA_CS_ACTIVE H) <> 0 /\
     Z.land (hw DMA_CS (reads w + 2 * i + 1)%nat) (RPI_DMA_CS_ERROR H) = 0) ->
  (forall n, (reads w + 2 * j <= n)%nat ->
     Z.land (hw DMA_CS n) (RPI_DMA_CS_ERROR H) <> 0) ->
  exists w1 es,
    wait_loop H hw fuel w = Some w1 /\
    pcm_raw w1 = pcm_raw w /\
    log w1 = log w ++ es /\
    forallb (fun e => is_cs_read e || is_usleep e) es = true /\
    usleeps es = j /\
    (reads w + 2 * j <= reads w1)%nat.
Proof.
  induction j as [|j IH]; intros fuel w Hfuel Hbusy Herr;
    (destruct fuel as [|fuel]; [lia|]);
    cbn [wait_loop vread reads pcm_raw log].
  - destruct (truthy (Z.land (hw DMA_CS (reads w)) (RPI_DMA_CS_ACTIVE H))).
    + rewrite (truthy_true _ (Herr (S (reads w)) ltac:(lia))). cbn [negb].
      eexists. exists [EvRead DMA_CS (hw DMA_CS (reads w));
                       EvRead DMA_CS (hw DMA_CS (S (reads w)))].
      cbn [pcm_raw log reads]. rewrite <- app_assoc.
      repeat split. cbn [reads]. lia.
    + eexists. exists [EvRead DMA_CS (hw DMA_CS (reads w))].
      cbn [pcm_raw log reads]. repeat split. cbn [reads]. lia.
  - destruct (Hbusy 0%nat ltac:(lia)) as [Hact Hok].
    replace (reads w + 2 * 0)%nat with (reads w) in Hact by lia.
    replace (reads w + 2 * 0 + 1)%nat with (S (reads w)) in Hok by lia.
    rewrite (truthy_true _ Hact), (truthy_false _ Hok). cbn [negb].
    destruct (IH fuel
                (usleep 10
                   {| pcm_raw := pcm_raw w; reads := S (S (reads w));
                      log := (log w ++ [EvRead DMA_CS (hw DMA_CS (reads w))])
                             ++ [EvRead DMA_CS (hw DMA_CS (S (reads w)))] |}))
      as (w1 & es & Hrun & Hm & Hl & Hes & Hus & Hreads).
    + lia.
    + intros i Hi. unfold usleep, tick. cbn [reads].
      replace (S (S (reads w)) + 2 * i)%nat
        with (reads w + 2 * S i)%nat by lia.
      apply Hbusy. lia.
    + intros n Hn. unfold usleep, tick in Hn. cbn [reads] in Hn.
      apply Herr. lia.
    + unfold usleep, tick in Hm, Hl, Hreads.
      cbn [pcm_raw log reads] in Hm, Hl, Hreads.
      exists w1, ([EvRead DMA_CS (hw DMA_CS (reads w));
                   EvRead DMA_CS (hw DMA_CS (S (reads w)));
                   EvUsleep 10] ++ es).
      split; [exact Hrun|]. split; [exact Hm|]. split; [|split; [|split]].
      * rewrite Hl, <- !app_assoc. reflexivity.
      * exact Hes.
      * unfold usleeps in *. cbn. now rewrite Hus.
      * lia.
Qed.

(** C7: when the first poll of [dma->cs] shows the active bit clear and the
    check that follows shows the error bit clear, [ws2811_wait] returns 0
    after these two reads, without any [usleep]; when the error bit is set
    in [dma->cs] after [j] polls of a busy channel and stays set (for
    [j = 0]: it is set before the call), [ws2811_wait] returns -1 after [j]
    delays, having read [dma->debug] and reported that very value on
    stderr, and the buffer is as it was; and whenever it returns, the buffer
    is as it was, the result is -1 exactly when the last value read from
    [dma->cs] had the error bit set, and a failure reports the value read
    from [dma->debug]. *)
Theorem C7_wait :
  forall (H : headers) (hw : reg -> nat -> Z) (fuel : nat) (w : world),
    ((0 < fuel)%nat ->
     Z.land (hw DMA_CS (reads w)) (RPI_DMA_CS_ACTIVE H) = 0 ->
     Z.land (hw DMA_CS (S (reads w))) (RPI_DMA_CS_ERROR H) = 0 ->
     exists w',
       ws2811_wait H hw fuel w = Some (0, w') /\
       pcm_raw w' = pcm_raw w /\
       log w' = log w ++ [EvRead DMA_CS (hw DMA_CS (reads w));
                          EvRead DMA_CS (hw DMA_CS (S (reads w)))]) /\
    (forall j,
       (j < fuel)%nat ->
       (forall i, (i < j)%nat ->
          Z.land (hw DMA_CS (reads w + 2 * i)%nat) (RPI_DMA_CS_ACTIVE H) <> 0 /\
          Z.land (hw DMA_CS (reads w + 2 * i + 1)%nat) (RPI_DMA_CS_ERROR H) = 0) ->
       (forall n, (reads w + 2 * j <= n)%nat ->
          Z.land (hw DMA_CS n) (RPI_DMA_CS_ERROR H) <> 0) ->
       exists w' polls,
         ws2811_wait H hw fuel w = Some (-1, w') /\
         pcm_raw w' = pcm_raw w /\
         forallb (fun e => is_cs_read e || is_usleep e) polls = true /\
         usleeps polls = j /\
         let debug := hw DMA_DEBUG (Nat.pred (reads w')) in
         log w' = log w ++ polls ++ [EvRead DMA_DEBUG debug; EvStderr debug]) /\
    (forall r w',
       ws2811_wait H hw fuel w = Some (r, w') ->
       pcm_raw w' = pcm_raw w /\
       exists es cs,
         forallb is_wait_event es = true /\ existsb is_cs_read es = true /\
         ((r = 0 /\ log w' = log w ++ es ++ [EvRead DMA_CS cs] /\
           Z.land cs (RPI_DMA_CS_ERROR H) = 0) \/
          (r = -1 /\ Z.land cs (RPI_DMA_CS_ERROR H) <> 0 /\
           exists debug,
             log w' = log w ++ es ++ [EvRead DMA_CS cs; EvRead DMA_DEBUG debug;
                                      EvStderr debug]))).
Proof.
  intros H hw fuel w. split; [|split].
  - intros Hfuel Hidle Hok. destruct fuel as [|fuel]; [lia|].
    unfold ws2811_wait. cbn [wait_loop vread reads pcm_raw log].
    rewrite (truthy_false _ Hidle). cbn [vread reads pcm_raw log].
    rewrite (truthy_false _ Hok).
    eexists. split; [reflexivity|]. split; [reflexivity|].
    cbn [log]. now rewrite <- app_assoc.
  - intros j Hfuel Hbusy Herr.
    destruct (wait_loop_error H hw j fuel w Hfuel Hbusy Herr)
      as (w1 & es & Hrun & Hm & Hl & Hes & Hus & Hreads).
    unfold ws2811_wait. rewrite Hrun. cbn [vread].
    rewrite (truthy_true _ (Herr (reads w1) Hreads)).
    eexists. exists (es ++ [EvRead DMA_CS (hw DMA_CS (reads w1))]).
    split; [reflexivity|]. split; [exact Hm|]. split; [|split].
    + rewrite forallb_app, Hes. reflexivity.
    + unfold usleeps in *. rewrite filter_app, length_app, Hus. cbn. lia.
    + cbv zeta. unfold tick. cbn [log reads Nat.pred].
      rewrite Hl, <- !app_assoc. reflexivity.
  - intros r w'. apply ws2811_wait_log.
Qed.

Lemma C7_wait_witness :
  (exists w',
      ws2811_wait Examples.bcm2835 Examples.hw_idle 1 Examples.dirty = Some (0, w') /\
      pcm_raw w' = pcm_raw Examples.dirty /\
      log w' = log Examples.dirty ++ [EvRead DMA_CS 0; EvRead DMA_CS 0]) /\
  (exists w' polls,
      ws2811_wait Examples.bcm2835 Examples.hw_error 1 Examples.dirty = Some (-1, w') /\
      pcm_raw w' = pcm_raw Examples.dirty /\
      forallb (fun e => is_cs_read e || is_usleep e) polls = true /\
      usleeps polls = 0%nat /\
      log w' = log Examples.dirty ++ polls ++
               [EvRead DMA_DEBUG (Examples.hw_error DMA_DEBUG (Nat.pred (reads w')));
                EvStderr (Examples.hw_error DMA_DEBUG (Nat.pred (reads w')))]) /\
  (exists w' es cs debug,
      ws2811_wait Examples.bcm2835 Examples.hw_error 1 Examples.dirty = Some (-1, w') /\
      pcm_raw w' = pcm_raw Examples.dirty /\
      Z.land cs (RPI_DMA_CS_ERROR Examples.bcm2835) <> 0 /\
      log w' = log Examples.dirty ++ es ++
               [EvRead DMA_CS cs; EvRead DMA_DEBUG debug; EvStderr debug]).
Proof.
  destruct (C7_wait Examples.bcm2835 Examples.hw_error 1 Examples.dirty)
    as (_ & Herror & Hany).
  destruct (Herror 0%nat) as (w' & polls & Hrun & Hrest).
  { lia. }
  { intros i Hi. lia. }
  { intros n _. cbn. discriminate. }
  split; [|split].
  - apply (C7_wait Examples.bcm2835 Examples.hw_idle 1 Examples.dirty);
      [lia|reflexivity|reflexivity].
  - exists w', polls. split; [exact Hrun|exact Hrest].
  - destruct (Hany _ _ Hrun) as (Hmem & es & cs & _ & _ & Hcases).
    destruct Hcases as [(Hr & _)|(_ & Hcs & debug & Hlog)]; [discriminate Hr|].
    exists w', es, cs, debug. auto.
Defined.

(** ** The zero-fill of initialisation *)

(** Every iteration of [pcm_raw_init] stores to the one word
    [pcm_raw[wordcount]]. *)
Lemma pcm_raw_init_words ws w i :
  let wordcount :=
    to_int32 (PCM_BYTE_COUNT (max_channel_led_count ws) (freq ws) / 4) in
  pcm_raw (pcm_raw_init ws w) i
  = if (i =? wordcount) && (0 <? wordcount) then 0 else pcm_raw w i.
Proof.
  intros wordcount. unfold pcm_raw_init. fold wordcount.
  assert (Hloop : forall l w,
            pcm_raw (fold_left (fun w (_ : Z) => store wordcount 0 w) l w) i
            = if (i =? wordcount) && negb (Nat.eqb (length l) 0) then 0
              else pcm_raw w i).
  { induction l as [|x l IH]; intros w0.
    - cbn. now rewrite andb_false_r.
    - cbn [fold_left length]. rewrite IH. cbn [store pcm_raw Nat.eqb negb].
      destruct (Z.eqb_spec i wordcount); cbn [andb];
        [now destruct (negb _)|reflexivity]. }
  rewrite Hloop. f_equal. f_equal.
  unfold upto. rewrite length_map, length_seq.
  destruct (Z.ltb_spec 0 wordcount), (Nat.eqb_spec (Z.to_nat wordcount) 0);
    cbn; try reflexivity; lia.
Qed.

(** C4 (the code on its failing inputs): whatever the channel and the
    memory, [pcm_raw_init] changes no word but [pcm_raw[wordcount]], the word
    behind the sized buffer.  For one LED at 800000 Hz the buffer has 8
    words; on memory holding 0xFFFFFFFF everywhere the words 0..7 stay as
    they were and word 8 is zeroed. *)
Theorem C4_pcm_raw_init_misses_buffer :
  (forall (ws : ws2811_t) (w : world) (i : Z),
      let wordcount :=
        to_int32 (PCM_BYTE_COUNT (max_channel_led_count ws) (freq ws) / 4) in
      pcm_raw (pcm_raw_init ws w) i
      = if (i =? wordcount) && (0 <? wordcount) then 0 else pcm_raw w i) /\
  PCM_BYTE_COUNT (max_channel_led_count Examples.one_red)
                 (freq Examples.one_red) / 4 = 8 /\
  map (pcm_raw (pcm_raw_init Examples.one_red Examples.dirty)) (upto 9)
  = [0xFFFFFFFF; 0xFFFFFFFF; 0xFFFFFFFF; 0xFFFFFFFF;
     0xFFFFFFFF; 0xFFFFFFFF; 0xFFFFFFFF; 0xFFFFFFFF; 0].
Proof.
  split; [exact pcm_raw_init_words|]. split; vm_compute; reflexivity.
Qed.

(** ** Failures of initialisation *)

(** C5 (the code on its failing inputs): whatever the clock and the PCM
    hardware do, when [mem_alloc] returns 0, [ws2811_init] returns -1 with
    the mailbox still open and the device structure still allocated, and
    [ws2811_cleanup] has not run; when [mem_lock] returns all ones, it
    returns -1 holding the VideoCore memory as well ([mem_free] is handed
    the size, 4096, not the reference, 7); on the sibling path of an
    unsupported pin everything is released, through [ws2811_cleanup]. *)
Theorem C5_init_early_failure_leaks :
  forall (K : Setup.setup_headers) (hw : Setup.sreg -> nat -> Z) (fuel : nat)
         (st : Setup.state),
    let init := fun X => Lifecycle.ws2811_init Examples.bcm2835 K hw X fuel
                           Examples.one_red st in
    (exists early,
        init Examples.alloc_fails = Lifecycle.Returns (-1) early /\
        Init.live early = [Init.Mailbox 3; Init.DeviceStruct] /\
        Init.cleanups early = 0%nat) /\
    (exists locked,
        init Examples.lock_fails = Lifecycle.Returns (-1) locked /\
        Init.live locked
        = [Init.VcMemory 7; Init.Mailbox 3; Init.DeviceStruct] /\
        Init.cleanups locked = 0%nat) /\
    (exists late,
        init Examples.bad_pin = Lifecycle.Returns (-1) late /\
        Init.live late = [] /\
        Init.cleanups late = 1%nat).
Proof.
  intros K hw fuel st init. subst init.
  split; [|split]; eexists; (split; [vm_compute; reflexivity|]);
    split; reflexivity.
Qed.

(** C9 (the code at the failing input): whatever the clock and the PCM
    hardware do, when the DMA window maps and the PCM window does not,
    [ws2811_init] returns -1 after [ws2811_cleanup] with the DMA window
    still mapped; on the sibling path of an unsupported pin, which calls
    [unmap_registers], no window stays mapped. *)
Theorem C9_init_map_failure_leaks :
  forall (K : Setup.setup_headers) (hw : Setup.sreg -> nat -> Z) (fuel : nat)
         (st : Setup.state),
    let init := fun X => Lifecycle.ws2811_init Examples.bcm2835 K hw X fuel
                           Examples.one_red st in
    (exists failed,
        init Examples.pcm_map_fails = Lifecycle.Returns (-1) failed /\
        Init.live failed = [Init.Mapping (Init.mapmem_dma Examples.pcm_map_fails)] /\
        Init.cleanups failed = 1%nat) /\
    (exists late,
        init Examples.bad_pin = Lifecycle.Returns (-1) late /\
        Init.live late = []).
Proof.
  intros K hw fuel st init. subst init.
  split; eexists; (split; [vm_compute; reflexivity|]);
    repeat split; reflexivity.
Qed.

(** ** Sizes and addresses *)

Lemma to_uint32_land z : to_uint32 z = Z.land z (Z.ones 32).
Proof. unfold to_uint32. now rewrite Z.land_ones by lia. Qed.

(** [x & ~(2^k - 1)] on a 32-bit unsigned value rounds down to a multiple
    of [2^k]. *)
Lemma land_not_pow2 x k :
  0 <= k -> 0 <= x < 2 ^ 32 ->
  Z.land x (to_uint32 (Z.lnot (2 ^ k - 1))) = 2 ^ k * (x / 2 ^ k).
Proof.
  intros Hk Hx.
  rewrite to_uint32_land, Z.land_assoc, (Z.land_comm x), <- Z.land_assoc.
  rewrite <- to_uint32_land, (to_uint32_small x Hx).
  rewrite Z.land_comm, <- Z.ldiff_land.
  pose proof (Z.lor_ldiff_and x (2 ^ k - 1)) as Hsplit.
  assert (Hdisj : Z.land (Z.ldiff x (2 ^ k - 1)) (Z.land x (2 ^ k - 1)) = 0).
  { apply Z.bits_inj'. intros n Hn.
    rewrite !Z.land_spec, Z.ldiff_spec, Z.bits_0.
    destruct (Z.testbit x n), (Z.testbit (2 ^ k - 1) n); reflexivity. }
  rewrite <- (Z.lxor_lor _ _ Hdisj) in Hsplit.
  rewrite <- (Z.add_nocarry_lxor _ _ Hdisj) in Hsplit.
  assert (Hones : 2 ^ k - 1 = Z.ones k) by (rewrite Z.ones_equiv; lia).
  rewrite Hones in Hsplit at 2. rewrite Z.land_ones in Hsplit by lia.
  assert (0 < 2 ^ k) by (apply Z.pow_pos_nonneg; lia).
  pose proof (Z.div_mod x (2 ^ k) ltac:(lia)). lia.
Qed.

(** X10: with a page size that is a power of two, and as long as the sum
    does not exceed 32 bits, the size [ws2811_init] asks the mailbox for is
    a multiple of the page size that covers the control block and the
    buffer and exceeds them by less than a page. *)
Theorem X10_mbox_size_pages :
  forall (H : headers) (ws : ws2811_t) (k : Z),
    0 <= k ->
    PAGE_SIZE H = 2 ^ k ->
    0 <= sizeof_dma_cb_t H ->
    PCM_BYTE_COUNT (max_channel_led_count ws) (freq ws) + sizeof_dma_cb_t H
      + PAGE_SIZE H <= 2 ^ 32 ->
    let need := PCM_BYTE_COUNT (max_channel_led_count ws) (freq ws)
                + sizeof_dma_cb_t H in
    Lifecycle.mbox_size H ws mod PAGE_SIZE H = 0 /\
    need <= Lifecycle.mbox_size H ws < need + PAGE_SIZE H.
Proof.
  intros H ws k Hk Hpage Hcb Hfit need.
  unfold Lifecycle.mbox_size. fold need.
  pose proof (to_uint32_range
                (to_uint32 (to_uint32
                   (Z.land (Z.shiftr (LED_BIT_COUNT (max_channel_led_count ws)
                                        (freq ws)) 3)
                           (to_uint32 (Z.lnot 7)) + 4) + 4))) as Hpcm.
  assert (Hp : 0 < 2 ^ k) by (apply Z.pow_pos_nonneg; lia).
  assert (Hneed : 0 <= need < 2 ^ 32).
  { subst need. unfold PCM_BYTE_COUNT in *.
    pose proof (to_uint32_range
                  (to_uint32 (Z.land (Z.shiftr (LED_BIT_COUNT
                     (max_channel_led_count ws) (freq ws)) 3)
                     (to_uint32 (Z.lnot 7)) + 4) + 4)).
    lia. }
  rewrite (to_uint32_small need Hneed). rewrite Hpage in *.
  rewrite (to_uint32_small (need + (2 ^ k - 1))) by lia.
  rewrite land_not_pow2 by lia.
  pose proof (Z.div_mod (need + (2 ^ k - 1)) (2 ^ k) ltac:(lia)) as Hdm.
  pose proof (Z.mod_pos_bound (need + (2 ^ k - 1)) (2 ^ k) Hp) as Hm.
  split.
  - rewrite Z.mul_comm. apply Z.mod_mul. lia.
  - lia.
Qed.

Lemma X10_mbox_size_pages_witness :
  Lifecycle.mbox_size Examples.bcm2835 Examples.one_red mod 4096 = 0 /\
  32 + 32 <= Lifecycle.mbox_size Examples.bcm2835 Examples.one_red < 32 + 32 + 4096.
Proof.
  apply (X10_mbox_size_pages Examples.bcm2835 Examples.one_red 12).
  - lia.
  - reflexivity.
  - cbn. lia.
  - vm_compute. discriminate.
Defined.

(** X3: on a 32-bit bus address [BUS_TO_PHYS] clears the two top bits: the
    result is the address modulo [2^30], and applying it twice changes
    nothing more. *)
Theorem X3_bus_to_phys :
  forall x : Z,
    0 <= x < 2 ^ 32 ->
    BUS_TO_PHYS x = x mod 2 ^ 30 /\
    0 <= BUS_TO_PHYS x < 2 ^ 30 /\
    BUS_TO_PHYS (BUS_TO_PHYS x) = BUS_TO_PHYS x.
Proof.
  intros x Hx.
  assert (E : forall y, BUS_TO_PHYS y = y mod 2 ^ 30).
  { intros y. unfold BUS_TO_PHYS.
    change (to_uint32 (Z.lnot 0xC0000000)) with (Z.ones 30).
    apply Z.land_ones. lia. }
  rewrite !E.
  pose proof (Z.mod_pos_bound x (2 ^ 30) ltac:(lia)) as Hm.
  split; [reflexivity|]. split; [exact Hm|].
  apply Z.mod_small. exact Hm.
Qed.

Lemma X3_bus_to_phys_witness :
  BUS_TO_PHYS 0xDE000000 = 0xDE000000 mod 2 ^ 30 /\
  0 <= BUS_TO_PHYS 0xDE000000 < 2 ^ 30 /\
  BUS_TO_PHYS (BUS_TO_PHYS 0xDE000000) = BUS_TO_PHYS 0xDE000000.
Proof. apply (X3_bus_to_phys 0xDE000000). lia. Defined.

Lemma addr_to_bus_offset m k :
  0 <= Init.bus_addr m -> 0 <= k -> Init.bus_addr m + k < 2 ^ 32 ->
  addr_to_bus m (Init.virt_addr m + k) = Init.bus_addr m + k.
Proof.
  intros Hb Hk Hfit. unfold addr_to_bus.
  replace (Init.virt_addr m + k - Init.virt_addr m) with k by lia.
  rewrite (to_uint32_small k) by lia. apply to_uint32_small. lia.
Qed.

(** X4: [addr_to_bus] maps a pointer [k] bytes into the mapping to
    [bus_addr + k], as long as that stays within 32 bits (the start of the
    mapping to [bus_addr] itself), and it keeps the distance of any two
    pointers, modulo [2^32]. *)
Theorem X4_addr_to_bus :
  forall (m : Init.videocore_mbox_t) (k : Z),
    0 <= Init.bus_addr m ->
    0 <= k ->
    Init.bus_addr m + k < 2 ^ 32 ->
    addr_to_bus m (Init.virt_addr m + k) = Init.bus_addr m + k /\
    addr_to_bus m (Init.virt_addr m) = Init.bus_addr m /\
    (forall virt j,
        addr_to_bus m (virt + j) = to_uint32 (addr_to_bus m virt + j)).
Proof.
  intros m k Hb Hk Hfit. split; [now apply addr_to_bus_offset|]. split.
  - rewrite <- (Z.add_0_r (Init.virt_addr m)) at 1.
    rewrite addr_to_bus_offset by lia. lia.
  - intros virt j. unfold addr_to_bus, to_uint32.
    rewrite Zplus_mod_idemp_l, Zplus_mod_idemp_r.
    rewrite (Z.add_comm (Init.bus_addr m) ((virt - Init.virt_addr m) mod 2 ^ 32)).
    rewrite <- Z.add_assoc, Zplus_mod_idemp_l. f_equal. lia.
Qed.

Lemma X4_addr_to_bus_witness :
  let m := Init.mbox (Lifecycle.initialised_device Examples.bcm2835
                        Examples.all_ok Examples.one_red) in
  addr_to_bus m (Init.virt_addr m + 32) = Init.bus_addr m + 32 /\
  addr_to_bus m (Init.virt_addr m) = Init.bus_addr m /\
  (forall virt j,
      addr_to_bus m (virt + j) = to_uint32 (addr_to_bus m virt + j)).
Proof.
  apply (X4_addr_to_bus
           (Init.mbox (Lifecycle.initialised_device Examples.bcm2835
                         Examples.all_ok Examples.one_red)) 32).
  - cbn. lia.
  - lia.
  - cbn. lia.
Defined.

(** ** More of buffer sizing *)

(** X1: as long as the bit count [72 * ledCount + reset_bits] stays below
    [2^32], [LED_BIT_COUNT] is that number and the buffer of
    [PCM_BYTE_COUNT] bytes is a whole number of 64-bit units that holds
    more bits than the LED bits and the reset bits together, by at most
    64. *)
Theorem X1_buffer_holds_reset :
  forall leds freq : Z,
    0 <= leds ->
    72 * leds + reset_bits freq < 2 ^ 32 ->
    LED_BIT_COUNT leds freq = 72 * leds + reset_bits freq /\
    PCM_BYTE_COUNT leds freq mod 8 = 0 /\
    72 * leds + reset_bits freq < 8 * PCM_BYTE_COUNT leds freq
      <= 72 * leds + reset_bits freq + 64.
Proof.
  intros leds freq H0 H1.
  rewrite (PCM_BYTE_COUNT_exact leds freq H0 H1).
  split; [now apply LED_BIT_COUNT_exact|].
  set (b := 72 * leds + reset_bits freq) in *.
  pose proof (Z.div_mod b 64 ltac:(lia)).
  pose proof (Z.mod_pos_bound b 64 ltac:(lia)).
  split; [|lia].
  replace (8 * (b / 64) + 8) with ((b / 64 + 1) * 8) by ring.
  apply Z.mod_mul. lia.
Qed.

Lemma X1_buffer_holds_reset_witness :
  LED_BIT_COUNT 3 800000 = 72 * 3 + reset_bits 800000 /\
  PCM_BYTE_COUNT 3 800000 mod 8 = 0 /\
  72 * 3 + reset_bits 800000 < 8 * PCM_BYTE_COUNT 3 800000
    <= 72 * 3 + reset_bits 800000 + 64.
Proof.
  apply (X1_buffer_holds_reset 3 800000).
  - lia.
  - vm_compute. reflexivity.
Defined.

(** X2: for a tick rate with [165 * freq < 2^32] the reset term of
    [LED_BIT_COUNT] is [165 * freq / 1000000], the ticks of 55 microseconds
    at three ticks per bit; for every tick rate it lies in 0..4294. *)
Theorem X2_reset_bits :
  forall freq : Z,
    0 <= freq ->
    165 * freq < 2 ^ 32 ->
    reset_bits freq = 165 * freq / 1000000 /\
    (forall f, 0 <= reset_bits f <= 4294).
Proof.
  intros freq H0 H1. split; [|exact reset_bits_range].
  unfold reset_bits, LED_RESET_uS.
  change (2 ^ 32) with 4294967296 in H1.
  rewrite (to_uint32_small (freq * 3)) by (change (2 ^ 32) with 4294967296; lia).
  rewrite to_uint32_small by (change (2 ^ 32) with 4294967296; lia).
  f_equal. lia.
Qed.

Lemma X2_reset_bits_witness :
  reset_bits 800000 = 165 * 800000 / 1000000 /\
  (forall f, 0 <= reset_bits f <= 4294).
Proof. apply (X2_reset_bits 800000); vm_compute; congruence. Defined.

(** ** More of the pixel encoder *)

(** X11: the encoding loop of [ws2811_render] overwrites all of the first
    [72 * count] stream bits: they depend on the pixels only, not on what
    the buffer held; encoding the same pixels again changes no bit of the
    stream; and with [count <= 0] the loop does nothing at all. *)
Theorem X11_render_overwrites :
  forall (H : headers) (ws : ws2811_t) (w w' : world),
    (forall p, 0 <= p < 72 * count (channel ws) ->
       stream_bit (pcm_raw (rendered H ws w)) p
       = stream_bit (pcm_raw (rendered H ws w')) p) /\
    (forall p,
       stream_bit (pcm_raw (rendered H ws (rendered H ws w))) p
       = stream_bit (pcm_raw (rendered H ws w)) p) /\
    (count (channel ws) <= 0 -> rendered H ws w = w).
Proof.
  intros H ws w w'. split; [|split].
  - intros p Hp. now rewrite !rendered_encoded_bit.
  - intros p.
    destruct (Z.le_gt_cases 0 p) as [H0|H0];
      [destruct (Z.lt_ge_cases p (72 * count (channel ws))) as [H1|H1]|].
    + now rewrite !rendered_encoded_bit.
    + destruct (rendered_written H ws (rendered H ws w)) as [_ _ _ Hframe _ _ _].
      fold (rendered H ws (rendered H ws w)) in Hframe.
      change (pos {| wordpos := 0; bitpos := 31 |}) with 0 in Hframe.
      apply Hframe. lia.
    + destruct (rendered_written H ws (rendered H ws w)) as [_ _ _ Hframe _ _ _].
      fold (rendered H ws (rendered H ws w)) in Hframe.
      change (pos {| wordpos := 0; bitpos := 31 |}) with 0 in Hframe.
      apply Hframe. lia.
  - intros Hcount. unfold rendered, encode, upto.
    replace (Z.to_nat (count (channel ws))) with 0%nat by lia. reflexivity.
Qed.

Lemma X11_render_overwrites_witness :
  stream_bit (pcm_raw (rendered Examples.bcm2835 Examples.one_red Examples.blank)) 5
  = stream_bit (pcm_raw (rendered Examples.bcm2835 Examples.one_red Examples.dirty)) 5 /\
  rendered Examples.bcm2835 (Examples.strip 0 [] 0) Examples.dirty = Examples.dirty.
Proof.
  split.
  - apply (proj1 (X11_render_overwrites Examples.bcm2835 Examples.one_red
                      Examples.blank Examples.dirty)). cbn. lia.
  - apply (proj2 (proj2 (X11_render_overwrites Examples.bcm2835
                           (Examples.strip 0 [] 0) Examples.dirty
                           Examples.dirty))). cbn. lia.
Defined.

(** X12: decoding the buffer the encoding loop leaves gives back the colour
    bytes: at LED [i] and colour [j] the eight symbols from stream position
    [72*i + 24*j] on start with a 1 and end with a 0, and their middle
    bits, undone the inversion, most significant first, are the
    gamma-corrected, brightness-scaled byte of that colour. *)
Theorem X12_decode_rendered :
  forall (H : headers) (ws : ws2811_t) (w : world) (i j : Z),
    0 <= i < count (channel ws) -> 0 <= j <= 2 ->
    let ch := channel ws in
    let buffer := pcm_raw (rendered H ws w) in
    decode_byte buffer (invert ch) (72 * i + 24 * j)
    = nth (Z.to_nat j) (colors_of H ch i) 0 /\
    (forall s, 0 <= s <= 7 ->
       stream_bit buffer (72 * i + 24 * j + 3 * s) = true /\
       stream_bit buffer (72 * i + 24 * j + 3 * s + 2) = false).
Proof.
  intros H ws w i j Hi Hj ch buffer.
  assert (Hsym : forall s e, 0 <= s <= 7 -> 0 <= e <= 2 ->
            stream_bit buffer (72 * i + 24 * j + 3 * s + e)
            = Z.testbit (symbol_for (invert ch)
                           (nth (Z.to_nat j) (colors_of H ch i) 0) (7 - s))
                        (2 - e)).
  { intros s e Hs He. subst buffer ch.
    rewrite <- (rendered_symbol_bit H ws w i j (7 - s) e) by lia.
    f_equal. lia. }
  split.
  - rewrite <- (byte_of_bits (nth (Z.to_nat j) (colors_of H ch i) 0))
      by apply color_range.
    unfold decode_byte, decode_bit.
    assert (Hbit : forall s, 0 <= s <= 7 ->
              xorb (stream_bit buffer (72 * i + 24 * j + 3 * s + 1))
                   (truthy (invert ch))
              = Z.testbit (nth (Z.to_nat j) (colors_of H ch i) 0) (7 - s)).
    { intros s Hs. rewrite Hsym by lia.
      destruct (symbol_for_bits (invert ch)
                  (nth (Z.to_nat j) (colors_of H ch i) 0) (7 - s))
        as (_ & S1 & _).
      change (2 - 1) with 1. rewrite S1.
      now destruct (Z.testbit _ (7 - s)), (truthy (invert ch)). }
    cbn [fold_left]. rewrite !Hbit by lia. reflexivity.
  - intros s Hs.
    destruct (symbol_for_bits (invert ch)
                (nth (Z.to_nat j) (colors_of H ch i) 0) (7 - s))
      as (S2 & _ & S0).
    split.
    + rewrite <- (Z.add_0_r (_ + 3 * s)), Hsym by lia. exact S2.
    + rewrite Hsym by lia. exact S0.
Qed.

Lemma X12_decode_rendered_witness :
  decode_byte (pcm_raw (rendered Examples.bcm2835 Examples.one_red Examples.dirty))
              0 0 = 255.
Proof.
  apply (X12_decode_rendered Examples.bcm2835 Examples.one_red Examples.dirty 0 0).
  - cbn. lia.
  - lia.
Defined.

Lemma colors_of_same H ch ch' i :
  same_pixels ch ch' -> colors_of H ch' i = colors_of H ch i.
Proof.
  intros (Hc & Hb & Hs & Hl).
  unfold colors_of, led_at, rshift, gshift, bshift, scale_of.
  now rewrite Hb, Hs, Hl.
Qed.

(** X13: two channels with the same pixels, brightness and strip type, one
    inverted and one not, are encoded alike but for the middle bit of every
    symbol, which is complemented: within the first [72 * count] stream
    bits the two buffers differ exactly at the positions [p] with
    [p mod 3 = 1]. *)
Theorem X13_invert_complements :
  forall (H : headers) (ws ws' : ws2811_t) (w w' : world) (p : Z),
    same_pixels (channel ws) (channel ws') ->
    truthy (invert (channel ws')) = negb (truthy (invert (channel ws))) ->
    0 <= p < 72 * count (channel ws) ->
    stream_bit (pcm_raw (rendered H ws' w')) p
    = xorb (stream_bit (pcm_raw (rendered H ws w)) p) (p mod 3 =? 1).
Proof.
  intros H ws ws' w w' p Hsame Hinv Hp.
  assert (Hcount : count (channel ws') = count (channel ws)) by apply Hsame.
  rewrite !rendered_encoded_bit by (rewrite ?Hcount; exact Hp).
  unfold encoded_bit. rewrite (colors_of_same H _ _ _ Hsame).
  set (c := nth _ (colors_of H (channel ws) (p / 72)) 0).
  set (k := 7 - p mod 24 / 3).
  destruct (symbol_for_bits (invert (channel ws)) c k) as (A2 & A1 & A0).
  destruct (symbol_for_bits (invert (channel ws')) c k) as (B2 & B1 & B0).
  pose proof (Z.mod_pos_bound p 3 ltac:(lia)) as Hm.
  assert (p mod 3 = 0 \/ p mod 3 = 1 \/ p mod 3 = 2) as [E|[E|E]] by lia;
    rewrite E; cbn [Z.sub Z.eqb Z.pos_sub Z.opp Pos.eqb Z.succ_double Z.pred_double
                    Z.double xorb].
  - change (2 - 0) with 2. rewrite A2, B2. reflexivity.
  - change (2 - 1) with 1. rewrite A1, B1, Hinv.
    now destruct (Z.testbit c k), (truthy (invert (channel ws))).
  - change (2 - 2) with 0. rewrite A0, B0. reflexivity.
Qed.

Lemma X13_invert_complements_witness :
  stream_bit (pcm_raw (rendered Examples.bcm2835
                         (Examples.strip 1 [0xFF0000] 1) Examples.blank)) 1
  = xorb (stream_bit (pcm_raw (rendered Examples.bcm2835 Examples.one_red
                                 Examples.dirty)) 1)
         (1 mod 3 =? 1).
Proof.
  apply (X13_invert_complements Examples.bcm2835 Examples.one_red
           (Examples.strip 1 [0xFF0000] 1) Examples.dirty Examples.blank 1).
  - repeat split.
  - reflexivity.
  - cbn. lia.
Defined.

(** ** More of brightness scaling *)

Lemma scale_channel_div v scale :
  0 <= v <= 255 -> 1 <= scale <= 256 -> scale_channel v scale = v * scale / 256.
Proof.
  intros Hv Hs.
  destruct (scale_channel_exact v scale Hv Hs) as [E _].
  rewrite E, Z.shiftr_div_pow2 by lia. reflexivity.
Qed.

(** X14: the stored scale depends on the brightness modulo 256 only
    (brightness 256 scales like brightness 0); for a channel value in
    0..255, scale 256 (brightness 255) leaves the value as it is, scale 1
    (brightness 0) turns it into 0, a larger scale never gives a smaller
    result, and no scale gives more than the value itself. *)
Theorem X14_brightness_edges :
  forall (ch : ws2811_channel_t) (v : Z),
    0 <= v <= 255 ->
    scale_of ch = brightness ch mod 256 + 1 /\
    scale_channel v 256 = v /\
    scale_channel v 1 = 0 /\
    (forall s s', 1 <= s -> s <= s' -> s' <= 256 ->
        scale_channel v s <= scale_channel v s' <= v).
Proof.
  intros ch v Hv. split; [|split; [|split]].
  - unfold scale_of. change 255 with (Z.ones 8).
    rewrite Z.land_ones by lia. reflexivity.
  - rewrite scale_channel_div by lia. apply Z.div_mul. lia.
  - rewrite scale_channel_div by lia. rewrite Z.mul_1_r.
    apply Z.div_small. lia.
  - intros s s' H1 H2 H3.
    rewrite !scale_channel_div by lia. split.
    + apply Z.div_le_mono; nia.
    + apply Z.div_le_upper_bound; nia.
Qed.

Lemma X14_brightness_edges_witness :
  scale_of (channel Examples.one_red)
  = brightness (channel Examples.one_red) mod 256 + 1 /\
  scale_channel 200 256 = 200 /\
  scale_channel 200 1 = 0 /\
  (forall s s', 1 <= s -> s <= s' -> s' <= 256 ->
      scale_channel 200 s <= scale_channel 200 s' <= 200).
Proof. apply (X14_brightness_edges (channel Examples.one_red) 200). lia. Defined.

(** ** More of the completion waiter *)

(** While the channel is busy without error for [j] polls and then shows
    the active bit clear, the loop does its [j] rounds, each two reads and
    a delay of 10 microseconds, and is left at the read that follows. *)
Lemma wait_loop_done H hw j : forall fuel w,
  (j < fuel)%nat ->
  (forall i, (i < j)%nat ->
     Z.land (hw DMA_CS (reads w + 2 * i)%nat) (RPI_DMA_CS_ACTIVE H) <> 0 /\
     Z.land (hw DMA_CS (reads w + 2 * i + 1)%nat) (RPI_DMA_CS_ERROR H) = 0) ->
  Z.land (hw DMA_CS (reads w + 2 * j)%nat) (RPI_DMA_CS_ACTIVE H) = 0 ->
  exists w1,
    wait_loop H hw fuel w = Some w1 /\
    pcm_raw w1 = pcm_raw w /\
    log w1 = log w ++ busy_polls hw (reads w) j
             ++ [EvRead DMA_CS (hw DMA_CS (reads w + 2 * j)%nat)] /\
    reads w1 = (reads w + 2 * j + 1)%nat.
Proof.
  induction j as [|j IH]; intros fuel w Hfuel Hbusy Hidle;
    (destruct fuel as [|fuel]; [lia|]);
    cbn [wait_loop vread reads pcm_raw log].
  - replace (reads w + 2 * 0)%nat with (reads w) in * by lia.
    rewrite (truthy_false _ Hidle).
    eexists. split; [reflexivity|]. cbn [pcm_raw log reads busy_polls app].
    repeat split. lia.
  - destruct (Hbusy 0%nat ltac:(lia)) as [Hact Hok].
    replace (reads w + 2 * 0)%nat with (reads w) in Hact by lia.
    replace (reads w + 2 * 0 + 1)%nat with (S (reads w)) in Hok by lia.
    rewrite (truthy_true _ Hact), (truthy_false _ Hok). cbn [negb].
    destruct (IH fuel
                (usleep 10
                   {| pcm_raw := pcm_raw w; reads := S (S (reads w));
                      log := (log w ++ [EvRead DMA_CS (hw DMA_CS (reads w))])
                             ++ [EvRead DMA_CS (hw DMA_CS (S (reads w)))] |}))
      as (w1 & Hrun & Hm & Hl & Hreads).
    + lia.
    + intros i Hi. unfold usleep, tick. cbn [reads].
      replace (S (S (reads w)) + 2 * i)%nat
        with (reads w + 2 * S i)%nat by lia.
      apply Hbusy. lia.
    + unfold usleep, tick. cbn [reads].
      replace (S (S (reads w)) + 2 * j)%nat
        with (reads w + 2 * S j)%nat by lia.
      exact Hidle.
    + unfold usleep, tick in Hm, Hl, Hreads.
      cbn [pcm_raw log reads] in Hm, Hl, Hreads.
      exists w1. split; [exact Hrun|]. split; [exact Hm|]. split; [|lia].
      rewrite Hl. cbn [busy_polls]. rewrite <- !app_assoc. cbn [app].
      replace (S (S (reads w)) + 2 * j)%nat
        with (reads w + 2 * S j)%nat by lia.
      reflexivity.
Qed.

Lemma busy_polls_events hw n j :
  forallb (fun e => is_cs_read e || is_usleep e) (busy_polls hw n j) = true /\
  usleeps (busy_polls hw n j) = j.
Proof.
  revert n. induction j as [|j IH]; intros n; [split; reflexivity|].
  destruct (IH (S (S n))) as [Hall Hus].
  cbn [busy_polls app forallb is_cs_read is_usleep orb andb].
  split; [exact Hall|].
  unfold usleeps in *. cbn [filter is_usleep length]. now rewrite Hus.
Qed.

(** X15: when the DMA channel shows active without error for [j] polls and
    then inactive, with the error bit clear at the check that follows,
    [ws2811_wait] returns 0 after exactly [j] rounds of two reads of
    [dma->cs] and a [usleep(10)], the read that ends the loop and the
    check: [j] delays of 10 microseconds each and [2 * j + 2] reads, without
    touching the buffer. *)
Theorem X15_wait_blocks_while_active :
  forall (H : headers) (hw : reg -> nat -> Z) (fuel j : nat) (w : world),
    (j < fuel)%nat ->
    (forall i, (i < j)%nat ->
       Z.land (hw DMA_CS (reads w + 2 * i)%nat) (RPI_DMA_CS_ACTIVE H) <> 0 /\
       Z.land (hw DMA_CS (reads w + 2 * i + 1)%nat) (RPI_DMA_CS_ERROR H) = 0) ->
    Z.land (hw DMA_CS (reads w + 2 * j)%nat) (RPI_DMA_CS_ACTIVE H) = 0 ->
    Z.land (hw DMA_CS (reads w + 2 * j + 1)%nat) (RPI_DMA_CS_ERROR H) = 0 ->
    exists w' polls,
      ws2811_wait H hw fuel w = Some (0, w') /\
      pcm_raw w' = pcm_raw w /\
      log w' = log w ++ polls /\
      polls = busy_polls hw (reads w) j
              ++ [EvRead DMA_CS (hw DMA_CS (reads w + 2 * j)%nat);
                  EvRead DMA_CS (hw DMA_CS (reads w + 2 * j + 1)%nat)] /\
      forallb (fun e => is_cs_read e || is_usleep e) polls = true /\
      usleeps polls = j /\
      (forall usec, In (EvUsleep usec) polls -> usec = 10) /\
      reads w' = (reads w + 2 * j + 2)%nat.
Proof.
  intros H hw fuel j w Hfuel Hbusy Hidle Hok.
  destruct (wait_loop_done H hw j fuel w Hfuel Hbusy Hidle)
    as (w1 & Hrun & Hm & Hl & Hreads).
  destruct (busy_polls_events hw (reads w) j) as [Hall Hus].
  unfold ws2811_wait. rewrite Hrun. cbn [vread]. rewrite Hreads.
  rewrite (truthy_false _ Hok).
  eexists. eexists.
  split; [reflexivity|]. cbn [pcm_raw log reads].
  split; [exact Hm|]. split; [|split; [reflexivity|split; [|split; [|split]]]].
  - rewrite Hl, <- !app_assoc. reflexivity.
  - rewrite forallb_app, Hall. reflexivity.
  - unfold usleeps in *. rewrite filter_app, length_app, Hus. cbn. lia.
  - intros usec Hin. apply in_app_or in Hin. destruct Hin as [Hin|Hin].
    + clear - Hin. revert Hin. generalize (reads w).
      induction j as [|j IH]; intros n Hin; [destruct Hin|].
      cbn [busy_polls app In] in Hin.
      destruct Hin as [Hin|[Hin|[Hin|Hin]]]; try discriminate Hin.
      * now injection Hin.
      * exact (IH _ Hin).
    + cbn [In] in Hin. destruct Hin as [Hin|[Hin|[]]]; discriminate Hin.
  - lia.
Qed.

Lemma X15_wait_blocks_while_active_witness :
  exists w' polls,
    ws2811_wait Examples.bcm2835 Examples.hw_busy 10 Examples.blank = Some (0, w') /\
    pcm_raw w' = pcm_raw Examples.blank /\
    log w' = log Examples.blank ++ polls /\
    polls = [EvRead DMA_CS 1; EvRead DMA_CS 1; EvUsleep 10;
             EvRead DMA_CS 1; EvRead DMA_CS 1; EvUsleep 10;
             EvRead DMA_CS 0; EvRead DMA_CS 0] /\
    usleeps polls = 2%nat /\
    reads w' = 6%nat.
Proof.
  destruct (X15_wait_blocks_while_active Examples.bcm2835 Examples.hw_busy 10 2
              Examples.blank)
    as (w' & polls & Hrun & Hm & Hl & Hpolls & _ & Hus & _ & Hreads).
  - lia.
  - intros i Hi.
    assert (i = 0 \/ i = 1)%nat as [->| ->] by lia; split; cbn; congruence.
  - reflexivity.
  - reflexivity.
  - exists w', polls. split; [exact Hrun|]. split; [exact Hm|].
    split; [exact Hl|]. split; [exact Hpolls|]. split; [exact Hus|exact Hreads].
Defined.

(** ** The clock and the PCM peripheral *)

Lemma wait_while_busy_returns K hw a : forall fuel s,
  (a < fuel)%nat ->
  Setup.busy_then_idle K hw (Setup.nreads s) a ->
  Setup.wait_while_busy K hw fuel s
  = Some {| Setup.cb := Setup.cb s;
            Setup.nreads := (Setup.nreads s + a + 1)%nat;
            Setup.trace := Setup.trace s
                           ++ Setup.ctl_polls hw (Setup.nreads s) (S a) |}.
Proof.
  induction a as [|a IH]; intros fuel s Hfuel [Hbusy Hidle];
    (destruct fuel as [|fuel]; [lia|]);
    cbn [Setup.wait_while_busy Setup.sread].
  - replace (Setup.nreads s + 0)%nat with (Setup.nreads s) in Hidle by lia.
    rewrite (truthy_false _ Hidle). do 2 f_equal. lia.
  - pose proof (Hbusy 0%nat ltac:(lia)) as Hfirst.
    replace (Setup.nreads s + 0)%nat with (Setup.nreads s) in Hfirst by lia.
    rewrite (truthy_true _ Hfirst). rewrite IH.
    + cbn [Setup.cb Setup.nreads Setup.trace]. do 2 f_equal; [lia|].
      rewrite <- app_assoc. reflexivity.
    + lia.
    + cbn [Setup.nreads]. split.
      * intros i Hi.
        replace (S (Setup.nreads s) + i)%nat
          with (Setup.nreads s + S i)%nat by lia.
        apply Hbusy. lia.
      * replace (S (Setup.nreads s) + a)%nat
          with (Setup.nreads s + S a)%nat by lia.
        exact Hidle.
Qed.

Lemma wait_until_busy_returns K hw b : forall fuel s,
  (b < fuel)%nat ->
  Setup.idle_then_busy K hw (Setup.nreads s) b ->
  Setup.wait_until_busy K hw fuel s
  = Some {| Setup.cb := Setup.cb s;
            Setup.nreads := (Setup.nreads s + b + 1)%nat;
            Setup.trace := Setup.trace s
                           ++ Setup.ctl_polls hw (Setup.nreads s) (S b) |}.
Proof.
  induction b as [|b IH]; intros fuel s Hfuel [Hidle Hbusy];
    (destruct fuel as [|fuel]; [lia|]);
    cbn [Setup.wait_until_busy Setup.sread].
  - replace (Setup.nreads s + 0)%nat with (Setup.nreads s) in Hbusy by lia.
    rewrite (truthy_true _ Hbusy). cbn [negb]. do 2 f_equal. lia.
  - pose proof (Hidle 0%nat ltac:(lia)) as Hfirst.
    replace (Setup.nreads s + 0)%nat with (Setup.nreads s) in Hfirst by lia.
    rewrite (truthy_false _ Hfirst). cbn [negb]. rewrite IH.
    + cbn [Setup.cb Setup.nreads Setup.trace]. do 2 f_equal; [lia|].
      rewrite <- app_assoc. reflexivity.
    + lia.
    + cbn [Setup.nreads]. split.
      * intros i Hi.
        replace (S (Setup.nreads s) + i)%nat
          with (Setup.nreads s + S i)%nat by lia.
        apply Hidle. lia.
      * replace (S (Setup.nreads s) + b)%nat
          with (Setup.nreads s + S b)%nat by lia.
        exact Hbusy.
Qed.

(** The busy-waits leave the control block alone. *)
Lemma wait_while_busy_cb K hw fuel : forall s s',
  Setup.wait_while_busy K hw fuel s = Some s' -> Setup.cb s' = Setup.cb s.
Proof.
  induction fuel as [|fuel IH]; intros s s' Hrun; [discriminate|].
  cbn [Setup.wait_while_busy Setup.sread] in Hrun.
  destruct (truthy _).
  - now rewrite (IH _ _ Hrun).
  - now injection Hrun as <-.
Qed.

Lemma stop_pcm_returns K hw a fuel s :
  (a < fuel)%nat ->
  Setup.busy_then_idle K hw (Setup.nreads s) a ->
  Setup.stop_pcm K hw fuel s
  = Some {| Setup.cb := Setup.cb s;
            Setup.nreads := (Setup.nreads s + a + 1)%nat;
            Setup.trace := Setup.trace s
                           ++ Setup.stop_trace K hw (Setup.nreads s) (S a) |}.
Proof.
  intros Hfuel Hclock. unfold Setup.stop_pcm.
  rewrite (wait_while_busy_returns K hw a) by assumption.
  unfold Setup.stop_trace, Setup.swrite, Setup.susleep.
  cbn [Setup.cb Setup.nreads Setup.trace].
  rewrite <- !app_assoc. reflexivity.
Qed.

(** X16: [stop_pcm] turns the PCM off, kills the clock and then polls the
    clock control register; when the clock shows busy for [a] polls and
    then idle, it returns after exactly [a + 1] polls, the control block
    untouched; and it never returns before a poll has shown the clock
    idle. *)
Theorem X16_stop_pcm :
  forall (K : Setup.setup_headers) (hw : Setup.sreg -> nat -> Z)
         (fuel : nat) (s : Setup.state),
    (forall a,
        (a < fuel)%nat ->
        Setup.busy_then_idle K hw (Setup.nreads s) a ->
        Setup.stop_pcm K hw fuel s
        = Some {| Setup.cb := Setup.cb s;
                  Setup.nreads := (Setup.nreads s + a + 1)%nat;
                  Setup.trace :=
                    Setup.trace s
                    ++ [ Setup.SWrite Setup.R_PCM_CS 0; Setup.SUsleep 10;
                         Setup.SWrite Setup.R_CM_CTL
                           (Z.lor (Setup.CM_PCM_CTL_PASSWD K)
                                  (Setup.CM_PCM_CTL_KILL K));
                         Setup.SUsleep 10 ]
                    ++ Setup.ctl_polls hw (Setup.nreads s) (S a) |}) /\
    (forall s',
        Setup.stop_pcm K hw fuel s = Some s' ->
        (Setup.nreads s < Setup.nreads s')%nat /\
        Z.land (hw Setup.R_CM_CTL (Nat.pred (Setup.nreads s')))
               (Setup.CM_PCM_CTL_BUSY K) = 0).
Proof.
  intros K hw fuel s. split.
  - intros a Hfuel Hclock. now apply stop_pcm_returns.
  - intros s'. unfold Setup.stop_pcm.
    set (s0 := Setup.susleep 10 _).
    change (Setup.nreads s) with (Setup.nreads s0).
    clearbody s0. clear s. revert s0.
    induction fuel as [|fuel IH]; intros s Hrun; [discriminate|].
    cbn [Setup.wait_while_busy Setup.sread] in Hrun.
    destruct (truthy _) eqn:Hctl.
    + apply IH in Hrun. cbn [Setup.nreads] in Hrun. split; [lia|apply Hrun].
    + injection Hrun as <-. cbn [Setup.nreads Nat.pred]. split; [lia|].
      unfold truthy in Hctl. apply negb_false_iff in Hctl.
      now apply Z.eqb_eq.
Qed.

Lemma X16_stop_pcm_witness :
  Setup.stop_pcm SetupExamples.bcm2835 SetupExamples.clock 10 SetupExamples.start
  = Some {| Setup.cb := Setup.cb SetupExamples.start;
            Setup.nreads := (Setup.nreads SetupExamples.start + 2 + 1)%nat;
            Setup.trace :=
              Setup.trace SetupExamples.start
              ++ [ Setup.SWrite Setup.R_PCM_CS 0; Setup.SUsleep 10;
                   Setup.SWrite Setup.R_CM_CTL
                     (Z.lor (Setup.CM_PCM_CTL_PASSWD SetupExamples.bcm2835)
                            (Setup.CM_PCM_CTL_KILL SetupExamples.bcm2835));
                   Setup.SUsleep 10 ]
              ++ Setup.ctl_polls SetupExamples.clock
                   (Setup.nreads SetupExamples.start) 3 |} /\
  (Setup.nreads SetupExamples.start < 3)%nat /\
  Z.land (SetupExamples.clock Setup.R_CM_CTL 2)
         (Setup.CM_PCM_CTL_BUSY SetupExamples.bcm2835) = 0.
Proof.
  destruct (X16_stop_pcm SetupExamples.bcm2835 SetupExamples.clock 10
              SetupExamples.start) as [Hrun Hlast].
  assert (Hstop := Hrun 2%nat ltac:(lia)
            ltac:(split; [intros i Hi;
                          assert (i = 0 \/ i = 1)%nat as [->| ->] by lia;
                          cbn; discriminate
                         |reflexivity])).
  split; [exact Hstop|]. exact (Hlast _ Hstop).
Defined.

Lemma wait_until_busy_cb K hw fuel : forall s s',
  Setup.wait_until_busy K hw fuel s = Some s' -> Setup.cb s' = Setup.cb s.
Proof.
  induction fuel as [|fuel IH]; intros s s' Hrun; [discriminate|].
  cbn [Setup.wait_until_busy Setup.sread] in Hrun.
  destruct (negb (truthy _)).
  - now rewrite (IH _ _ Hrun).
  - now injection Hrun as <-.
Qed.

(** Whenever [setup_pcm] returns, it returns 0 and has built its control
    block. *)
Lemma setup_pcm_returned K hw fuel d ws s r s' :
  Setup.setup_pcm K hw fuel d ws s = Setup.Returns (r, s') ->
  r = 0 /\ Setup.cb s' = Setup.control_block K d ws /\
  to_uint32 (3 * freq ws) <> 0.
Proof.
  unfold Setup.setup_pcm. intros Hrun.
  destruct (Setup.stop_pcm K hw fuel s) as [s1|]; [|discriminate].
  destruct (Z.eqb_spec (to_uint32 (3 * freq ws)) 0) as [|Hdiv]; [discriminate|].
  destruct (Setup.wait_until_busy K hw fuel _) as [s2|]; [|discriminate].
  injection Hrun as <- <-. auto.
Qed.

Lemma setup_pcm_returns K hw fuel d ws s a b :
  (a < fuel)%nat -> (b < fuel)%nat ->
  to_uint32 (3 * freq ws) <> 0 ->
  Setup.busy_then_idle K hw (Setup.nreads s) a ->
  Setup.idle_then_busy K hw (Setup.nreads s + a + 1) b ->
  exists s' rest,
    Setup.setup_pcm K hw fuel d ws s = Setup.Returns (0, s') /\
    Setup.nreads s' = (Setup.nreads s + a + b + 4)%nat /\
    Setup.trace s'
    = Setup.trace s
      ++ Setup.stop_trace K hw (Setup.nreads s) (S a)
      ++ Setup.SWrite Setup.R_CM_DIV
           (Z.lor (Setup.CM_PCM_DIV_PASSWD K)
                  (Setup.CM_PCM_DIV_DIVI K
                     (Setup.OSC_FREQ / to_uint32 (3 * freq ws))))
         :: rest.
Proof.
  intros Ha Hb Hdiv Hstop Hstart. unfold Setup.setup_pcm.
  rewrite (stop_pcm_returns K hw a) by assumption.
  apply Z.eqb_neq in Hdiv. rewrite Hdiv.
  match goal with
  | |- context [Setup.wait_until_busy K hw fuel ?s2] =>
      rewrite (wait_until_busy_returns K hw b fuel s2 Hb Hstart)
  end.
  eexists. eexists. split; [reflexivity|].
  cbn [Setup.nreads Setup.trace Setup.cb Setup.swrite Setup.susleep
       Setup.pcm_cs_or Setup.sread].
  split; [lia|].
  rewrite <- !app_assoc. cbn [app]. reflexivity.
Qed.

(** X17: [setup_pcm] returns 0 whenever it returns, and then the control
    block it has built asks for a single transfer (no next block, no
    stride) of [PCM_BYTE_COUNT] bytes from the bus address of the buffer
    to the PCM FIFO.  It returns when, after the stop, the clock shows idle
    within the fuel and, after the enable, busy within the fuel, having
    stopped the PCM and the clock before it writes the divider
    [OSC_FREQ / (3 * freq)]; with [3 * freq] zero in 32 bits it divides by
    zero instead. *)
Theorem X17_setup_pcm :
  forall (K : Setup.setup_headers) (hw : Setup.sreg -> nat -> Z) (fuel : nat)
         (d : Init.ws2811_device_t) (ws : ws2811_t) (s : Setup.state),
    (forall r s',
        Setup.setup_pcm K hw fuel d ws s = Setup.Returns (r, s') ->
        r = 0 /\
        Setup.txfr_len (Setup.cb s')
        = PCM_BYTE_COUNT (max_channel_led_count ws) (freq ws) /\
        Setup.source_ad (Setup.cb s')
        = addr_to_bus (Init.mbox d) (Init.dev_pcm_raw d) /\
        Setup.dest_ad (Setup.cb s') = Setup.PCM_FIFO_PHYS K /\
        Setup.stride (Setup.cb s') = 0 /\
        Setup.nextconbk (Setup.cb s') = 0) /\
    (forall a b,
        (a < fuel)%nat -> (b < fuel)%nat ->
        Setup.busy_then_idle K hw (Setup.nreads s) a ->
        Setup.idle_then_busy K hw (Setup.nreads s + a + 1) b ->
        (to_uint32 (3 * freq ws) = 0 ->
         Setup.setup_pcm K hw fuel d ws s = Setup.DivideByZero) /\
        (to_uint32 (3 * freq ws) <> 0 ->
         exists s' rest,
           Setup.setup_pcm K hw fuel d ws s = Setup.Returns (0, s') /\
           Setup.nreads s' = (Setup.nreads s + a + b + 4)%nat /\
           Setup.trace s'
           = Setup.trace s
             ++ Setup.stop_trace K hw (Setup.nreads s) (S a)
             ++ Setup.SWrite Setup.R_CM_DIV
                  (Z.lor (Setup.CM_PCM_DIV_PASSWD K)
                         (Setup.CM_PCM_DIV_DIVI K
                            (Setup.OSC_FREQ / to_uint32 (3 * freq ws))))
                :: rest)).
Proof.
  intros K hw fuel d ws s. split.
  - intros r s' Hrun.
    destruct (setup_pcm_returned K hw fuel d ws s r s' Hrun) as (Hr & Hcb & _).
    rewrite Hcb. cbn [Setup.control_block Setup.txfr_len Setup.source_ad
                      Setup.dest_ad Setup.stride Setup.nextconbk].
    repeat split; try assumption.
    rewrite <- (Z.add_0_r (to_int32 _)), to_uint32_of_int32, Z.add_0_r.
    apply to_uint32_small. unfold PCM_BYTE_COUNT. apply to_uint32_range.
  - intros a b Ha Hb Hstop Hstart. split.
    + intros Hzero. unfold Setup.setup_pcm.
      rewrite (stop_pcm_returns K hw a) by assumption.
      rewrite Hzero. reflexivity.
    + intros Hdiv. now apply setup_pcm_returns.
Qed.

Lemma X17_setup_pcm_witness :
  exists s' rest,
    Setup.setup_pcm SetupExamples.bcm2835 SetupExamples.clock 10
                    SetupExamples.device Examples.one_red SetupExamples.start
    = Setup.Returns (0, s') /\
    Setup.txfr_len (Setup.cb s') = 32 /\
    Setup.nextconbk (Setup.cb s') = 0 /\
    Setup.trace s'
    = Setup.trace SetupExamples.start
      ++ Setup.stop_trace SetupExamples.bcm2835 SetupExamples.clock 0 3
      ++ Setup.SWrite Setup.R_CM_DIV
           (Z.lor 0x5A000000 (Z.shiftl 8 12)) :: rest.
Proof.
  destruct (X17_setup_pcm SetupExamples.bcm2835 SetupExamples.clock 10
              SetupExamples.device Examples.one_red SetupExamples.start)
    as [Hany Hruns].
  destruct (Hruns 2%nat 1%nat) as [_ Hok].
  - lia.
  - lia.
  - split; [|reflexivity].
    intros i Hi. assert (i = 0 \/ i = 1)%nat as [->| ->] by lia;
      cbn; discriminate.
  - split; [|cbn; discriminate].
    intros i Hi. assert (i = 0)%nat as -> by lia. reflexivity.
  - destruct Hok as (s' & rest & Hrun & _ & Htrace); [cbn; discriminate|].
    destruct (Hany 0 s' Hrun) as (_ & Hlen & _ & _ & _ & Hnext).
    exists s', rest. split; [exact Hrun|]. split; [exact Hlen|].
    split; [exact Hnext|exact Htrace].
Defined.

(** Whatever the inputs, wrapped or not, the byte count is a multiple of 8
    between 8 and [2^29]. *)
Lemma PCM_BYTE_COUNT_bounds leds freq :
  PCM_BYTE_COUNT leds freq mod 8 = 0 /\
  8 <= PCM_BYTE_COUNT leds freq <= 2 ^ 29.
Proof.
  unfold PCM_BYTE_COUNT.
  pose proof (to_uint32_range
                (to_int32 (leds * 3 * 8 * 3) + reset_bits freq)) as Hbits.
  fold (LED_BIT_COUNT leds freq) in Hbits.
  set (b := LED_BIT_COUNT leds freq) in *.
  change (2 ^ 32) with 4294967296 in Hbits.
  rewrite Z.shiftr_div_pow2 by lia. change (2 ^ 3) with 8.
  assert (Hq : 0 <= b / 8 < 536870912).
  { split; [apply Z.div_pos; lia | apply Z.div_lt_upper_bound; lia]. }
  rewrite land_not7 by (change (2 ^ 32) with 4294967296; lia).
  rewrite Z.div_div by lia. change (8 * 8) with 64.
  assert (Hq64 : 0 <= b / 64 < 67108864).
  { split; [apply Z.div_pos; lia | apply Z.div_lt_upper_bound; lia]. }
  rewrite (to_uint32_small (8 * (b / 64) + 4))
    by (change (2 ^ 32) with 4294967296; lia).
  rewrite to_uint32_small by (change (2 ^ 32) with 4294967296; lia).
  change (2 ^ 29) with 536870912. split; [|lia].
  replace (8 * (b / 64) + 4 + 4) with ((b / 64 + 1) * 8) by ring.
  apply Z.mod_mul. lia.
Qed.

(** The rounded size covers the control block and the buffer. *)
Lemma mbox_size_covers H ws k :
  0 <= k -> PAGE_SIZE H = 2 ^ k -> 0 <= sizeof_dma_cb_t H ->
  PCM_BYTE_COUNT (max_channel_led_count ws) (freq ws) + sizeof_dma_cb_t H
    + PAGE_SIZE H <= 2 ^ 32 ->
  Lifecycle.mbox_size H ws mod PAGE_SIZE H = 0 /\
  PCM_BYTE_COUNT (max_channel_led_count ws) (freq ws) + sizeof_dma_cb_t H
    <= Lifecycle.mbox_size H ws
    < PCM_BYTE_COUNT (max_channel_led_count ws) (freq ws) + sizeof_dma_cb_t H
      + PAGE_SIZE H.
Proof.
  intros Hk Hpage Hcb Hfit.
  unfold Lifecycle.mbox_size.
  set (need := PCM_BYTE_COUNT (max_channel_led_count ws) (freq ws)
               + sizeof_dma_cb_t H) in *.
  assert (Hp : 0 < 2 ^ k) by (apply Z.pow_pos_nonneg; lia).
  assert (Hneed : 0 <= need < 2 ^ 32).
  { subst need. unfold PCM_BYTE_COUNT in *.
    pose proof (to_uint32_range
                  (to_uint32 (Z.land (Z.shiftr (LED_BIT_COUNT
                     (max_channel_led_count ws) (freq ws)) 3)
                     (to_uint32 (Z.lnot 7)) + 4) + 4)).
    lia. }
  rewrite (to_uint32_small need Hneed). rewrite Hpage in *.
  rewrite (to_uint32_small (need + (2 ^ k - 1))) by lia.
  rewrite land_not_pow2 by lia.
  pose proof (Z.div_mod (need + (2 ^ k - 1)) (2 ^ k) ltac:(lia)) as Hdm.
  pose proof (Z.mod_pos_bound (need + (2 ^ k - 1)) (2 ^ k) Hp) as Hm.
  split.
  - rewrite Z.mul_comm. apply Z.mod_mul. lia.
  - lia.
Qed.

(** X18: on the device a successful [ws2811_init] leaves, the transfer that
    [setup_pcm] describes lies inside the memory obtained from the mailbox:
    with a page size that is a power of two and the allocation within the
    32-bit bus address space, the source is [bus_addr + sizeof(dma_cb_t)],
    right behind the control block, and source plus length does not pass
    [bus_addr + size]. *)
Theorem X18_transfer_inside_allocation :
  forall (H : headers) (K : Setup.setup_headers) (hw : Setup.sreg -> nat -> Z)
         (fuel : nat) (X : Init.externals) (ws : ws2811_t)
         (s s' : Setup.state) (r k : Z),
    0 <= k ->
    PAGE_SIZE H = 2 ^ k ->
    0 <= sizeof_dma_cb_t H ->
    0 <= Init.mem_lock X ->
    PCM_BYTE_COUNT (max_channel_led_count ws) (freq ws) + sizeof_dma_cb_t H
      + PAGE_SIZE H <= 2 ^ 32 ->
    Init.mem_lock X + Lifecycle.mbox_size H ws <= 2 ^ 32 ->
    Setup.setup_pcm K hw fuel (Lifecycle.initialised_device H X ws) ws s
    = Setup.Returns (r, s') ->
    let d := Lifecycle.initialised_device H X ws in
    Setup.source_ad (Setup.cb s') = Init.bus_addr (Init.mbox d) + sizeof_dma_cb_t H /\
    Init.bus_addr (Init.mbox d) <= Setup.source_ad (Setup.cb s') /\
    Setup.source_ad (Setup.cb s') + Setup.txfr_len (Setup.cb s')
      <= Init.bus_addr (Init.mbox d) + Init.size (Init.mbox d).
Proof.
  intros H K hw fuel X ws s s' r k Hk Hpage Hcb Hbus Hfit Hspace Hrun d.
  destruct (setup_pcm_returned K hw fuel _ ws s r s' Hrun) as (_ & E & _).
  rewrite E. fold d.
  cbn [Setup.control_block Setup.txfr_len Setup.source_ad].
  destruct (mbox_size_covers H ws k Hk Hpage Hcb Hfit) as [_ Hcover].
  destruct (PCM_BYTE_COUNT_bounds (max_channel_led_count ws) (freq ws))
    as [_ Hpcm].
  change (2 ^ 29) with 536870912 in Hpcm. change (2 ^ 32) with 4294967296 in *.
  assert (Hlen : to_uint32 (to_int32 (PCM_BYTE_COUNT (max_channel_led_count ws)
                                         (freq ws)))
                 = PCM_BYTE_COUNT (max_channel_led_count ws) (freq ws)).
  { rewrite <- (Z.add_0_r (to_int32 _)), to_uint32_of_int32, Z.add_0_r.
    apply to_uint32_small. change (2 ^ 32) with 4294967296. lia. }
  rewrite Hlen.
  assert (Hsrc : addr_to_bus (Init.mbox d) (Init.dev_pcm_raw d)
                 = Init.mem_lock X + sizeof_dma_cb_t H).
  { subst d. cbn [Lifecycle.initialised_device Init.mbox Init.dev_pcm_raw].
    apply (addr_to_bus_offset
             {| Init.handle := Init.mbox_open X; Init.mem_ref := Init.mem_alloc X;
                Init.bus_addr := Init.mem_lock X;
                Init.size := Lifecycle.mbox_size H ws;
                Init.virt_addr := Init.mapmem_buffer X |});
      cbn [Init.bus_addr]; lia. }
  rewrite Hsrc. subst d.
  cbn [Lifecycle.initialised_device Init.mbox Init.bus_addr Init.size]. lia.
Qed.

Lemma X18_transfer_inside_allocation_witness :
  exists s',
    Setup.setup_pcm SetupExamples.bcm2835 SetupExamples.clock 10
                    SetupExamples.device Examples.one_red SetupExamples.start
    = Setup.Returns (0, s') /\
    Setup.source_ad (Setup.cb s') = 0xDE000000 + 32 /\
    0xDE000000 <= Setup.source_ad (Setup.cb s') /\
    Setup.source_ad (Setup.cb s') + Setup.txfr_len (Setup.cb s')
      <= 0xDE000000 + Init.size (Init.mbox SetupExamples.device).
Proof.
  destruct (setup_pcm_returns SetupExamples.bcm2835 SetupExamples.clock 10
              SetupExamples.device Examples.one_red SetupExamples.start 2 1)
    as (s' & rest & Hrun & _).
  - lia.
  - lia.
  - cbn. discriminate.
  - split; [|reflexivity].
    intros i Hi. assert (i = 0 \/ i = 1)%nat as [->| ->] by lia;
      cbn; discriminate.
  - split; [|cbn; discriminate].
    intros i Hi. assert (i = 0)%nat as -> by lia. reflexivity.
  - exists s'. split; [exact Hrun|].
    apply (X18_transfer_inside_allocation Examples.bcm2835 SetupExamples.bcm2835
             SetupExamples.clock 10 Examples.all_ok Examples.one_red
             SetupExamples.start s' 0 12).
    + lia.
    + reflexivity.
    + cbn. lia.
    + cbn. lia.
    + vm_compute. discriminate.
    + vm_compute. discriminate.
    + exact Hrun.
Defined.

(** ** Initialisation: the zero-fill and the mapping *)

Lemma forallb_repeat (A : Type) (f : A -> bool) (x : A) (n : nat) :
  n <> 0%nat -> forallb f (repeat x n) = f x.
Proof.
  induction n as [|n IH]; intros Hn; [congruence|].
  cbn [repeat forallb]. destruct n as [|n].
  - cbn. apply andb_true_r.
  - rewrite IH by congruence. now destruct (f x).
Qed.

(** The history of [pcm_raw_init]: [wordcount] stores of 0 to
    [pcm_raw[wordcount]]. *)
Lemma pcm_raw_init_log ws w :
  let wordcount :=
    to_int32 (PCM_BYTE_COUNT (max_channel_led_count ws) (freq ws) / 4) in
  log (pcm_raw_init ws w)
  = log w ++ repeat (EvStore wordcount 0) (Z.to_nat wordcount).
Proof.
  intros wordcount. unfold pcm_raw_init. fold wordcount.
  assert (Hloop : forall l w,
            log (fold_left (fun w (_ : Z) => store wordcount 0 w) l w)
            = log w ++ repeat (EvStore wordcount 0) (length l)).
  { induction l as [|x l IH]; intros w0.
    - cbn. now rewrite app_nil_r.
    - cbn [fold_left length repeat]. rewrite IH. cbn [store log].
      now rewrite <- app_assoc. }
  rewrite Hloop. unfold upto. now rewrite length_map, length_seq.
Qed.

(** The word count is the byte count divided by 4, exactly, and at least
    2. *)
Lemma word_count_exact leds freq :
  to_int32 (PCM_BYTE_COUNT leds freq / 4) = PCM_BYTE_COUNT leds freq / 4 /\
  4 * (PCM_BYTE_COUNT leds freq / 4) = PCM_BYTE_COUNT leds freq /\
  2 <= PCM_BYTE_COUNT leds freq / 4.
Proof.
  destruct (PCM_BYTE_COUNT_bounds leds freq) as [Hmod Hrange].
  set (n := PCM_BYTE_COUNT leds freq) in *.
  change (2 ^ 29) with 536870912 in Hrange.
  pose proof (Z.div_mod n 8 ltac:(lia)) as H8.
  pose proof (Z.div_mod n 4 ltac:(lia)) as H4.
  pose proof (Z.mod_pos_bound n 4 ltac:(lia)) as Hb.
  assert (E : n mod 4 = 0).
  { replace n with (0 + (2 * (n / 8)) * 4) by lia.
    rewrite Z.mod_add by lia. reflexivity. }
  split; [|lia].
  unfold to_int32. change (2 ^ 31) with 2147483648.
  change (2 ^ 32) with 4294967296.
  rewrite Z.mod_small by lia. lia.
Qed.

(** [pcm_raw_init] stays inside the mapping exactly when the word behind
    the sized buffer, [pcm_raw[wordcount]], lies inside it. *)
Lemma zero_fill_mapped d ws :
  Lifecycle.stores_mapped d (Lifecycle.pcm_raw_init_stores ws)
  = Lifecycle.in_mapping (Init.mbox d)
      (Init.dev_pcm_raw d + PCM_BYTE_COUNT (max_channel_led_count ws) (freq ws)) 4.
Proof.
  unfold Lifecycle.stores_mapped, Lifecycle.pcm_raw_init_stores.
  rewrite pcm_raw_init_log. cbn [log app].
  destruct (word_count_exact (max_channel_led_count ws) (freq ws))
    as (Hint & H4 & H2).
  rewrite Hint, forallb_repeat by lia. now rewrite H4.
Qed.

Lemma in_mapping_true m a n :
  Init.virt_addr m <> 0 -> Init.virt_addr m <= a ->
  a + n <= Init.virt_addr m + Init.size m ->
  Lifecycle.in_mapping m a n = true.
Proof.
  intros Hv Ha Hn. unfold Lifecycle.in_mapping.
  apply Z.eqb_neq in Hv. rewrite Hv.
  apply Z.leb_le in Ha, Hn. now rewrite Ha, Hn.
Qed.

Lemma in_mapping_inv m a n :
  Lifecycle.in_mapping m a n = true ->
  Init.virt_addr m <> 0 /\ Init.virt_addr m <= a /\
  a + n <= Init.virt_addr m + Init.size m.
Proof.
  unfold Lifecycle.in_mapping. intros Hin.
  apply andb_prop in Hin as [Hin Hn]. apply andb_prop in Hin as [Hv Ha].
  apply negb_true_iff, Z.eqb_neq in Hv. apply Z.leb_le in Ha, Hn. auto.
Qed.

(** ** Initialisation and teardown *)

(** [map_registers] when every window maps. *)
Lemma map_registers_ok X d l :
  Init.dmanum_to_offset X <> 0 -> Init.mapmem_dma X <> 0 ->
  Init.mapmem_pcm X <> 0 -> Init.mapmem_gpio X <> 0 ->
  Init.mapmem_cm_pcm X <> 0 ->
  Init.map_registers X d l
  = (0,
     {| Init.dev_pcm_raw := Init.dev_pcm_raw d; Init.dev_dma := Init.mapmem_dma X;
        Init.dev_pcm := Init.mapmem_pcm X; Init.dev_dma_cb := Init.dev_dma_cb d;
        Init.dev_gpio := Init.mapmem_gpio X;
        Init.dev_cm_pcm := Init.mapmem_cm_pcm X; Init.mbox := Init.mbox d |},
     Init.Mapping (Init.mapmem_cm_pcm X) :: Init.Mapping (Init.mapmem_gpio X)
       :: Init.Mapping (Init.mapmem_pcm X) :: Init.Mapping (Init.mapmem_dma X)
       :: l).
Proof.
  intros Hoff Hdma Hpcm Hgpio Hcm.
  destruct d as [praw ddma dpcm dcb dgpio dcm m].
  apply Z.eqb_neq in Hoff, Hdma, Hpcm, Hgpio, Hcm.
  unfold Init.map_registers, Init.acquire_map.
  cbn [Init.dev_pcm_raw Init.dev_dma Init.dev_pcm Init.dev_dma_cb
       Init.dev_gpio Init.dev_cm_pcm Init.mbox].
  rewrite Hoff, Hdma, Hpcm, Hgpio, Hcm. reflexivity.
Qed.

(** [map_registers] returns 0 only when the offset is known and every
    window has mapped. *)
Lemma map_registers_zero X d l :
  fst (fst (Init.map_registers X d l)) = 0 ->
  Init.dmanum_to_offset X <> 0 /\ Init.mapmem_dma X <> 0 /\
  Init.mapmem_pcm X <> 0 /\ Init.mapmem_gpio X <> 0 /\
  Init.mapmem_cm_pcm X <> 0.
Proof.
  destruct d as [praw ddma dpcm dcb dgpio dcm m].
  unfold Init.map_registers.
  cbn [Init.dev_pcm_raw Init.dev_dma Init.dev_pcm Init.dev_dma_cb
       Init.dev_gpio Init.dev_cm_pcm Init.mbox].
  destruct (Z.eqb_spec (Init.dmanum_to_offset X) 0); [discriminate|].
  destruct (Z.eqb_spec (Init.mapmem_dma X) 0); [discriminate|].
  destruct (Z.eqb_spec (Init.mapmem_pcm X) 0); [discriminate|].
  destruct (Z.eqb_spec (Init.mapmem_gpio X) 0); [discriminate|].
  destruct (Z.eqb_spec (Init.mapmem_cm_pcm X) 0); [discriminate|].
  auto.
Qed.

Ltac init_projections :=
  cbn [Init.handle Init.mem_ref Init.bus_addr Init.size Init.virt_addr
       Init.dev_dma Init.dev_pcm Init.dev_gpio Init.dev_cm_pcm Init.mbox
       Init.dev_pcm_raw Init.dev_dma_cb Init.device Init.leds_set Init.live
       Init.cleanups].

Lemma windows_mapped_true X :
  Lifecycle.windows_mapped X = true ->
  Init.dmanum_to_offset X <> 0 /\ Init.mapmem_dma X <> 0 /\
  Init.mapmem_pcm X <> 0 /\ Init.mapmem_gpio X <> 0 /\
  Init.mapmem_cm_pcm X <> 0.
Proof.
  unfold Lifecycle.windows_mapped. intros Hok.
  apply andb_prop in Hok as [Hok Hcm]. apply andb_prop in Hok as [Hok Hgpio].
  apply andb_prop in Hok as [Hok Hpcm]. apply andb_prop in Hok as [Hoff Hdma].
  apply negb_true_iff in Hoff, Hdma, Hpcm, Hgpio, Hcm.
  apply Z.eqb_neq in Hoff, Hdma, Hpcm, Hgpio, Hcm. auto.
Qed.

Lemma windows_mapped_intro X :
  Init.dmanum_to_offset X <> 0 -> Init.mapmem_dma X <> 0 ->
  Init.mapmem_pcm X <> 0 -> Init.mapmem_gpio X <> 0 ->
  Init.mapmem_cm_pcm X <> 0 ->
  Lifecycle.windows_mapped X = true.
Proof.
  intros Hoff Hdma Hpcm Hgpio Hcm. unfold Lifecycle.windows_mapped.
  apply Z.eqb_neq in Hoff, Hdma, Hpcm, Hgpio, Hcm.
  now rewrite Hoff, Hdma, Hpcm, Hgpio, Hcm.
Qed.

Lemma gpio_init_truthy X ws :
  truthy (Init.gpio_init X ws) = negb (Lifecycle.pin_supported X ws).
Proof.
  unfold Init.gpio_init, Lifecycle.pin_supported, truthy.
  destruct (gpionum (channel ws) =? 0); cbn [negb orb]; [reflexivity|].
  destruct (Z.ltb_spec (Init.pcm_pin_alt X) 0), (Z.leb_spec 0 (Init.pcm_pin_alt X));
    try lia; reflexivity.
Qed.

Lemma allocated_open X :
  Lifecycle.allocated X = true -> Init.mbox_open X <> -1.
Proof.
  unfold Lifecycle.allocated. intros Hok.
  destruct (Init.rpi_hw_detect X); [|discriminate].
  destruct (Init.malloc_device X); [|discriminate].
  apply andb_prop in Hok as [Hok _]. apply andb_prop in Hok as [Hok _].
  apply negb_true_iff in Hok. now apply Z.eqb_neq.
Qed.

(** [ws2811_init] up to the allocation of the LED array, on a run where the
    calls up to [mem_lock] succeed. *)
Ltac init_allocated Hok :=
  unfold Lifecycle.allocated in Hok; unfold Lifecycle.ws2811_init;
  destruct (Init.rpi_hw_detect _) as [?vc|] eqn:?Hdetect; [|discriminate Hok];
  destruct (Init.malloc_device _) as [?d0|] eqn:?Hdev; [|discriminate Hok];
  let Hopen := fresh "Hopen" in
  let Halloc := fresh "Halloc" in
  let Hlock := fresh "Hlock" in
  apply andb_prop in Hok as [Hok Hlock];
  apply andb_prop in Hok as [Hopen Halloc];
  apply negb_true_iff in Hopen, Halloc, Hlock;
  match goal with
  | d : Init.ws2811_device_t |- _ =>
      destruct d as [?praw ?ddma ?dpcm ?dcb ?dgpio ?dcm [?h0 ?r0 ?b0 ?s0 ?v0]]
  end;
  cbn [Init.handle Init.mem_ref Init.bus_addr Init.size Init.virt_addr
       Init.dev_dma Init.dev_pcm Init.dev_gpio Init.dev_cm_pcm Init.mbox
       Init.dev_pcm_raw Init.dev_dma_cb Init.device Init.leds_set Init.live
       Init.cleanups];
  rewrite Hopen, Halloc, Hlock.

(** The zero-fill and the [memset] of the control block stay inside the
    mapping when the buffer has mapped and the rounded size leaves room for
    the word behind the buffer. *)
Lemma zero_fill_inside H X ws :
  Init.mapmem_buffer X <> 0 -> 0 <= sizeof_dma_cb_t H ->
  sizeof_dma_cb_t H + PCM_BYTE_COUNT (max_channel_led_count ws) (freq ws) + 4
    <= Lifecycle.mbox_size H ws ->
  let m := Init.mbox (Lifecycle.initialised_device H X ws) in
  Lifecycle.in_mapping m
    (Init.mapmem_buffer X + sizeof_dma_cb_t H
     + PCM_BYTE_COUNT (max_channel_led_count ws) (freq ws)) 4 = true /\
  Lifecycle.in_mapping m (Init.mapmem_buffer X) (sizeof_dma_cb_t H) = true.
Proof.
  intros Hbuf Hcb Hroom m.
  destruct (PCM_BYTE_COUNT_bounds (max_channel_led_count ws) (freq ws))
    as [_ Hrange].
  split; apply in_mapping_true; subst m;
    cbn [Lifecycle.initialised_device Init.mbox Init.virt_addr Init.size];
    try assumption; lia.
Qed.

(** [ws2811_init] on a run where the calls up to [map_registers] succeed
    and the zero-fill stays inside the mapping: what is left are the pin
    and [setup_pcm]. *)
Lemma ws2811_init_mapped H K hw X fuel ws st :
  Lifecycle.allocated X = true -> Init.malloc_leds X = true ->
  Lifecycle.windows_mapped X = true ->
  Init.mapmem_buffer X <> 0 -> 0 <= sizeof_dma_cb_t H ->
  sizeof_dma_cb_t H + PCM_BYTE_COUNT (max_channel_led_count ws) (freq ws) + 4
    <= Lifecycle.mbox_size H ws ->
  Lifecycle.ws2811_init H K hw X fuel ws st
  = let d := Lifecycle.initialised_device H X ws in
    let failed :=
      Lifecycle.Returns (-1)
        (Init.ws2811_cleanup d
           {| Init.device := Some d; Init.leds_set := true;
              Init.live := Init.unmap_registers d (Lifecycle.initialised_live X);
              Init.cleanups := 0 |}) in
    if Lifecycle.pin_supported X ws then
      match Setup.setup_pcm K hw fuel d ws (Lifecycle.zeroed st) with
      | Setup.Polling => Lifecycle.Polls
      | Setup.DivideByZero => Lifecycle.DividesByZero
      | Setup.Returns (r, _) =>
          if truthy r then failed
          else Lifecycle.Returns 0
                 {| Init.device := Some d; Init.leds_set := true;
                    Init.live := Lifecycle.initialised_live X;
                    Init.cleanups := 0 |}
      end
    else failed.
Proof.
  intros Hok Hleds Hwin Hbuf Hcb Hroom.
  destruct (windows_mapped_true X Hwin) as (Hoff & Hdma & Hpcm & Hgpio & Hcm).
  destruct (zero_fill_inside H X ws Hbuf Hcb Hroom) as [Hfill Hset].
  cbn [Lifecycle.initialised_device Init.mbox] in Hfill, Hset.
  unfold Lifecycle.mbox_size in Hfill, Hset.
  init_allocated Hok.
  rewrite Hleds. cbn [negb].
  rewrite zero_fill_mapped. init_projections.
  rewrite Hfill, Hset. cbn [negb].
  rewrite map_registers_ok by assumption.
  replace (truthy 0) with false by reflexivity.
  rewrite gpio_init_truthy. cbv zeta.
  unfold Lifecycle.initialised_device, Lifecycle.initialised_live,
    Lifecycle.mbox_size.
  init_projections. cbn [app].
  destruct (Lifecycle.pin_supported X ws); cbn [negb]; reflexivity.
Qed.
(** *** The ledger *)

Lemma resource_eqb_eq a b : Init.resource_eqb a b = true <-> a = b.
Proof.
  destruct a, b; cbn; try (split; [discriminate|congruence]);
    try (split; reflexivity);
    rewrite Z.eqb_eq; split; congruence.
Qed.

Lemma release_all_filter rs l :
  Lifecycle.release_all rs l
  = filter (fun x => negb (existsb (fun r => Init.resource_eqb r x) rs)) l.
Proof.
  unfold Lifecycle.release_all. revert l.
  induction rs as [|r rs IH]; intros l; cbn [fold_left existsb].
  - cbn [negb]. induction l as [|x l IHl]; [reflexivity|].
    cbn [filter]. now rewrite <- IHl.
  - rewrite IH. unfold Init.release.
    induction l as [|x l IHl]; [reflexivity|]. cbn [filter].
    destruct (Init.resource_eqb r x); cbn [negb orb filter];
      [exact IHl|].
    destruct (negb (existsb _ rs)); [now rewrite IHl|exact IHl].
Qed.

(** Releasing every resource of a ledger leaves nothing. *)
Lemma release_all_nil rs l :
  (forall x, In x l -> In x rs) -> Lifecycle.release_all rs l = [].
Proof.
  intros Hall. rewrite release_all_filter.
  induction l as [|x l IH]; [reflexivity|]. cbn [filter].
  assert (Hx : existsb (fun r => Init.resource_eqb r x) rs = true).
  { apply existsb_exists. exists x. split; [apply Hall; now left|].
    now apply resource_eqb_eq. }
  rewrite Hx. cbn [negb]. apply IH. intros y Hy. apply Hall. now right.
Qed.

(** Releasing resources that a ledger does not hold changes nothing. *)
Lemma release_all_keep rs l :
  (forall x, In x l -> ~ In x rs) -> Lifecycle.release_all rs l = l.
Proof.
  intros Hnone. rewrite release_all_filter.
  induction l as [|x l IH]; [reflexivity|]. cbn [filter].
  assert (Hx : existsb (fun r => Init.resource_eqb r x) rs = false).
  { apply not_true_is_false. intros Hex.
    apply existsb_exists in Hex. destruct Hex as (r & Hr & Heq).
    apply resource_eqb_eq in Heq. subst r. exact (Hnone x (or_introl eq_refl) Hr). }
  rewrite Hx. cbn [negb]. f_equal. apply IH. intros y Hy. apply Hnone. now right.
Qed.

Lemma release_all_app rs l1 l2 :
  Lifecycle.release_all rs (l1 ++ l2)
  = Lifecycle.release_all rs l1 ++ Lifecycle.release_all rs l2.
Proof. rewrite !release_all_filter. apply filter_app. Qed.

(** [unmap_registers] on windows that are all mapped. *)
Lemma unmap_registers_all d l :
  Init.dev_dma d <> 0 -> Init.dev_pcm d <> 0 ->
  Init.dev_gpio d <> 0 -> Init.dev_cm_pcm d <> 0 ->
  Init.unmap_registers d l
  = Lifecycle.release_all
      [Init.Mapping (Init.dev_dma d); Init.Mapping (Init.dev_pcm d);
       Init.Mapping (Init.dev_cm_pcm d); Init.Mapping (Init.dev_gpio d)] l.
Proof.
  intros Hdma Hpcm Hgpio Hcm. unfold Init.unmap_registers.
  rewrite !truthy_true by assumption. reflexivity.
Qed.

(** [ws2811_cleanup] with an open mailbox and an allocated array. *)
Lemma ws2811_cleanup_all d s :
  Init.handle (Init.mbox d) <> -1 -> Init.leds_set s = true ->
  Init.ws2811_cleanup d s
  = {| Init.device := None; Init.leds_set := false;
       Init.live :=
         Lifecycle.release_all
           [Init.LedArray; Init.Mapping (Init.virt_addr (Init.mbox d));
            Init.VcLock (Init.mem_ref (Init.mbox d));
            Init.VcMemory (Init.mem_ref (Init.mbox d));
            Init.Mailbox (Init.handle (Init.mbox d)); Init.DeviceStruct]
           (Init.live s);
       Init.cleanups := S (Init.cleanups s) |}.
Proof.
  intros Hh Hleds. unfold Init.ws2811_cleanup. rewrite Hleds.
  apply Z.eqb_neq in Hh. rewrite Hh. reflexivity.
Qed.

Lemma release_all_twice rs1 rs2 l :
  Lifecycle.release_all rs2 (Lifecycle.release_all rs1 l)
  = Lifecycle.release_all (rs1 ++ rs2) l.
Proof. unfold Lifecycle.release_all. now rewrite fold_left_app. Qed.

Lemma release_prefix rs ms l :
  (forall x, In x ms -> In x rs) ->
  (forall x, In x l -> ~ In x rs) ->
  Lifecycle.release_all rs (ms ++ l) = l.
Proof.
  intros Hms Hl.
  now rewrite release_all_app, (release_all_nil rs ms Hms),
    (release_all_keep rs l Hl).
Qed.

(** [unmap_registers] followed by [ws2811_cleanup] leaves nothing of a
    ledger that holds only the windows, the LED array, the buffer mapping,
    the lock, the memory, the mailbox and the device structure. *)
Lemma teardown_nil d dv l :
  Init.dev_dma d <> 0 -> Init.dev_pcm d <> 0 ->
  Init.dev_gpio d <> 0 -> Init.dev_cm_pcm d <> 0 ->
  Init.handle (Init.mbox d) <> -1 ->
  (forall x, In x l ->
     In x [Init.Mapping (Init.dev_dma d); Init.Mapping (Init.dev_pcm d);
           Init.Mapping (Init.dev_cm_pcm d); Init.Mapping (Init.dev_gpio d);
           Init.LedArray; Init.Mapping (Init.virt_addr (Init.mbox d));
           Init.VcLock (Init.mem_ref (Init.mbox d));
           Init.VcMemory (Init.mem_ref (Init.mbox d));
           Init.Mailbox (Init.handle (Init.mbox d)); Init.DeviceStruct]) ->
  Init.ws2811_cleanup d
    {| Init.device := dv; Init.leds_set := true;
       Init.live := Init.unmap_registers d l; Init.cleanups := 0 |}
  = Lifecycle.torn_down.
Proof.
  intros Hdma Hpcm Hgpio Hcm Hopen Hl.
  rewrite ws2811_cleanup_all by (assumption || reflexivity).
  cbn [Init.live Init.cleanups]. rewrite unmap_registers_all by assumption.
  rewrite release_all_twice. unfold Lifecycle.torn_down. f_equal.
  apply release_all_nil. exact Hl.
Qed.

Lemma live_in_ledger (cm gp pc dm buf r h : Z) (x : Init.resource) :
  In x
    (Init.Mapping cm :: Init.Mapping gp :: Init.Mapping pc :: Init.Mapping dm
     :: Init.LedArray
     :: Init.acquire_map buf
          [Init.VcLock r; Init.VcMemory r; Init.Mailbox h;
           Init.DeviceStruct]) ->
  In x
    [Init.Mapping dm; Init.Mapping pc; Init.Mapping cm; Init.Mapping gp;
     Init.LedArray; Init.Mapping buf; Init.VcLock r; Init.VcMemory r;
     Init.Mailbox h; Init.DeviceStruct].
Proof.
  unfold Init.acquire_map. intros Hx.
  destruct (buf =? 0); cbn [In] in *; intuition auto.
Qed.

(** [ws2811_init] returns 0 only when every checked call has succeeded,
    the zero-fill has stayed inside the mapping and [setup_pcm] has
    returned; it then holds what [initialised_live] lists. *)
Lemma ws2811_init_zero H K hw X fuel ws st s :
  Lifecycle.ws2811_init H K hw X fuel ws st = Lifecycle.Returns 0 s ->
  Lifecycle.calls_succeed X ws = true /\
  Init.mapmem_buffer X <> 0 /\
  sizeof_dma_cb_t H + PCM_BYTE_COUNT (max_channel_led_count ws) (freq ws) + 4
    <= Lifecycle.mbox_size H ws /\
  (exists s', Setup.setup_pcm K hw fuel (Lifecycle.initialised_device H X ws)
                ws (Lifecycle.zeroed st) = Setup.Returns (0, s')) /\
  s = {| Init.device := Some (Lifecycle.initialised_device H X ws);
         Init.leds_set := true;
         Init.live := Lifecycle.initialised_live X;
         Init.cleanups := 0 |}.
Proof.
  unfold Lifecycle.calls_succeed, Lifecycle.allocated,
    Lifecycle.initialised_device, Lifecycle.initialised_live,
    Lifecycle.mbox_size, Lifecycle.ws2811_init.
  destruct (Init.rpi_hw_detect X) as [vc|]; [|discriminate].
  destruct (Init.malloc_device X) as [d0|]; [|discriminate].
  destruct d0 as [praw ddma dpcm dcb dgpio dcm [h0 r0 b0 s0 v0]].
  init_projections.
  destruct (Init.mbox_open X =? -1); [discriminate|].
  destruct (Init.mem_alloc X =? 0); [discriminate|].
  destruct (Init.mem_lock X =? to_uint32 (Z.lnot 0)); [discriminate|].
  destruct (Init.malloc_leds X); [|discriminate]. cbn [negb andb].
  rewrite zero_fill_mapped. init_projections.
  match goal with
  | |- context [negb (Lifecycle.in_mapping ?m ?a 4)] =>
      destruct (Lifecycle.in_mapping m a 4) eqn:Hfill; [|discriminate]
  end.
  match goal with
  | |- context [negb (Lifecycle.in_mapping ?m ?a ?n)] =>
      destruct (Lifecycle.in_mapping m a n) eqn:Hset; [|discriminate]
  end.
  cbn [negb].
  apply in_mapping_inv in Hfill. apply in_mapping_inv in Hset.
  cbn [Init.virt_addr Init.size] in Hfill, Hset.
  destruct (Lifecycle.windows_mapped X) eqn:Hwin.
  - destruct (windows_mapped_true X Hwin) as (Hoff & Hdma & Hpcm & Hgpio & Hcm).
    rewrite map_registers_ok by assumption.
    replace (truthy 0) with false by reflexivity.
    rewrite gpio_init_truthy.
    destruct (Lifecycle.pin_supported X ws); [|discriminate]. cbn [negb andb].
    init_projections. cbn [app].
    match goal with
    | |- context [Setup.setup_pcm K hw fuel ?d ws ?s] =>
        destruct (Setup.setup_pcm K hw fuel d ws s) as [[r2 s2]| |] eqn:Hsetup;
          try discriminate
    end.
    destruct (setup_pcm_returned _ _ _ _ _ _ _ _ Hsetup) as (-> & _ & _).
    replace (truthy 0) with false by reflexivity.
    intros Hrun.
    apply (f_equal (fun o => match o with
                             | Lifecycle.Returns _ s => s
                             | _ => s
                             end)) in Hrun.
    cbv beta iota in Hrun. rewrite <- Hrun.
    split; [reflexivity|]. split; [tauto|]. split; [lia|].
    split; [eexists; reflexivity|]. reflexivity.
  - match goal with
    | |- context [Init.map_registers X ?d ?l] =>
        pose proof (map_registers_zero X d l) as Hmap;
        destruct (Init.map_registers X d l) as [[r d1] l1]
    end.
    cbn [fst] in Hmap. unfold truthy at 1.
    destruct (Z.eqb_spec r 0) as [->|]; [|discriminate].
    destruct (Hmap eq_refl) as (Hoff & Hdma & Hpcm & Hgpio & Hcm).
    rewrite (windows_mapped_intro X Hoff Hdma Hpcm Hgpio Hcm) in Hwin.
    discriminate Hwin.
Qed.

Ltac init_result :=
  let E := fresh "E" in
  intros E;
  lazymatch type of E with
  | Lifecycle.Returns _ _ = Lifecycle.Returns _ _ =>
      apply (f_equal (fun o => match o with
                               | Lifecycle.Returns r _ => r
                               | _ => 0
                               end)) in E;
      cbv beta iota in E; rewrite <- E; auto
  | _ => discriminate E
  end.

(** [ws2811_init] returns nothing but 0 and -1. *)
Lemma ws2811_init_result H K hw X fuel ws st r s :
  Lifecycle.ws2811_init H K hw X fuel ws st = Lifecycle.Returns r s ->
  r = 0 \/ r = -1.
Proof.
  unfold Lifecycle.ws2811_init.
  destruct (Init.rpi_hw_detect X) as [vc|]; [|init_result].
  destruct (Init.malloc_device X) as [d0|]; [|init_result].
  destruct d0 as [praw ddma dpcm dcb dgpio dcm [h0 r0 b0 s0 v0]].
  init_projections.
  destruct (Init.mbox_open X =? -1); [init_result|].
  destruct (Init.mem_alloc X =? 0); [init_result|].
  destruct (Init.mem_lock X =? to_uint32 (Z.lnot 0)); [init_result|].
  destruct (Init.malloc_leds X); cbn [negb]; [|init_result].
  destruct (Lifecycle.stores_mapped _ _); cbn [negb]; [|init_result].
  destruct (Lifecycle.in_mapping _ _ _); cbn [negb]; [|init_result].
  destruct (Init.map_registers X _ _) as [[r1 d1] l1].
  destruct (truthy r1); [init_result|].
  destruct (truthy (Init.gpio_init X ws)); [init_result|].
  destruct (Setup.setup_pcm K hw fuel d1 ws _) as [[r2 s2]| |];
    try init_result.
  destruct (truthy r2); init_result.
Qed.

(** On that device, [unmap_registers] and [ws2811_cleanup] release all. *)
Lemma failed_torn_down H X ws :
  Lifecycle.allocated X = true -> Lifecycle.windows_mapped X = true ->
  let d := Lifecycle.initialised_device H X ws in
  Init.ws2811_cleanup d
    {| Init.device := Some d; Init.leds_set := true;
       Init.live := Init.unmap_registers d (Lifecycle.initialised_live X);
       Init.cleanups := 0 |}
  = Lifecycle.torn_down.
Proof.
  intros Hok Hwin d. subst d.
  destruct (windows_mapped_true X Hwin) as (Hoff & Hdma & Hpcm & Hgpio & Hcm).
  pose proof (allocated_open X Hok) as Hopen.
  unfold Lifecycle.initialised_live.
  apply teardown_nil;
    cbn [Lifecycle.initialised_device Init.dev_dma Init.dev_pcm Init.dev_gpio
         Init.dev_cm_pcm Init.mbox Init.handle Init.virt_addr Init.mem_ref app];
    try assumption.
  intros x. apply live_in_ledger.
Qed.

(** X5: [ws2811_init] returns 0 only when every call whose result it checks
    has succeeded, the buffer has mapped with room for the word behind it
    that [pcm_raw_init] stores to, and [3 * freq] is not zero in 32 bits;
    it then holds the device structure, the mailbox, the VideoCore memory
    with its lock, the buffer mapping, the LED array and the four register
    windows, with the control block at the start of the mapping and the
    buffer [sizeof(dma_cb_t)] bytes behind it.  Under these conditions it
    does return 0 once the clock shows idle after the stop and busy after
    the enable of [setup_pcm].  Whenever it returns, the result is 0 or
    -1. *)
Theorem X5_init_success :
  forall (H : headers) (K : Setup.setup_headers) (hw : Setup.sreg -> nat -> Z)
         (X : Init.externals) (fuel : nat) (ws : ws2811_t) (st : Setup.state),
    let need := sizeof_dma_cb_t H
                + PCM_BYTE_COUNT (max_channel_led_count ws) (freq ws) in
    let held :=
      {| Init.device := Some (Lifecycle.initialised_device H X ws);
         Init.leds_set := true;
         Init.live :=
           [ Init.Mapping (Init.mapmem_cm_pcm X);
             Init.Mapping (Init.mapmem_gpio X);
             Init.Mapping (Init.mapmem_pcm X);
             Init.Mapping (Init.mapmem_dma X);
             Init.LedArray;
             Init.Mapping (Init.mapmem_buffer X);
             Init.VcLock (Init.mem_alloc X);
             Init.VcMemory (Init.mem_alloc X);
             Init.Mailbox (Init.mbox_open X);
             Init.DeviceStruct ];
         Init.cleanups := 0 |} in
    (forall s,
        Lifecycle.ws2811_init H K hw X fuel ws st = Lifecycle.Returns 0 s ->
        Lifecycle.calls_succeed X ws = true /\
        Init.mapmem_buffer X <> 0 /\
        need + 4 <= Lifecycle.mbox_size H ws /\
        to_uint32 (3 * freq ws) <> 0 /\
        s = held) /\
    (Lifecycle.calls_succeed X ws = true ->
     Init.mapmem_buffer X <> 0 ->
     0 <= sizeof_dma_cb_t H ->
     need + 4 <= Lifecycle.mbox_size H ws ->
     to_uint32 (3 * freq ws) <> 0 ->
     forall a b,
       (a < fuel)%nat -> (b < fuel)%nat ->
       Setup.busy_then_idle K hw (Setup.nreads st) a ->
       Setup.idle_then_busy K hw (Setup.nreads st + a + 1) b ->
       Lifecycle.ws2811_init H K hw X fuel ws st = Lifecycle.Returns 0 held) /\
    (forall r s,
        Lifecycle.ws2811_init H K hw X fuel ws st = Lifecycle.Returns r s ->
        r = 0 \/ r = -1).
Proof.
  intros H K hw X fuel ws st need held. split; [|split].
  - intros s Hrun.
    destruct (ws2811_init_zero H K hw X fuel ws st s Hrun)
      as (Hok & Hbuf & Hroom & (s' & Hsetup) & ->).
    destruct (setup_pcm_returned _ _ _ _ _ _ _ _ Hsetup) as (_ & _ & Hdiv).
    repeat (split; [assumption|]).
    subst held. unfold Lifecycle.initialised_live, Init.acquire_map.
    apply Z.eqb_neq in Hbuf. rewrite Hbuf. reflexivity.
  - intros Hok Hbuf Hcb Hroom Hdiv a b Ha Hb Hstop Hstart.
    unfold Lifecycle.calls_succeed in Hok.
    apply andb_prop in Hok as [Hok Hpin]. apply andb_prop in Hok as [Hok Hwin].
    apply andb_prop in Hok as [Hok Hleds].
    rewrite (ws2811_init_mapped H K hw X fuel ws st Hok Hleds Hwin Hbuf Hcb Hroom).
    cbv zeta. rewrite Hpin.
    destruct (setup_pcm_returns K hw fuel (Lifecycle.initialised_device H X ws)
                ws (Lifecycle.zeroed st) a b Ha Hb Hdiv Hstop Hstart)
      as (s' & rest & Hsetup & _).
    rewrite Hsetup. replace (truthy 0) with false by reflexivity.
    subst held. unfold Lifecycle.initialised_live, Init.acquire_map.
    apply Z.eqb_neq in Hbuf. rewrite Hbuf. reflexivity.
  - intros r s. apply ws2811_init_result.
Qed.

Lemma X5_init_success_witness :
  Lifecycle.ws2811_init Examples.bcm2835 SetupExamples.bcm2835
    SetupExamples.clock Examples.all_ok 10 Examples.one_red SetupExamples.start
  = Lifecycle.Returns 0
      {| Init.device := Some SetupExamples.device;
         Init.leds_set := true;
         Init.live :=
           [ Init.Mapping 0x76400000; Init.Mapping 0x76300000;
             Init.Mapping 0x76200000; Init.Mapping 0x76100000; Init.LedArray;
             Init.Mapping 0x76000000; Init.VcLock 7; Init.VcMemory 7;
             Init.Mailbox 3; Init.DeviceStruct ];
         Init.cleanups := 0 |}.
Proof.
  apply (proj1 (proj2 (X5_init_success Examples.bcm2835 SetupExamples.bcm2835
                         SetupExamples.clock Examples.all_ok 10
                         Examples.one_red SetupExamples.start))
           eq_refl) with (a := 2%nat) (b := 1%nat).
  - cbn. discriminate.
  - cbn. lia.
  - vm_compute. discriminate.
  - cbn. discriminate.
  - lia.
  - lia.
  - split; [|reflexivity].
    intros i Hi. assert (i = 0 \/ i = 1)%nat as [->| ->] by lia;
      cbn; discriminate.
  - split; [|cbn; discriminate].
    intros i Hi. assert (i = 0)%nat as -> by lia. reflexivity.
Defined.

(** X6: when the calls up to [mem_lock] succeed and the LED array cannot be
    allocated, [ws2811_init] returns -1 through [ws2811_cleanup], which has
    released the buffer mapping, the lock, the VideoCore memory, the mailbox
    and the device structure: nothing is held. *)
Theorem X6_init_no_leds_releases_all :
  forall (H : headers) (K : Setup.setup_headers) (hw : Setup.sreg -> nat -> Z)
         (X : Init.externals) (fuel : nat) (ws : ws2811_t) (st : Setup.state),
    Lifecycle.allocated X = true ->
    Init.malloc_leds X = false ->
    Lifecycle.ws2811_init H K hw X fuel ws st
    = Lifecycle.Returns (-1) Lifecycle.torn_down.
Proof.
  intros H K hw X fuel ws st Hok Hleds. init_allocated Hok.
  rewrite Hleds. cbn [negb]. unfold Init.ws2811_cleanup.
  init_projections. rewrite Hopen. cbn [negb].
  unfold Lifecycle.torn_down. f_equal. f_equal.
  change (Lifecycle.release_all
            [Init.Mapping (Init.mapmem_buffer X); Init.VcLock (Init.mem_alloc X);
             Init.VcMemory (Init.mem_alloc X); Init.Mailbox (Init.mbox_open X);
             Init.DeviceStruct]
            (Init.acquire_map (Init.mapmem_buffer X)
               [Init.VcLock (Init.mem_alloc X); Init.VcMemory (Init.mem_alloc X);
                Init.Mailbox (Init.mbox_open X); Init.DeviceStruct]) = []).
  apply release_all_nil. unfold Init.acquire_map. intros x Hx.
  destruct (Init.mapmem_buffer X =? 0); cbn [In] in *; intuition auto.
Qed.

Lemma X6_init_no_leds_releases_all_witness :
  Lifecycle.ws2811_init Examples.bcm2835 SetupExamples.bcm2835
    SetupExamples.clock MoreExamples.no_leds 10 Examples.one_red
    SetupExamples.start
  = Lifecycle.Returns (-1) Lifecycle.torn_down.
Proof.
  apply (X6_init_no_leds_releases_all Examples.bcm2835 SetupExamples.bcm2835
           SetupExamples.clock MoreExamples.no_leds 10 Examples.one_red
           SetupExamples.start); reflexivity.
Defined.

(** X7: when every call up to the mapping of the windows succeeds, the
    buffer has mapped with room for the word behind it that [pcm_raw_init]
    stores to, and the pin has no PCM function, [ws2811_init] returns -1
    after [unmap_registers] and [ws2811_cleanup]: the four windows, the LED
    array, the buffer mapping, the lock, the VideoCore memory, the mailbox
    and the device structure are all released. *)
Theorem X7_init_bad_pin_releases_all :
  forall (H : headers) (K : Setup.setup_headers) (hw : Setup.sreg -> nat -> Z)
         (X : Init.externals) (fuel : nat) (ws : ws2811_t) (st : Setup.state),
    Lifecycle.allocated X = true ->
    Init.malloc_leds X = true ->
    Lifecycle.windows_mapped X = true ->
    Lifecycle.pin_supported X ws = false ->
    Init.mapmem_buffer X <> 0 ->
    0 <= sizeof_dma_cb_t H ->
    sizeof_dma_cb_t H + PCM_BYTE_COUNT (max_channel_led_count ws) (freq ws) + 4
      <= Lifecycle.mbox_size H ws ->
    Lifecycle.ws2811_init H K hw X fuel ws st
    = Lifecycle.Returns (-1) Lifecycle.torn_down.
Proof.
  intros H K hw X fuel ws st Hok Hleds Hwin Hpin Hbuf Hcb Hroom.
  rewrite (ws2811_init_mapped H K hw X fuel ws st Hok Hleds Hwin Hbuf Hcb Hroom).
  cbv zeta. rewrite Hpin. f_equal.
  exact (failed_torn_down H X ws Hok Hwin).
Qed.

Lemma X7_init_bad_pin_releases_all_witness :
  Lifecycle.ws2811_init Examples.bcm2835 SetupExamples.bcm2835
    SetupExamples.clock Examples.bad_pin 10 Examples.one_red SetupExamples.start
  = Lifecycle.Returns (-1) Lifecycle.torn_down.
Proof.
  apply (X7_init_bad_pin_releases_all Examples.bcm2835 SetupExamples.bcm2835
           SetupExamples.clock Examples.bad_pin 10 Examples.one_red
           SetupExamples.start); try reflexivity.
  - cbn. discriminate.
  - cbn. lia.
  - vm_compute. discriminate.
Defined.

(** X8: after a successful [ws2811_init], the teardown of [ws2811_fini]
    ([unmap_registers], then [ws2811_cleanup]) releases every resource the
    initialisation acquired and clears the device pointer. *)
Theorem X8_fini_releases_all :
  forall (H : headers) (K : Setup.setup_headers) (hw : Setup.sreg -> nat -> Z)
         (X : Init.externals) (fuel : nat) (ws : ws2811_t) (st : Setup.state)
         (s : Init.sys) (d : Init.ws2811_device_t),
    Lifecycle.ws2811_init H K hw X fuel ws st = Lifecycle.Returns 0 s ->
    Init.device s = Some d ->
    Lifecycle.fini_teardown d s = Lifecycle.torn_down.
Proof.
  intros H K hw X fuel ws st s d Hinit Hdev.
  destruct (ws2811_init_zero H K hw X fuel ws st s Hinit)
    as (Hok & _ & _ & _ & ->).
  cbn [Init.device] in Hdev. injection Hdev as <-.
  unfold Lifecycle.calls_succeed in Hok.
  apply andb_prop in Hok as [Hok Hpin]. apply andb_prop in Hok as [Hok Hwin].
  apply andb_prop in Hok as [Hok Hleds].
  unfold Lifecycle.fini_teardown.
  cbn [Init.device Init.leds_set Init.live Init.cleanups].
  exact (failed_torn_down H X ws Hok Hwin).
Qed.

Lemma X8_fini_releases_all_witness :
  Lifecycle.fini_teardown SetupExamples.device
    {| Init.device := Some SetupExamples.device;
       Init.leds_set := true;
       Init.live := Lifecycle.initialised_live Examples.all_ok;
       Init.cleanups := 0 |}
  = Lifecycle.torn_down.
Proof.
  apply (X8_fini_releases_all Examples.bcm2835 SetupExamples.bcm2835
           SetupExamples.clock Examples.all_ok 10 Examples.one_red
           SetupExamples.start).
  - vm_compute. reflexivity.
  - reflexivity.
Defined.

(** X20: when the calls up to the allocation of the LED array succeed and
    the buffer has not mapped ([mapmem] returned NULL), or the rounded size
    leaves no room behind control block and buffer for the word
    [pcm_raw[wordcount]] that [pcm_raw_init] stores to, [ws2811_init]
    stores outside the mapping: its behaviour is undefined from
    [pcm_raw_init] on, whatever the later calls would return. *)
Theorem X20_init_stores_outside_mapping :
  forall (H : headers) (K : Setup.setup_headers) (hw : Setup.sreg -> nat -> Z)
         (X : Init.externals) (fuel : nat) (ws : ws2811_t) (st : Setup.state),
    Lifecycle.allocated X = true ->
    Init.malloc_leds X = true ->
    Init.mapmem_buffer X = 0 \/
    Lifecycle.mbox_size H ws
    < sizeof_dma_cb_t H + PCM_BYTE_COUNT (max_channel_led_count ws) (freq ws) + 4 ->
    Lifecycle.ws2811_init H K hw X fuel ws st = Lifecycle.Faults.
Proof.
  intros H K hw X fuel ws st Hok Hleds Hout.
  unfold Lifecycle.mbox_size in Hout.
  init_allocated Hok.
  rewrite Hleds. cbn [negb].
  rewrite zero_fill_mapped. init_projections.
  match goal with
  | |- context [negb (Lifecycle.in_mapping ?m ?a 4)] =>
      destruct (Lifecycle.in_mapping m a 4) eqn:Hfill; [|reflexivity]
  end.
  apply in_mapping_inv in Hfill. cbn [Init.virt_addr Init.size] in Hfill.
  lia.
Qed.

Lemma X20_init_stores_outside_mapping_witness :
  Lifecycle.ws2811_init Examples.bcm2835 SetupExamples.bcm2835
    SetupExamples.clock MoreExamples.null_buffer 10 Examples.one_red
    SetupExamples.start = Lifecycle.Faults /\
  Lifecycle.mbox_size Examples.bcm2835 MoreExamples.page_filling = 4096 /\
  PCM_BYTE_COUNT 449 800000 = 4064 /\
  Lifecycle.ws2811_init Examples.bcm2835 SetupExamples.bcm2835
    SetupExamples.clock Examples.all_ok 10 MoreExamples.page_filling
    SetupExamples.start = Lifecycle.Faults.
Proof.
  split; [|split; [|split]].
  - apply (X20_init_stores_outside_mapping Examples.bcm2835 SetupExamples.bcm2835
             SetupExamples.clock MoreExamples.null_buffer 10 Examples.one_red
             SetupExamples.start); [reflexivity|reflexivity|].
    left. reflexivity.
  - vm_compute. reflexivity.
  - vm_compute. reflexivity.
  - apply (X20_init_stores_outside_mapping Examples.bcm2835 SetupExamples.bcm2835
             SetupExamples.clock Examples.all_ok 10 MoreExamples.page_filling
             SetupExamples.start); [reflexivity|reflexivity|].
    right. vm_compute. reflexivity.
Defined.

(** X21: when every checked call succeeds and the zero-fill stays inside
    the mapping, but [3 * freq] is zero in 32 bits (a tick rate of 0, for
    one), [ws2811_init] does not return: once the clock shows idle after
    the stop, [setup_pcm] divides [OSC_FREQ] by zero. *)
Theorem X21_init_divides_by_zero :
  forall (H : headers) (K : Setup.setup_headers) (hw : Setup.sreg -> nat -> Z)
         (X : Init.externals) (fuel : nat) (ws : ws2811_t) (st : Setup.state)
         (a : nat),
    Lifecycle.calls_succeed X ws = true ->
    Init.mapmem_buffer X <> 0 ->
    0 <= sizeof_dma_cb_t H ->
    sizeof_dma_cb_t H + PCM_BYTE_COUNT (max_channel_led_count ws) (freq ws) + 4
      <= Lifecycle.mbox_size H ws ->
    to_uint32 (3 * freq ws) = 0 ->
    (a < fuel)%nat ->
    Setup.busy_then_idle K hw (Setup.nreads st) a ->
    Lifecycle.ws2811_init H K hw X fuel ws st = Lifecycle.DividesByZero.
Proof.
  intros H K hw X fuel ws st a Hok Hbuf Hcb Hroom Hzero Ha Hstop.
  unfold Lifecycle.calls_succeed in Hok.
  apply andb_prop in Hok as [Hok Hpin]. apply andb_prop in Hok as [Hok Hwin].
  apply andb_prop in Hok as [Hok Hleds].
  rewrite (ws2811_init_mapped H K hw X fuel ws st Hok Hleds Hwin Hbuf Hcb Hroom).
  cbv zeta. rewrite Hpin. unfold Setup.setup_pcm.
  rewrite (stop_pcm_returns K hw a fuel (Lifecycle.zeroed st) Ha Hstop).
  rewrite Hzero. reflexivity.
Qed.

Lemma X21_init_divides_by_zero_witness :
  Lifecycle.ws2811_init Examples.bcm2835 SetupExamples.bcm2835
    SetupExamples.clock Examples.all_ok 10 MoreExamples.no_tick_rate
    SetupExamples.start = Lifecycle.DividesByZero.
Proof.
  apply (X21_init_divides_by_zero Examples.bcm2835 SetupExamples.bcm2835
           SetupExamples.clock Examples.all_ok 10 MoreExamples.no_tick_rate
           SetupExamples.start 2).
  - reflexivity.
  - cbn. discriminate.
  - cbn. lia.
  - vm_compute. discriminate.
  - reflexivity.
  - lia.
  - split; [|reflexivity].
    intros i Hi. assert (i = 0 \/ i = 1)%nat as [->| ->] by lia;
      cbn; discriminate.
Defined.

Lemma wait_while_busy_stuck K hw :
  (forall n, Z.land (hw Setup.R_CM_CTL n) (Setup.CM_PCM_CTL_BUSY K) <> 0) ->
  forall fuel s, Setup.wait_while_busy K hw fuel s = None.
Proof.
  intros Hbusy. induction fuel as [|fuel IH]; intros s; [reflexivity|].
  cbn [Setup.wait_while_busy Setup.sread].
  rewrite (truthy_true _ (Hbusy (Setup.nreads s))). apply IH.
Qed.

(** X22: when every checked call succeeds and the zero-fill stays inside
    the mapping, but the clock control register never shows the clock
    idle, [ws2811_init] does not return: whatever the fuel, the busy-wait
    of [stop_pcm] is still polling when it runs out. *)
Theorem X22_init_waits_for_clock :
  forall (H : headers) (K : Setup.setup_headers) (hw : Setup.sreg -> nat -> Z)
         (X : Init.externals) (ws : ws2811_t) (st : Setup.state),
    Lifecycle.calls_succeed X ws = true ->
    Init.mapmem_buffer X <> 0 ->
    0 <= sizeof_dma_cb_t H ->
    sizeof_dma_cb_t H + PCM_BYTE_COUNT (max_channel_led_count ws) (freq ws) + 4
      <= Lifecycle.mbox_size H ws ->
    (forall n, Z.land (hw Setup.R_CM_CTL n) (Setup.CM_PCM_CTL_BUSY K) <> 0) ->
    forall fuel,
      Lifecycle.ws2811_init H K hw X fuel ws st = Lifecycle.Polls.
Proof.
  intros H K hw X ws st Hok Hbuf Hcb Hroom Hbusy fuel.
  unfold Lifecycle.calls_succeed in Hok.
  apply andb_prop in Hok as [Hok Hpin]. apply andb_prop in Hok as [Hok Hwin].
  apply andb_prop in Hok as [Hok Hleds].
  rewrite (ws2811_init_mapped H K hw X fuel ws st Hok Hleds Hwin Hbuf Hcb Hroom).
  cbv zeta. rewrite Hpin. unfold Setup.setup_pcm, Setup.stop_pcm.
  now rewrite (wait_while_busy_stuck K hw Hbusy).
Qed.

Lemma X22_init_waits_for_clock_witness :
  Lifecycle.ws2811_init Examples.bcm2835 SetupExamples.bcm2835
    MoreExamples.clock_stuck Examples.all_ok 1000 Examples.one_red
    SetupExamples.start = Lifecycle.Polls.
Proof.
  apply (X22_init_waits_for_clock Examples.bcm2835 SetupExamples.bcm2835
           MoreExamples.clock_stuck Examples.all_ok Examples.one_red
           SetupExamples.start).
  - reflexivity.
  - cbn. discriminate.
  - cbn. lia.
  - vm_compute. discriminate.
  - intros n. cbn. discriminate.
Defined.

(** X9: on a device whose window pointers are NULL, [unmap_registers] undoes
    [map_registers] whatever its outcome: the windows that were mapped before
    a failure (or all four) are unmapped, the NULL ones are skipped, and the
    ledger is as before. *)
Theorem X9_unmap_undoes_map :
  forall (X : Init.externals) (d : Init.ws2811_device_t) (l : list Init.resource),
    Lifecycle.windows_null d ->
    Lifecycle.apart_from_windows X l ->
    Init.unmap_registers (snd (fst (Init.map_registers X d l)))
                         (snd (Init.map_registers X d l))
    = l.
Proof.
  intros X d l (Hd1 & Hd2 & Hd3 & Hd4) Hapart.
  destruct d as [praw ddma dpcm dcb dgpio dcm m].
  cbn [Init.dev_dma Init.dev_pcm Init.dev_gpio Init.dev_cm_pcm] in *. subst.
  assert (Hkeep : forall rs,
            (forall r, In r rs ->
               r = Init.Mapping (Init.mapmem_dma X) \/
               r = Init.Mapping (Init.mapmem_pcm X) \/
               r = Init.Mapping (Init.mapmem_gpio X) \/
               r = Init.Mapping (Init.mapmem_cm_pcm X)) ->
            forall x, In x l -> ~ In x rs).
  { intros rs Hrs x Hx Hin.
    destruct (Hrs x Hin) as [->|[->|[->| ->]]];
      destruct (Hapart _ Hx) as (? & ? & ? & ?); congruence. }
  unfold Init.map_registers, Init.unmap_registers, Init.acquire_map.
  cbn [Init.dev_pcm_raw Init.dev_dma Init.dev_pcm Init.dev_dma_cb
       Init.dev_gpio Init.dev_cm_pcm Init.mbox].
  destruct (Z.eqb_spec (Init.dmanum_to_offset X) 0) as [Eoff|Eoff];
    [reflexivity|].
  destruct (Z.eqb_spec (Init.mapmem_dma X) 0) as [Edma|Edma].
  { cbn [fst snd Init.dev_dma Init.dev_pcm Init.dev_gpio Init.dev_cm_pcm].
    rewrite Edma. reflexivity. }
  destruct (Z.eqb_spec (Init.mapmem_pcm X) 0) as [Epcm|Epcm].
  { cbn [fst snd Init.dev_dma Init.dev_pcm Init.dev_gpio Init.dev_cm_pcm].
    rewrite Epcm, (truthy_true _ Edma). cbn [truthy Z.eqb negb].
    apply (release_prefix [Init.Mapping (Init.mapmem_dma X)]
                          [Init.Mapping (Init.mapmem_dma X)] l).
    - auto.
    - apply Hkeep. cbn [In]. intuition auto. }
  destruct (Z.eqb_spec (Init.mapmem_gpio X) 0) as [Egpio|Egpio].
  { cbn [fst snd Init.dev_dma Init.dev_pcm Init.dev_gpio Init.dev_cm_pcm].
    rewrite Egpio, (truthy_true _ Edma), (truthy_true _ Epcm).
    cbn [truthy Z.eqb negb].
    apply (release_prefix
             [Init.Mapping (Init.mapmem_dma X); Init.Mapping (Init.mapmem_pcm X)]
             [Init.Mapping (Init.mapmem_pcm X); Init.Mapping (Init.mapmem_dma X)] l).
    - cbn [In]. intuition auto.
    - apply Hkeep. cbn [In]. intuition auto. }
  destruct (Z.eqb_spec (Init.mapmem_cm_pcm X) 0) as [Ecm|Ecm].
  { cbn [fst snd Init.dev_dma Init.dev_pcm Init.dev_gpio Init.dev_cm_pcm].
    rewrite Ecm, (truthy_true _ Edma), (truthy_true _ Epcm),
      (truthy_true _ Egpio).
    cbn [truthy Z.eqb negb].
    apply (release_prefix
             [Init.Mapping (Init.mapmem_dma X); Init.Mapping (Init.mapmem_pcm X);
              Init.Mapping (Init.mapmem_gpio X)]
             [Init.Mapping (Init.mapmem_gpio X); Init.Mapping (Init.mapmem_pcm X);
              Init.Mapping (Init.mapmem_dma X)] l).
    - cbn [In]. intuition auto.
    - apply Hkeep. cbn [In]. intuition auto. }
  cbn [fst snd Init.dev_dma Init.dev_pcm Init.dev_gpio Init.dev_cm_pcm].
  rewrite (truthy_true _ Edma), (truthy_true _ Epcm), (truthy_true _ Egpio),
    (truthy_true _ Ecm).
  apply (release_prefix
           [Init.Mapping (Init.mapmem_dma X); Init.Mapping (Init.mapmem_pcm X);
            Init.Mapping (Init.mapmem_cm_pcm X); Init.Mapping (Init.mapmem_gpio X)]
           [Init.Mapping (Init.mapmem_cm_pcm X); Init.Mapping (Init.mapmem_gpio X);
            Init.Mapping (Init.mapmem_pcm X); Init.Mapping (Init.mapmem_dma X)] l).
  - cbn [In]. intuition auto.
  - apply Hkeep. cbn [In]. intuition auto.
Qed.

Lemma X9_unmap_undoes_map_witness :
  Init.unmap_registers
    (snd (fst (Init.map_registers Examples.pcm_map_fails Examples.fresh_device
                 [Init.Mapping 0x76000000; Init.DeviceStruct])))
    (snd (Init.map_registers Examples.pcm_map_fails Examples.fresh_device
            [Init.Mapping 0x76000000; Init.DeviceStruct]))
  = [Init.Mapping 0x76000000; Init.DeviceStruct].
Proof.
  apply (X9_unmap_undoes_map Examples.pcm_map_fails Examples.fresh_device).
  - repeat split.
  - intros a [Ha|[Ha|[]]]; [|discriminate Ha].
    injection Ha as <-. cbn. repeat split; discriminate.
Defined.

(** X19: for every LED count and tick rate, also where the 32-bit
    arithmetic wraps around, [PCM_BYTE_COUNT] is a multiple of 8 between 8
    and [2^29]; so the word count of [pcm_raw_init] and the [int32_t] byte
    count of [setup_pcm] hold it without loss. *)
Theorem X19_byte_count_always :
  forall leds freq : Z,
    PCM_BYTE_COUNT leds freq mod 8 = 0 /\
    8 <= PCM_BYTE_COUNT leds freq <= 2 ^ 29 /\
    to_int32 (PCM_BYTE_COUNT leds freq / 4) * 4 = PCM_BYTE_COUNT leds freq /\
    to_uint32 (to_int32 (PCM_BYTE_COUNT leds freq)) = PCM_BYTE_COUNT leds freq.
Proof.
  intros leds freq.
  destruct (PCM_BYTE_COUNT_bounds leds freq) as [Hmod Hrange].
  set (n := PCM_BYTE_COUNT leds freq) in *.
  change (2 ^ 29) with 536870912 in Hrange.
  split; [exact Hmod|]. split; [exact Hrange|]. split.
  - pose proof (Z.div_mod n 8 ltac:(lia)) as H8.
    pose proof (Z.div_mod n 4 ltac:(lia)) as H4.
    pose proof (Z.mod_pos_bound n 4 ltac:(lia)) as Hb.
    assert (E : n mod 4 = 0).
    { replace n with (0 + (2 * (n / 8)) * 4) by lia.
      rewrite Z.mod_add by lia. reflexivity. }
    unfold to_int32. change (2 ^ 31) with 2147483648.
    change (2 ^ 32) with 4294967296.
    rewrite Z.mod_small by lia. lia.
  - rewrite <- (Z.add_0_r (to_int32 n)), to_uint32_of_int32, Z.add_0_r.
    apply to_uint32_small. change (2 ^ 32) with 4294967296. lia.
Qed.
